(** * nutritionverse_postprocessing: the texturing scripts, embedded and verified

    Two programs of the repository are modelled here:
    - [texturing/texturing_with_meshlab.py] ([Module Meshlab]): the [chdir]
      context manager and [auto_texture] with its retry around pymeshlab;
    - [text2tex/generate_texture.py] ([Module Text2Tex]): the two-stage
      texture generation script, written against its collaborators in
      [lib.*] (renderer, inpainter, back-projection, view selection), which
      are parameters of the model.

    [Module Modelled] holds the two collaborators that the specification
    describes and the sources only call: the mask classification and the
    back-projection merger.  [Module Observe] reads logs, [Module Fixture]
    provides concrete collaborators to run the script on.

    Python exceptions are values of [PyExc]; a computation that may raise
    returns a [result].  Calls into collaborators are recorded in a log, so
    that statements such as "the inpainter is not called" can be made.

    The properties follow the definitions: [MeshlabFacts], [Text2TexFacts],
    [MaskFacts], and [Runs] for the runs on concrete collaborators. *)

From Stdlib Require Import List String Ascii Bool Arith ZArith QArith Qround Lia.
From Stdlib Require Import Sorting.Sorted Relations.Relation_Definitions.
From Stdlib Require Import Lqa.
Import ListNotations.
Local Close Scope Q_scope.
Local Open Scope nat_scope.
Local Open Scope string_scope.
Local Open Scope list_scope.

(** ** Exceptions and results *)

Inductive PyExc : Type :=
| PyMeshLabException (msg : string)
| FileNotFoundError (path : string)
| ValueError (msg : string)
| IndexError (msg : string)
| RuntimeError (msg : string).

Inductive result (A : Type) : Type :=
| Ok (a : A)
| Err (e : PyExc).
Arguments Ok {A} a.
Arguments Err {A} e.

(** [isinstance(e, pymeshlab.pmeshlab.PyMeshLabException)] *)
Definition is_PyMeshLabException (e : PyExc) : bool :=
  match e with PyMeshLabException _ => true | _ => false end.

(** ** Stateful, fallible computations

    [M S A] threads a state [S]; the effects made before an exception is
    raised stay, as they do in Python. *)

Definition M (S A : Type) : Type := S -> result A * S.

Definition ret {S A} (a : A) : M S A := fun s => (Ok a, s).

Definition raise {S A} (e : PyExc) : M S A := fun s => (Err e, s).

Definition bind {S A B} (m : M S A) (k : A -> M S B) : M S B :=
  fun s => match m s with
           | (Ok a, s') => k a s'
           | (Err e, s') => (Err e, s')
           end.

Definition lift {S A} (r : result A) : M S A := fun s => (r, s).

Declare Scope py_scope.
Delimit Scope py_scope with py.
Notation "x <- m ;; k" := (bind m (fun x => k))
  (at level 61, m at next level, right associativity) : py_scope.
Notation "' pat <- m ;; k" := (bind m (fun pat => k))
  (at level 61, pat pattern, m at next level, right associativity) : py_scope.
Notation "m ;;; k" := (bind m (fun _ => k))
  (at level 61, right associativity) : py_scope.
Local Open Scope py_scope.

(** ** texturing/texturing_with_meshlab.py *)

Module Meshlab.

(** The part of the process state the script touches: the working directory
    and the directories that exist.  Paths are compared as strings. *)
Record OS : Type := mkOS { cwd : string; dirs : list string }.

Definition dir_exists (p : string) (o : OS) : bool :=
  existsb (String.eqb p) (dirs o).

Definition os_getcwd (o : OS) : string := cwd o.

(** [os.chdir(p)]: raises [FileNotFoundError] when [p] is not a directory. *)
Definition os_chdir (p : string) (o : OS) : result OS :=
  if dir_exists p o then Ok (mkOS p (dirs o)) else Err (FileNotFoundError p).

(** The methods of [pymeshlab.MeshSet] that [auto_texture] invokes. *)
Inductive Call : Type :=
| MeshSet_new
| load_new_mesh (file_name : string)
| compute_texcoord_by_function_per_vertex
| compute_texcoord_transfer_vertex_to_wedge
| compute_texcoord_parametrization_triangle_trivial_per_wedge
    (textdim border : Z) (method : string)
| compute_texmap_from_color (textname : string) (textw texth : Z) (overwrite : bool)
| save_current_mesh (file_name : string)
| print (line : string).

(** The log keeps every invocation together with the exception it raised. *)
Definition Entry : Type := (Call * option PyExc)%type.

Record World : Type := mkWorld { os : OS; calls : list Entry }.

(** [try: m  except PyMeshLabException: h] *)
Definition try_except_PyMeshLab {A} (m : M World A) (h : PyExc -> M World A) : M World A :=
  fun w => match m w with
           | (Err e, w') => if is_PyMeshLabException e then h e w' else (Err e, w')
           | ok => ok
           end.

(** [str.replace(old, new)] for a non-empty [old]: the occurrences are
    replaced from left to right, without overlap. *)
Fixpoint replace_from (old new s : string) (skip : nat) : string :=
  match s with
  | EmptyString => EmptyString
  | String c s' =>
      match skip with
      | S k => replace_from old new s' k
      | O => if String.prefix old s
             then new ++ replace_from old new s' (String.length old - 1)
             else String c (replace_from old new s' 0)
      end
  end.

Definition replace (old new s : string) : string := replace_from old new s 0.

Record Path : Type := mkPath { parent : string; name : string }.

Section WithCollaborators.

(** pymeshlab and the console: given the earlier invocations, the call
    and the process state, an exception or none, and the new state. *)
Variable pymeshlab : list Entry -> Call -> OS -> option PyExc * OS.

(** [pathlib.PurePath.with_suffix] on a file name: raises [ValueError] on
    a name it does not accept. *)
Variable with_suffix : string -> string -> result string.

Definition invoke (c : Call) : M World unit :=
  fun w =>
    let (r, o') := pymeshlab (calls w) c (os w) in
    (match r with Some e => Err e | None => Ok tt end,
     mkWorld o' (calls w ++ [(c, r)])).

(** [@contextlib.contextmanager def chdir(x)], used as [with chdir(x): body]:
<<
    d = os.getcwd()
    os.chdir(x)
    try: yield
    finally: os.chdir(d)
>>
    An exception of [os.chdir(x)] leaves before the block is entered; one
    raised by the [finally] clause replaces the outcome of the block. *)
Definition chdir {A} (x : string) (body : M World A) : M World A :=
  fun w =>
    let d := os_getcwd (os w) in
    match os_chdir x (os w) with
    | Err e => (Err e, w)
    | Ok o1 =>
        let (r, w2) := body (mkWorld o1 (calls w)) in
        match os_chdir d (os w2) with
        | Err e => (Err e, w2)
        | Ok o3 => (r, mkWorld o3 (calls w2))
        end
    end.

(** The two attempts of lines 38-51. *)
Definition texmap_attempt (textname : string) (resolution : Z) (overwrite : bool) : Call :=
  compute_texmap_from_color textname resolution resolution overwrite.

(** The block under [with chdir(obj_path.parent)] in [auto_texture]. *)
Definition auto_texture_block (obj_path : Path) (resolution : Z) : M World unit :=
  let obj_name := name obj_path in
  let textname_str := replace "_pc" "" (replace "_mesh" "" obj_name) in
  textname <- lift (with_suffix textname_str ".png") ;;
  invoke MeshSet_new ;;;
  invoke (load_new_mesh obj_name) ;;;
  invoke compute_texcoord_by_function_per_vertex ;;;
  invoke compute_texcoord_transfer_vertex_to_wedge ;;;
  invoke (compute_texcoord_parametrization_triangle_trivial_per_wedge resolution 0 "Basic") ;;;
  try_except_PyMeshLab
    (invoke (texmap_attempt textname resolution true))
    (fun _ => invoke (texmap_attempt textname resolution false)) ;;;
  mesh_outfile_name <- lift (with_suffix (name obj_path) ".pt.obj") ;;
  invoke (save_current_mesh mesh_outfile_name) ;;;
  invoke (print ("Texture saved as " ++ textname)%string).

Definition auto_texture (obj_path : Path) (resolution : Z) : M World unit :=
  chdir (parent obj_path) (auto_texture_block obj_path resolution).

End WithCollaborators.

(** The retry of line 46: an attempt with [overwrite=False]. *)
Definition is_retry (en : Entry) : bool :=
  match fst en with
  | compute_texmap_from_color _ _ _ false => true
  | _ => false
  end.

(** A first attempt ([overwrite=True]) on which pymeshlab raised its own
    exception: the one case the [except] clause handles. *)
Definition caught_first_attempt (en : Entry) : bool :=
  match en with
  | (compute_texmap_from_color _ _ _ true, Some e) => is_PyMeshLabException e
  | _ => false
  end.

(** pymeshlab raising [e] at the first attempt, nothing anywhere else. *)
Definition fails_first_attempt (e : PyExc) (history : list Entry) (c : Call) (o : OS)
  : option PyExc * OS :=
  match c with
  | compute_texmap_from_color _ _ _ true => (Some e, o)
  | _ => (None, o)
  end.

(** A stand-in for [with_suffix]: the suffix is appended. *)
Definition append_suffix (name suffix : string) : result string :=
  Ok (name ++ suffix)%string.

End Meshlab.

(** ** text2tex/generate_texture.py *)

Module Text2Tex.

(** A 2-D float tensor (masks, [exist_texture]); rationals stand for the
    floats, so sums and comparisons are exact. *)
Definition Tensor : Type := list (list Q).

(** A PIL image as rows of pixel values. *)
Definition Image : Type := list (list Z).

Definition Qlt_bool (x y : Q) : bool := negb (Qle_bool y x).

(** [t.sum()] *)
Definition tensor_sum (t : Tensor) : Q :=
  fold_right Qplus 0%Q (List.concat t).

(** [np.zeros([n, n])] *)
Definition zeros (n : nat) : Tensor := repeat (repeat 0%Q n) n.

(** [1 - t] *)
Definition complement (t : Tensor) : Tensor :=
  map (map (fun v => (1 - v)%Q)) t.

(** [a += b], elementwise on tensors of one shape. *)
Fixpoint row_add (a b : list Q) : list Q :=
  match a, b with
  | x :: a', y :: b' => (x + y)%Q :: row_add a' b'
  | _, _ => a
  end.

Fixpoint tensor_add (a b : Tensor) : Tensor :=
  match a, b with
  | r :: a', s :: b' => row_add r s :: tensor_add a' b'
  | _, _ => a
  end.

(** [t[t == 1] = 0] *)
Definition zero_where_one (t : Tensor) : Tensor :=
  map (map (fun v => if Qeq_bool v 1 then 0%Q else v)) t.

(** [transforms.ToPILImage()(t)] on a float tensor: [t.mul(255).byte()]. *)
Definition to_byte (v : Q) : Z :=
  (Z.quot (Qnum (v * 255)) (Zpos (Qden (v * 255)))) mod 256.

Definition ToPILImage (t : Tensor) : Image := map (map to_byte) t.

(** [Image.fromarray((np.ones_like(np.array(img)) * 255.).astype(np.uint8))] *)
Definition ones_like_255 (img : Image) : Image := map (map (fun _ => 255%Z)) img.

(** [np.array(img).shape]: the height and the width of the pixel array. *)
Definition image_size_of (img : Image) : nat * nat :=
  (List.length img, match img with r :: _ => List.length r | [] => 0%nat end).

(** [str(n)] for a loop index. *)
Fixpoint digits_of (fuel n : nat) (acc : string) : string :=
  match fuel with
  | O => acc
  | S fuel' =>
      let acc' := String (ascii_of_nat (48 + n mod 10)) acc in
      if Nat.eqb (n / 10) 0 then acc' else digits_of fuel' (n / 10) acc'
  end.

Definition str_of_nat (n : nat) : string := digits_of (S n) n "".

(** The options of [init_args] that the operation zone reads. *)
Record Args : Type := mkArgs {
  prompt : string;
  new_strength : Q;
  update_strength : Q;
  ddim_steps : Z;
  view_threshold : Q;
  update_steps : Z;
  update_mode : string;
  use_shapenet : bool;
  use_objaverse : bool;
  add_view_to_prompt : bool;
  post_process : bool;
  smooth_mask : bool;
  no_repaint : bool;
  no_update : bool;
  uv_size : nat
}.

(** [NUM_PRINCIPLE = 10 if args.use_shapenet or args.use_objaverse else 6] *)
Definition NUM_PRINCIPLE (args : Args) : nat :=
  if use_shapenet args || use_objaverse args then 10 else 6.

(** [" the {} view of {}".format(sector, args.prompt) if args.add_view_to_prompt else args.prompt] *)
Definition prompt_for (args : Args) (sector : string) : string :=
  if add_view_to_prompt args
  then (" the " ++ sector ++ " view of " ++ prompt args)%string
  else prompt args.

(** [l[i]] with Python's [IndexError]. *)
Definition getitem {A} (l : list A) (i : nat) : result A :=
  match nth_error l i with
  | Some a => Ok a
  | None => Err (IndexError "list index out of range")
  end.

(** [l[-1]] *)
Definition last_item {A} (l : list A) : result A :=
  match rev l with
  | a :: _ => Ok a
  | [] => Err (IndexError "list index out of range")
  end.

Section Script.

(** Opaque values handed between the collaborators. *)
Variables Renderer Cameras Cache : Type.

(** What the script keeps of the tuple returned by
    [render_one_view_and_build_masks]. *)
Record RenderOut : Type := mkRenderOut {
  view_score : Q;
  renderer : Renderer;
  cameras : Cameras;
  init_image : Image;
  depth_maps_tensor : Tensor;
  keep_mask_image : Image;
  update_mask_image : Image;
  generate_mask_image : Image;
  keep_mask_tensor : Tensor;
  update_mask_tensor : Tensor;
  generate_mask_tensor : Tensor;
  all_mask_tensor : Tensor
}.

(** The two variables of the texture atlas the script threads. *)
Record Atlas : Type := mkAtlas {
  init_texture : Image;
  exist_texture : Tensor
}.

Inductive Stage : Type := GenerateStage | UpdateStage.

(** One entry per call into a collaborator, with the arguments that vary,
    and one per textured mesh written by [save_backproject_obj].  The preview
    images the script saves on the way (renderings, masks, inpainted images)
    and the plots of the viewpoints do not touch the atlas and are left out. *)
Inductive Event : Type :=
| EvCache (dist_list elev_list azim_list : list Q)
| EvSelect (view_idx : nat) (selected_view_ids : list nat) (exist : Tensor)
| EvRender (dist elev azim : Q) (selected_idx view_idx : nat)
           (save_intermediate : bool) (texture : Image) (exist : Tensor)
| EvInpaint (image : Image) (prompt : string) (strength : Q)
            (mask keep_mask : Image)
| EvBackproject (image mask : Image) (texture : Image) (exist : Tensor)
| EvSaveObj (stage : Stage) (file_name : string) (texture : Image)
| EvPostprocess (texture : Image) (mask : Tensor).

(** The functions imported from [lib.*]; the mesh geometry, the device
    and the pass-through options are fixed for a run and left implicit. *)
Record Collaborators : Type := mkCollaborators {
  build_similarity_texture_cache_for_all_views :
    Image -> list Q -> list Q -> list Q -> result Cache;
  render_one_view_and_build_masks :
    Q -> Q -> Q -> nat -> nat -> list Q -> Cache -> Tensor -> Image ->
    bool -> bool -> Q -> result RenderOut;
  apply_controlnet_depth :
    Image -> string -> Q -> Z -> Image -> Image -> Tensor ->
    result (Image * Image * Image);
  backproject_from_image :
    Cameras -> Image -> Image -> Image -> Image -> Tensor ->
    result (Image * Image * Tensor);
  select_viewpoint :
    list nat -> list Q -> string -> list Q -> list Q -> list Q ->
    list string -> nat -> Cache -> Tensor -> Image ->
    result (Q * Q * Q * string * list nat * list Q);
  apply_inpainting_postprocess :
    Image -> Tensor -> string -> nat -> nat -> result Image
}.

Variable E : Collaborators.
Variable args : Args.

Definition Log : Type := list Event.

(** A call into a collaborator: logged, then its outcome. *)
Definition call {A} (ev : Event) (r : result A) : M Log A :=
  fun l => (r, l ++ [ev]).

Definition emit (ev : Event) : M Log unit := call ev (Ok tt).

(** [for i in idxs: st = body(i, st)] *)
Fixpoint for_each {St} (idxs : list nat) (body : nat -> St -> M Log St) (st : St)
  : M Log St :=
  match idxs with
  | [] => ret st
  | i :: rest => st' <- body i st ;; for_each rest body st'
  end.

(** [u / a > 0.05] for [u > 0]: the division by a zero sum gives [inf]. *)
Definition ratio_exceeds (u a : Q) : bool :=
  if Qeq_bool a 0 then true else Qlt_bool (5 # 100) (u / a).

(** Lines 363 and 549:
    [not args.no_update and update_mask_tensor.sum() > 0
     and update_mask_tensor.sum() / (all_mask_tensor.sum()) > 0.05] *)
Definition should_update (r : RenderOut) : bool :=
  negb (no_update args)
  && Qlt_bool 0 (tensor_sum (update_mask_tensor r))
  && ratio_exceeds (tensor_sum (update_mask_tensor r)) (tensor_sum (all_mask_tensor r)).

Definition render (dist elev azim : Q) (selected_idx view_idx : nat)
    (view_punishments : list Q) (cache : Cache) (atlas : Atlas)
    (save_intermediate : bool) : M Log RenderOut :=
  call (EvRender dist elev azim selected_idx view_idx save_intermediate
                 (init_texture atlas) (exist_texture atlas))
       (render_one_view_and_build_masks E dist elev azim selected_idx view_idx
          view_punishments cache (exist_texture atlas) (init_texture atlas)
          save_intermediate (smooth_mask args) (view_threshold args)).

Definition inpaint (image : Image) (prompt : string) (strength : Q)
    (mask keep_mask : Image) (depth : Tensor) : M Log (Image * Image * Image) :=
  call (EvInpaint image prompt strength mask keep_mask)
       (apply_controlnet_depth E image prompt strength (ddim_steps args)
          mask keep_mask depth).

(** [init_texture, project_mask_image, exist_texture = backproject_from_image(...)];
    the mesh texture is then rebuilt from [init_texture]. *)
Definition backproject (cams : Cameras) (image mask : Image) (atlas : Atlas)
  : M Log Atlas :=
  '(tex, _, ex) <-
    call (EvBackproject image mask (init_texture atlas) (exist_texture atlas))
         (backproject_from_image E cams image mask mask
            (init_texture atlas) (exist_texture atlas)) ;;
  ret (mkAtlas tex ex).

(** Lines 313-316. *)
Definition actual_generate_mask_image (view_idx : nat) (r : RenderOut) : Image :=
  if no_repaint args && negb (Nat.eqb view_idx 0)
  then ones_like_255 (generate_mask_image r)
  else generate_mask_image r.

(** Lines 363-388: the update of the blurry region in the generation stage. *)
Definition generate_view_update (prompt : string) (r r2 : RenderOut) (atlas : Atlas)
  : M Log Atlas :=
  if should_update r then
    '(diffused_image, _, _) <-
      inpaint (init_image r2) prompt (update_strength args)
              (update_mask_image r) (keep_mask_image r) (depth_maps_tensor r) ;;
    backproject (cameras r2) diffused_image (update_mask_image r) atlas
  else ret atlas.

(** The body of the generation loop, lines 286-410. *)
Definition generate_view (pre_dist_list pre_elev_list pre_azim_list : list Q)
    (pre_sector_list : list string) (view_punishments : list Q)
    (cache : Cache) (view_idx : nat) (atlas : Atlas) : M Log Atlas :=
  dist <- lift (getitem pre_dist_list view_idx) ;;
  elev <- lift (getitem pre_elev_list view_idx) ;;
  azim <- lift (getitem pre_azim_list view_idx) ;;
  sector <- lift (getitem pre_sector_list view_idx) ;;
  let prompt := prompt_for args sector in
  r <- render dist elev azim view_idx view_idx view_punishments cache atlas true ;;
  '(generate_image, _, _) <-
    inpaint (init_image r) prompt (new_strength args)
            (actual_generate_mask_image view_idx r) (keep_mask_image r)
            (depth_maps_tensor r) ;;
  atlas1 <- backproject (cameras r) generate_image (generate_mask_image r) atlas ;;
  r2 <- render dist elev azim view_idx view_idx view_punishments cache atlas1 false ;;
  atlas2 <- generate_view_update prompt r r2 atlas1 ;;
  emit (EvSaveObj GenerateStage (str_of_nat view_idx ++ ".obj")%string (init_texture atlas2)) ;;;
  ret atlas2.

(** Lines 559-567, the branch taken when there is nothing to update:
    [old_mask_tensor += update_mask_tensor; update_mask_tensor[update_mask_tensor == 1] = 0]
    and both turned into images. *)
Definition nothing_to_update (r : RenderOut) : Tensor * Tensor * Image * Image :=
  let old_mask_tensor := tensor_add (keep_mask_tensor r) (update_mask_tensor r) in
  let update_mask_tensor' := zero_where_one (update_mask_tensor r) in
  (old_mask_tensor, update_mask_tensor',
   ToPILImage old_mask_tensor, ToPILImage update_mask_tensor').

(** Lines 549-567: the image and the mask handed to the merge. *)
Definition refine_view_update (prompt : string) (r : RenderOut)
  : M Log (Image * Image) :=
  if should_update r then
    '(update_image, _, _) <-
      inpaint (init_image r) prompt (update_strength args)
              (update_mask_image r) (keep_mask_image r) (depth_maps_tensor r) ;;
    ret (update_image, update_mask_image r)
  else
    let '(_, _, _, update_mask_image') := nothing_to_update r in
    ret (init_image r, update_mask_image').

Record RefineState : Type := mkRefineState {
  atlas_of : Atlas;
  selected_view_ids : list nat;
  view_punishments_of : list Q
}.

(** The body of the refinement loop, lines 463-607. *)
Definition refine_view (dist_list elev_list azim_list : list Q)
    (sector_list : list string) (cache : Cache) (view_idx : nat)
    (st : RefineState) : M Log RefineState :=
  let atlas := atlas_of st in
  '(dist, elev, azim, sector, selected, punishments) <-
    call (EvSelect view_idx (selected_view_ids st) (exist_texture atlas))
         (select_viewpoint E (selected_view_ids st) (view_punishments_of st)
            (update_mode args) dist_list elev_list azim_list sector_list
            view_idx cache (exist_texture atlas) (init_texture atlas)) ;;
  selected_idx <- lift (last_item selected) ;;
  r <- render dist elev azim selected_idx view_idx punishments cache atlas true ;;
  let prompt := prompt_for args sector in
  '(update_image, update_mask_image') <- refine_view_update prompt r ;;
  atlas' <- backproject (cameras r) update_image update_mask_image' atlas ;;
  emit (EvSaveObj UpdateStage (str_of_nat view_idx ++ ".obj")%string (init_texture atlas')) ;;;
  ret (mkRefineState atlas' selected punishments).

(** Part 1 of the operation zone, lines 269-412. *)
Definition generation_stage (texture : Image) (dist_list elev_list azim_list : list Q)
    (sector_list : list string) (view_punishments : list Q) : M Log Atlas :=
  let n := NUM_PRINCIPLE args in
  let pre_dist_list := firstn n dist_list in
  let pre_elev_list := firstn n elev_list in
  let pre_azim_list := firstn n azim_list in
  let pre_sector_list := firstn n sector_list in
  let exist_texture := zeros (uv_size args) in
  cache <-
    call (EvCache pre_dist_list pre_elev_list pre_azim_list)
         (build_similarity_texture_cache_for_all_views E texture
            pre_dist_list pre_elev_list pre_azim_list) ;;
  for_each (seq 0 n)
    (generate_view pre_dist_list pre_elev_list pre_azim_list pre_sector_list
       view_punishments cache)
    (mkAtlas texture exist_texture).

(** Lines 612-625. *)
Definition post_processing (atlas : Atlas) : M Log Image :=
  post_texture <-
    call (EvPostprocess (init_texture atlas) (complement (exist_texture atlas)))
         (apply_inpainting_postprocess E (init_texture atlas)
            (complement (exist_texture atlas)) "" (uv_size args) (uv_size args)) ;;
  emit (EvSaveObj UpdateStage
          (str_of_nat (Z.to_nat (update_steps args) - 1) ++ "_post.obj")%string
          post_texture) ;;;
  ret post_texture.

(** Part 2 of the operation zone, lines 419-631, entered with
    [args.update_steps > 0]. *)
Definition refinement_stage (atlas : Atlas) (dist_list elev_list azim_list : list Q)
    (sector_list : list string) (view_punishments : list Q)
  : M Log (Atlas * option Image) :=
  let n := NUM_PRINCIPLE args in
  let dist_list := skipn n dist_list in
  let elev_list := skipn n elev_list in
  let azim_list := skipn n azim_list in
  let sector_list := skipn n sector_list in
  let view_punishments := skipn n view_punishments in
  cache <-
    call (EvCache dist_list elev_list azim_list)
         (build_similarity_texture_cache_for_all_views E (init_texture atlas)
            dist_list elev_list azim_list) ;;
  st <- for_each (seq 0 (Z.to_nat (update_steps args)))
          (refine_view dist_list elev_list azim_list sector_list cache)
          (mkRefineState atlas [] view_punishments) ;;
  if post_process args then
    post_texture <- post_processing (atlas_of st) ;;
    ret (atlas_of st, Some post_texture)
  else ret (atlas_of st, None).

(** The operation zone: the atlas at the end and the post-processed
    texture when one was made. *)
Definition generate_texture (texture : Image) (dist_list elev_list azim_list : list Q)
    (sector_list : list string) (view_punishments : list Q)
  : M Log (Atlas * option Image) :=
  atlas <- generation_stage texture dist_list elev_list azim_list
             sector_list view_punishments ;;
  if (0 <? update_steps args)%Z then
    refinement_stage atlas dist_list elev_list azim_list sector_list view_punishments
  else ret (atlas, None).

End Script.

End Text2Tex.

(** ** The collaborators described by the specification

    [lib.projection_helper] is imported by the script but is not part of
    the sources at hand; the two functions below follow the specification. *)

Module Modelled.
Import Text2Tex.

(** [a[r][c]] when in range. *)
Definition pixel_at {A} (a : list (list A)) (r c : nat) : option A :=
  match nth_error a r with
  | Some row => nth_error row c
  | None => None
  end.

(** [map] with the index. *)
Fixpoint imap_from {A B} (f : nat -> A -> B) (k : nat) (l : list A) : list B :=
  match l with
  | [] => []
  | a :: l' => f k a :: imap_from f (S k) l'
  end.

Definition imap {A B} (f : nat -> A -> B) (l : list A) : list B := imap_from f 0 l.

Definition imap2 {A B} (f : nat -> nat -> A -> B) (a : list (list A)) : list (list B) :=
  imap (fun i row => imap (fun j v => f i j v) row) a.

Section Merger.

Variable Cameras : Type.

(** The inverse camera transform: the source pixel of texel [(i, j)], when
    the texel is visible from the camera. *)
Variable project : Cameras -> nat -> nat -> option (nat * nat).

(** The colour written into texel [(i, j)]: its source pixel lies under the
    write mask. *)
Definition source_pixel (cams : Cameras) (image write_mask : Image) (i j : nat)
  : option Z :=
  match project cams i j with
  | Some (r, c) =>
      match pixel_at write_mask r c, pixel_at image r c with
      | Some m, Some v => if Z.eqb m 0 then None else Some v
      | _, _ => None
      end
  | None => None
  end.

(** Modelled from the spec: [backproject_from_image] of
    [lib.projection_helper], which the sources call but do not contain.
    Spec 4.4: every texel visible under [write_mask] receives the colour
    of its source pixel and has its existence set; texels outside the mask
    are untouched.  The script threads no best-similarity buffer, so none
    is returned.  The second component is the projected mask. *)
Definition spec_backproject_from_image (cams : Cameras)
    (image write_mask weight_mask texture : Image) (exist : Tensor)
  : result (Image * Image * Tensor) :=
  let src := source_pixel cams image write_mask in
  Ok (imap2 (fun i j old => match src i j with Some v => v | None => old end) texture,
      imap2 (fun i j _ => match src i j with Some _ => 255%Z | None => 0%Z end) texture,
      imap2 (fun i j old => match src i j with Some _ => 1%Q | None => old end) exist).

End Merger.

(** The mask classification of the specification, 4.2. *)
Inductive MaskClass : Type := Generate | Update | Keep.

Definition MaskClass_eqb (a b : MaskClass) : bool :=
  match a, b with
  | Generate, Generate | Update, Update | Keep, Keep => true
  | _, _ => false
  end.

(** What the classification reads of a covered texel: its existence flag,
    the best similarity recorded for it and the similarity of the view. *)
Record Texel : Type := mkTexel {
  existence : bool;
  best_similarity : Q;
  view_similarity : Q
}.

(** Modelled from the spec: the per-texel rule of the MaskCompositor
    ([render_one_view_and_build_masks] of [lib.projection_helper], which the
    sources call but do not contain).  Spec 4.2: never painted gives
    generate; painted and seen better than the recorded best by more than
    [view_threshold] gives update; otherwise keep. *)
Definition classify (view_threshold : Q) (t : Texel) : MaskClass :=
  if negb (existence t) then Generate
  else if Qlt_bool (best_similarity t + view_threshold) (view_similarity t) then Update
  else Keep.

(** A rendered view: per pixel, the texel it covers, if any. *)
Definition Fragment : Type := list (list (option Texel)).

Definition Mask : Type := list (list bool).

Record MaskSet : Type := mkMaskSet {
  keep : Mask;
  update : Mask;
  generate : Mask;
  all : Mask
}.

Definition class_mask (view_threshold : Q) (c : MaskClass) (f : Fragment) : Mask :=
  map (map (fun p => match p with
                     | Some t => MaskClass_eqb (classify view_threshold t) c
                     | None => false
                     end)) f.

Definition covered_mask (f : Fragment) : Mask :=
  map (map (fun p => match p with Some _ => true | None => false end)) f.

(** Modelled from the spec: the masks of a classified view, 4.2. *)
Definition classify_view (view_threshold : Q) (f : Fragment) : MaskSet :=
  mkMaskSet (class_mask view_threshold Keep f)
            (class_mask view_threshold Update f)
            (class_mask view_threshold Generate f)
            (covered_mask f).

Fixpoint zip_with {A B C} (f : A -> B -> C) (a : list A) (b : list B) : list C :=
  match a, b with
  | x :: a', y :: b' => f x y :: zip_with f a' b'
  | _, _ => []
  end.

Definition mask_inter (a b : Mask) : Mask := zip_with (zip_with andb) a b.
Definition mask_union (a b : Mask) : Mask := zip_with (zip_with orb) a b.
Definition mask_empty (a : Mask) : bool := forallb (forallb negb) a.

End Modelled.

(** ** What a log tells about a run *)

Module Observe.
Import Text2Tex Modelled.

(** The views handed to the renderer for classification, in order. *)
Definition visited (log : Log) : list (Q * Q * Q * nat) :=
  flat_map (fun ev => match ev with
                      | EvRender d e a _ i true _ _ => [(d, e, a, i)]
                      | _ => []
                      end) log.

(** The view at position [i] of the constructed viewpoint lists. *)
Definition viewpoint_at (dist_list elev_list azim_list : list Q) (i : nat)
  : option (Q * Q * Q * nat) :=
  match nth_error dist_list i, nth_error elev_list i, nth_error azim_list i with
  | Some d, Some e, Some a => Some (d, e, a, i)
  | _, _, _ => None
  end.

Definition is_inpaint (ev : Event) : bool :=
  match ev with EvInpaint _ _ _ _ _ => true | _ => false end.

Definition is_backproject (ev : Event) : bool :=
  match ev with EvBackproject _ _ _ _ => true | _ => false end.

Definition is_select (ev : Event) : bool :=
  match ev with EvSelect _ _ _ => true | _ => false end.

Definition is_postprocess (ev : Event) : bool :=
  match ev with EvPostprocess _ _ => true | _ => false end.

Definition count (p : Event -> bool) (log : Log) : nat :=
  List.length (filter p log).

(** The values of [exist_texture] the collaborators were handed, in order. *)
Definition exist_history (log : Log) : list Tensor :=
  flat_map (fun ev => match ev with
                      | EvSelect _ _ e => [e]
                      | EvRender _ _ _ _ _ _ _ e => [e]
                      | EvBackproject _ _ _ e => [e]
                      | _ => []
                      end) log.

(** A texel is painted when its existence value is not zero. *)
Definition painted (t : Tensor) (i j : nat) : Prop :=
  exists v, pixel_at t i j = Some v /\ ~ (v == 0)%Q.

Definition paintedb (t : Tensor) (i j : nat) : bool :=
  match pixel_at t i j with
  | Some v => negb (Qeq_bool v 0)
  | None => false
  end.

(** Coverage only grows from [a] to [b]. *)
Definition coverage_le (a b : Tensor) : Prop :=
  forall i j, painted a i j -> painted b i j.

(** A mask tensor without any set pixel. *)
Definition empty_mask (t : Tensor) : Prop :=
  Forall (Forall (fun v => (v == 0)%Q)) t.

(** The merger never clears an existence flag. *)
Definition merger_monotone {Renderer Cameras Cache : Type}
    (E : Collaborators Renderer Cameras Cache) : Prop :=
  forall cams image mask weight texture exist texture' pm exist',
    backproject_from_image _ _ _ E cams image mask weight texture exist
      = Ok (texture', pm, exist') ->
    coverage_le exist exist'.

(** The collaborators [E] with another merger. *)
Definition with_merger {Renderer Cameras Cache : Type}
    (E : Collaborators Renderer Cameras Cache)
    (merge : Cameras -> Image -> Image -> Image -> Image -> Tensor ->
             result (Image * Image * Tensor))
  : Collaborators Renderer Cameras Cache :=
  mkCollaborators _ _ _
    (build_similarity_texture_cache_for_all_views _ _ _ E)
    (render_one_view_and_build_masks _ _ _ E)
    (apply_controlnet_depth _ _ _ E)
    merge
    (select_viewpoint _ _ _ E)
    (apply_inpainting_postprocess _ _ _ E).

(** The computations of the script only append to the log: run from any
    log, they add what they add when run from the empty one. *)
Definition writer {A} (m : M Log A) : Prop :=
  forall l, m l = (fst (m []), l ++ snd (m [])).

End Observe.

(** ** Concrete collaborators, for running the script *)

Module Fixture.
Import Text2Tex Modelled.

(** Modelled from the spec: [select_viewpoint] of [lib.projection_helper]
    in its sequential mode (spec 4.3): the remaining viewpoints in list
    order, wrapping around. *)
Definition sequential_select (selected : list nat) (punishments : list Q)
    (mode : string) (dist_list elev_list azim_list : list Q)
    (sector_list : list string) (view_idx : nat) (cache : unit)
    (exist : Tensor) (texture : Image)
  : result (Q * Q * Q * string * list nat * list Q) :=
  let k := view_idx mod List.length dist_list in
  match nth_error dist_list k, nth_error elev_list k,
        nth_error azim_list k, nth_error sector_list k with
  | Some d, Some e, Some a, Some s => Ok (d, e, a, s, selected ++ [k], punishments)
  | _, _, _, _ => Err (IndexError "list index out of range")
  end.

(** Collaborators that render every view as [r], inpaint every request as
    [inpainted], merge as the specification says with texel [(i, j)] seen at
    pixel [(i, j)], and return the texture unchanged from post-processing. *)
Definition collaborators (r : RenderOut unit unit) (inpainted : Image)
  : Collaborators unit unit unit :=
  mkCollaborators unit unit unit
    (fun _ _ _ _ => Ok tt)
    (fun _ _ _ _ _ _ _ _ _ _ _ _ => Ok r)
    (fun _ _ _ _ _ _ _ => Ok (inpainted, inpainted, inpainted))
    (spec_backproject_from_image unit (fun _ i j => Some (i, j)))
    sequential_select
    (fun texture _ _ _ _ => Ok texture).

Definition black : Image := [[0; 0]; [0; 0]]%Z.
Definition white : Image := [[255; 255]; [255; 255]]%Z.
Definition none : Tensor := [[0; 0]; [0; 0]]%Q.
Definition full : Tensor := [[1; 1]; [1; 1]]%Q.

(** A 2x2 view whose pixels are all classified [keep]: the generate and the
    update masks are empty. *)
Definition all_keep : RenderOut unit unit :=
  mkRenderOut unit unit 1%Q tt tt [[10; 20]; [30; 40]]%Z none
    white black black full none none full.

(** A 2x2 view seen for the first time: everything is to generate. *)
Definition all_generate : RenderOut unit unit :=
  mkRenderOut unit unit 1%Q tt tt [[10; 20]; [30; 40]]%Z none
    black black white none none full full.

(** A 2x2 view whose pixels are all to update. *)
Definition all_update : RenderOut unit unit :=
  mkRenderOut unit unit 1%Q tt tt [[10; 20]; [30; 40]]%Z none
    black white black none full none full.

Definition args0 : Args :=
  mkArgs "a bowl of rice" 1%Q (3 # 10)%Q 50%Z (1 # 10)%Q 2%Z "sequential"
         false false true true false false false 2.

Definition with_update_steps (n : Z) (a : Args) : Args :=
  mkArgs (prompt a) (new_strength a) (update_strength a) (ddim_steps a)
         (view_threshold a) n (update_mode a) (use_shapenet a) (use_objaverse a)
         (add_view_to_prompt a) (post_process a) (smooth_mask a) (no_repaint a)
         (no_update a) (uv_size a).

Definition with_no_repaint (b : bool) (a : Args) : Args :=
  mkArgs (prompt a) (new_strength a) (update_strength a) (ddim_steps a)
         (view_threshold a) (update_steps a) (update_mode a) (use_shapenet a)
         (use_objaverse a) (add_view_to_prompt a) (post_process a) (smooth_mask a)
         b (no_update a) (uv_size a).

(** Seven viewpoints: six principal ones and one left for refinement. *)
Definition dist_list0 : list Q := [1; 1; 1; 1; 1; 1; 1]%Q.
Definition elev_list0 : list Q := [0; 0; 0; 0; 90; -90; 45]%Q.
Definition azim_list0 : list Q := [0; 90; 180; 270; 0; 0; 45]%Q.
Definition sector_list0 : list string :=
  ["front"; "left"; "back"; "right"; "top"; "bottom"; "front"].
Definition view_punishments0 : list Q := [1; 1; 1; 1; 1; 1; 1]%Q.

Definition texture0 : Image := [[5; 5]; [5; 5]]%Z.

Definition atlas0 : Atlas := mkAtlas texture0 none.

(** One iteration of the generation loop on the six principal views. *)
Definition principal_view (r : RenderOut unit unit) (inpainted : Image) (a : Args)
    (view_idx : nat) : result Atlas * Log :=
  generate_view unit unit unit (collaborators r inpainted) a
    (firstn 6 dist_list0) (firstn 6 elev_list0) (firstn 6 azim_list0)
    (firstn 6 sector_list0) view_punishments0 tt view_idx atlas0 [].

(** The whole operation zone on the seven viewpoints. *)
Definition whole_run (r : RenderOut unit unit) (inpainted : Image) (a : Args)
  : result (Atlas * option Image) * Log :=
  generate_texture unit unit unit (collaborators r inpainted) a texture0
    dist_list0 elev_list0 azim_list0 sector_list0 view_punishments0 [].

(** A view with three covered pixels: one never painted, one painted and
    now seen much better, one painted and seen no better. *)
Definition fragment0 : Fragment :=
  [[Some (mkTexel false 0 (9 # 10)); Some (mkTexel true (4 # 10) (9 # 10))];
   [Some (mkTexel true (9 # 10) (4 # 10)); None]]%Q.

End Fixture.

(** ** texturing/texturing_with_meshlab.py: the batch and the entry point *)

Module MeshlabBatch.
Import Meshlab.

(** [for obj_path in files: body(obj_path)] *)
Fixpoint for_paths (files : list Path) (body : Path -> M World unit) : M World unit :=
  match files with
  | [] => ret tt
  | f :: rest => body f ;;; for_paths rest body
  end.

Definition bugfest_line : string :=
  "Because PyMeshlab is a bugfest, the texture might be saved in a subdirectory".

Definition lunch_line : string := "Enjoy your lunch".

Section WithCollaborators.

Variable pymeshlab : list Entry -> Call -> OS -> option PyExc * OS.
Variable with_suffix : string -> string -> result string.

(** [re.match(pattern, name)] is not [None]. *)
Variable re_match : string -> string -> bool.

(** The body of the loop of [auto_texture_batch], lines 62-65. *)
Definition batch_step (regex_filename_pattern : string) (resolution : Z)
    (dry_run : bool) (obj_path : Path) : M World unit :=
  if re_match regex_filename_pattern (name obj_path) then
    invoke pymeshlab (print (name obj_path)) ;;;
    if negb dry_run then auto_texture pymeshlab with_suffix obj_path resolution
    else ret tt
  else ret tt.

(** [auto_texture_batch]; [files] are the paths that
    [obj_folder.glob('*.obj')] yields, in that order. *)
Definition auto_texture_batch (files : list Path) (regex_filename_pattern : string)
    (resolution : Z) (dry_run : bool) : M World unit :=
  for_paths files (batch_step regex_filename_pattern resolution dry_run) ;;;
  invoke pymeshlab (print bugfest_line) ;;;
  invoke pymeshlab (print lunch_line).

(** [main], after the parsing of the command line: [dir] is [args.dir],
    [glob d] the paths of [Path(d).glob('*.obj')]. *)
Definition main (glob : string -> list Path) (dir : option string) (resolution : Z)
    (dry_run : bool) (pattern : string) : M World unit :=
  match dir with
  | None => raise (ValueError "No file provided")
  | Some d => auto_texture_batch (glob d) pattern resolution dry_run
  end.

End WithCollaborators.

Definition is_print (en : Entry) : bool :=
  match fst en with print _ => true | _ => false end.

(** The names of the files a batch works on: those the pattern matches. *)
Definition matching (re_match : string -> string -> bool) (pattern : string)
    (files : list Path) : list string :=
  map name (filter (fun p => re_match pattern (name p)) files).

(** An invocation that belongs to the processing of the file named [n]: a
    mesh that is loaded is the file itself. *)
Definition loads_only (names : list string) (en : Entry) : Prop :=
  forall f, fst en = load_new_mesh f -> In f names.

(** Whatever the state, [m] only appends invocations that satisfy [P]. *)
Definition logs (P : Entry -> Prop) {A} (m : M World A) : Prop :=
  forall w, exists new, calls (snd (m w)) = calls w ++ new /\ Forall P new.

(** [m] does not remove the directory [p]. *)
Definition keeps_dir (p : string) {A} (m : M World A) : Prop :=
  forall w, dir_exists p (os w) = true -> dir_exists p (os (snd (m w))) = true.

(** [m], started in the existing directory [d], ends there. *)
Definition stays_in (d : string) {A} (m : M World A) : Prop :=
  forall w, cwd (os w) = d -> dir_exists d (os w) = true ->
            cwd (os (snd (m w))) = d /\ dir_exists d (os (snd (m w))) = true.



(** pymeshlab moving the process to [/elsewhere] whenever a mesh is loaded
    and raising nothing. *)
Definition wandering (history : list Entry) (c : Call) (o : OS) : option PyExc * OS :=
  match c with
  | load_new_mesh _ => (None, mkOS "/elsewhere" ("/elsewhere" :: dirs o))
  | _ => (None, o)
  end.

(** A process in [/home], and three files globbed in [/data]. *)
Definition data : World := mkWorld (mkOS "/home" ["/home"; "/data"]) [].
Definition files : list Path :=
  [mkPath "/data" "notes.obj"; mkPath "/data" "1_rice_mesh.obj";
   mkPath "/data" "2_soup_mesh.obj"].

(** A stand-in for [re.match]: the name ends in [_mesh.obj]. *)
Definition ends_with_mesh_obj (pattern name : string) : bool :=
  match String.length name - 9 with
  | k => String.eqb (substring k 9 name) "_mesh.obj"
  end.

End MeshlabBatch.

(** ** text2tex/generate_texture.py: more to read from a run *)

Module Tally.
Import Text2Tex.

(** A mask tensor whose entries are all 0 or 1. *)
Definition binary_mask (t : Tensor) : Prop :=
  Forall (Forall (fun v => (v == 0)%Q \/ (v == 1)%Q)) t.

(** The textured meshes written, as (stage directory, file name). *)
Definition saved (log : Log) : list (Stage * string) :=
  flat_map (fun ev => match ev with
                      | EvSaveObj st f _ => [(st, f)]
                      | _ => []
                      end) log.

(** The file name of the mesh written after view [i] of a stage. *)
Definition mesh_name (i : nat) : string := (str_of_nat i ++ ".obj")%string.

(** [int(s)] for a string of decimal digits. *)
Definition digit_value (c : ascii) : nat := nat_of_ascii c - 48.

Fixpoint read_nat (acc : nat) (s : string) : nat :=
  match s with
  | EmptyString => acc
  | String c s' => read_nat (acc * 10 + digit_value c) s'
  end.

Definition is_digit (c : ascii) : bool :=
  Nat.leb 48 (nat_of_ascii c) && Nat.leb (nat_of_ascii c) 57.

Fixpoint all_digits (s : string) : bool :=
  match s with
  | EmptyString => true
  | String c s' => is_digit c && all_digits s'
  end.

(** A view of one row of twenty covered pixels, the first of them to
    update: exactly a twentieth. *)
Definition sparse_update : RenderOut unit unit :=
  mkRenderOut unit unit 1%Q tt tt [repeat 10%Z 20] [repeat 0%Q 20]
    [0%Z :: repeat 255%Z 19] [255%Z :: repeat 0%Z 19] [repeat 0%Z 20]
    [0%Q :: repeat 1%Q 19] [1%Q :: repeat 0%Q 19] [repeat 0%Q 20]
    [repeat 1%Q 20].

(** The options of the fixture with updating switched off. *)
Definition args_no_update : Args :=
  mkArgs "a bowl of rice" 1%Q (3 # 10)%Q 50%Z (1 # 10)%Q 2%Z "sequential"
         false false true true false false true 2.

(** Three viewpoints only. *)
Definition few_list : list Q := [1; 1; 1]%Q.
Definition few_sectors : list string := ["front"; "left"; "back"].

End Tally.

(** ** text2tex/generate_nutritionverse_textures.py *)

Module Driver.

(** What the driver does to the outside: it reads a metadata file, prints a
    line, runs a shell command. *)
Inductive Event : Type :=
| Loaded (path : string)
| Printed (text : string)
| Ran (command : string).

(** A path yielded by [input_dir.glob("*.obj")], with the two parts of it
    the driver uses. *)
Record ObjFile : Type := mkObjFile { file_name : string; file_stem : string }.

Definition dquote : string := String (ascii_of_nat 34) EmptyString.
Definition newline : string := String (ascii_of_nat 10) EmptyString.
Definition indent : string := "            ".

(** A line of the command template: the backslash and the line break are
    not part of the string, the space before them is. *)
Definition template_line (text : string) : string := (indent ++ text ++ " ")%string.

Section WithCollaborators.

(** A parsed metadata file. *)
Variable Toml : Type.

(** [open(path, "r")] followed by [toml.load]. *)
Variable load_toml : string -> result Toml.

(** [metadata["item"][key]], formatted. *)
Variable item : Toml -> string -> result string.

(** [subprocess.run(command, shell=True, check=True)]: given what was done
    before, the exception it raises, if any. *)
Variable subprocess_run : list Event -> string -> option PyExc.

(** [metadata_dir / name] and [os.path.join]. *)
Variable path_div : string -> string -> string.
Variable os_path_join : string -> string -> string.

Variables input_dir output_dir metadata_dir device device_id : string.
Variable dry_run : bool.

Definition log_event (ev : Event) : M (list Event) unit := fun l => (Ok tt, l ++ [ev]).

Definition load (path : string) : M (list Event) Toml :=
  fun l => (load_toml path, l ++ [Loaded path]).

Definition run_command (command : string) : M (list Event) unit :=
  fun l => (match subprocess_run l command with
            | Some e => Err e
            | None => Ok tt
            end, l ++ [Ran command]).

(** Line 33. *)
Definition metadata_file_path (file : ObjFile) : string :=
  path_div metadata_dir
    (Meshlab.replace "_mesh.pt" "" (file_stem file) ++ ".toml")%string.

(** Lines 39-62. *)
Definition command_of (file : ObjFile) (description : string) : string :=
  ("python scripts/generate_texture.py "
   ++ template_line ("--input_dir " ++ input_dir)
   ++ template_line ("--output_dir " ++ os_path_join output_dir (file_stem file))
   ++ template_line ("--obj_name " ++ file_stem file)
   ++ template_line ("--obj_file " ++ file_name file)
   ++ template_line ("--prompt " ++ dquote ++ description ++ dquote)
   ++ template_line "--add_view_to_prompt"
   ++ template_line "--ddim_steps 50"
   ++ template_line "--new_strength 1"
   ++ template_line "--update_strength 0.3"
   ++ template_line "--view_threshold 0.1"
   ++ template_line "--blend 0"
   ++ template_line "--dist 1"
   ++ template_line "--num_viewpoints 36"
   ++ template_line "--viewpoint_mode predefined"
   ++ template_line "--use_principle"
   ++ template_line "--update_steps 20"
   ++ template_line "--update_mode heuristic"
   ++ template_line "--seed 42"
   ++ template_line "--post_process"
   ++ template_line ("--device " ++ dquote ++ device ++ dquote)
   ++ template_line ("--device_id " ++ dquote ++ device_id ++ dquote)
   ++ indent ++ "--use_objaverse # assume the mesh is normalized with y-axis as up"
   ++ newline ++ "        ")%string.

(** The body of the loop, lines 33-67. *)
Definition process_file (file : ObjFile) : M (list Event) unit :=
  metadata <- load (metadata_file_path file) ;;
  food_type <- lift (item metadata "food_type") ;;
  description <- lift (item metadata "description") ;;
  let command := command_of file (food_type ++ ", " ++ description)%string in
  log_event (Printed command) ;;;
  if dry_run then log_event (Printed command) else run_command command.

(** [for file in files: ...], [files] being the paths that
    [input_dir.glob("*.obj")] yields. *)
Fixpoint main (files : list ObjFile) : M (list Event) unit :=
  match files with
  | [] => ret tt
  | file :: rest => process_file file ;;; main rest
  end.

End WithCollaborators.

Definition is_ran (ev : Event) : bool :=
  match ev with Ran _ => true | _ => false end.

Definition is_printed (ev : Event) : bool :=
  match ev with Printed _ => true | _ => false end.

(** Every command run stands right after the line that prints it. *)
Definition announced (log : list Event) : Prop :=
  forall k command, nth_error log k = Some (Ran command) ->
    exists k', k = S k' /\ nth_error log k' = Some (Printed command).

(** Metadata as pairs of key and value; only [1_rice.toml] exists. *)
Definition load_rice (path : string) : result (list (string * string)) :=
  if String.eqb path "metadata/1_rice.toml"
  then Ok [("food_type", "rice"); ("description", "a bowl of steamed rice")]
  else Err (FileNotFoundError path).

(** A stand-in for the two subscripts: a missing key raises. *)
Definition item_of (metadata : list (string * string)) (key : string) : result string :=
  match find (fun kv => String.eqb (fst kv) key) metadata with
  | Some kv => Ok (snd kv)
  | None => Err (RuntimeError key)
  end.

Definition join_slash (a b : string) : string := (a ++ "/" ++ b)%string.

Definition rice : ObjFile := mkObjFile "1_rice_mesh.pt.obj" "1_rice_mesh.pt".
Definition soup : ObjFile := mkObjFile "2_soup_mesh.pt.obj" "2_soup_mesh.pt".

End Driver.

(** * Properties *)

(** ** [texturing_with_meshlab.py] *)

Module MeshlabFacts.
Import Meshlab.

Lemma os_chdir_ok (p : string) (o : OS) :
  dir_exists p o = true -> os_chdir p o = Ok (mkOS p (dirs o)).
Proof. intros H. unfold os_chdir. rewrite H. reflexivity. Qed.

Lemma os_chdir_keeps_dirs (p : string) (o o' : OS) :
  os_chdir p o = Ok o' -> dirs o' = dirs o /\ cwd o' = p.
Proof.
  unfold os_chdir. destruct (dir_exists p o); intros H; inversion H; subst.
  split; reflexivity.
Qed.

(** When [os.chdir(x)] raises, the block is not run and nothing changes. *)
Lemma chdir_not_entered {A} (x : string) (body : M World A) (w : World) (e : PyExc) :
  os_chdir x (os w) = Err e -> chdir x body w = (Err e, w).
Proof. intros H. unfold chdir. rewrite H. reflexivity. Qed.

(** The [with] statement once the block has been entered and the directory
    to go back to still exists. *)
Lemma chdir_entered {A} (x : string) (body : M World A) (w w2 : World)
    (o1 : OS) (r : result A) :
  os_chdir x (os w) = Ok o1 ->
  body (mkWorld o1 (calls w)) = (r, w2) ->
  dir_exists (cwd (os w)) (os w2) = true ->
  chdir x body w = (r, mkWorld (mkOS (cwd (os w)) (dirs (os w2))) (calls w2)).
Proof.
  intros Hin Hbody Hback. unfold chdir, os_getcwd.
  rewrite Hin, Hbody. rewrite (os_chdir_ok _ _ Hback). reflexivity.
Qed.

(** C10. Once the managed block has been entered, it may return or raise
    ([r] is its outcome, either one): if the directory the process started
    from still exists when the block exits, the working directory is that
    directory again, the rest of the state is as the block left it, and the
    outcome of the block is the outcome of the [with] statement. *)
Theorem chdir_restores_cwd {A} (x : string) (body : M World A) (w w2 : World)
    (o1 : OS) (r : result A) :
  os_chdir x (os w) = Ok o1 ->
  body (mkWorld o1 (calls w)) = (r, w2) ->
  dir_exists (cwd (os w)) (os w2) = true ->
  chdir x body w = (r, mkWorld (mkOS (cwd (os w)) (dirs (os w2))) (calls w2))
  /\ os_getcwd (os (snd (chdir x body w))) = os_getcwd (os w).
Proof.
  intros Hin Hbody Hback.
  rewrite (chdir_entered x body w w2 o1 r Hin Hbody Hback). split; reflexivity.
Qed.

(** A block that moves elsewhere and raises: the directory is restored and
    the exception comes out. *)
Lemma chdir_restores_cwd_witness :
  let w := mkWorld (mkOS "/home" ["/home"; "/data"; "/tmp"]) [] in
  let body : M World unit :=
    fun w => (Err (RuntimeError "boom"), mkWorld (mkOS "/tmp" (dirs (os w))) (calls w)) in
  chdir "/data" body w = (Err (RuntimeError "boom"), w)
  /\ os_getcwd (os (snd (chdir "/data" body w))) = "/home".
Proof.
  intros w body.
  apply (chdir_restores_cwd "/data" body w
           (mkWorld (mkOS "/tmp" ["/home"; "/data"; "/tmp"]) [])
           (mkOS "/data" ["/home"; "/data"; "/tmp"])
           (Err (RuntimeError "boom"))); reflexivity.
Defined.

(** *** The retry of [auto_texture] *)

(** One step of the case analysis over what pymeshlab answers. *)
Ltac next_call :=
  match goal with
  | |- context [if is_PyMeshLabException ?e then _ else _] =>
      destruct (is_PyMeshLabException e) eqn:?
  | |- context [?p ?h ?c ?o] =>
      match type of p with list Entry -> Call -> OS -> option PyExc * OS => idtac end;
      is_var o; destruct (p h c o) as [[?e|] ?o] eqn:?
  | |- context [match ?ws ?n ?s with Ok _ => _ | Err _ => _ end] =>
      match type of ws with string -> string -> result string => idtac end;
      destruct (ws n s) eqn:?
  end; cbn [fst snd os calls bind ret lift].

Ltac entry_cases H :=
  cbn [In] in H;
  repeat match type of H with
         | _ \/ _ => destruct H as [H | H]
         end;
  try contradiction.

(** Once the log of a branch is explicit, its properties are read off. *)
Ltac close_log :=
  rewrite <- ?app_assoc; cbn [app];
  eexists; split; [reflexivity |];
  split; [cbn; rewrite ?Bool.orb_false_r;
          repeat match goal with H : is_PyMeshLabException _ = _ |- _ => rewrite H end;
          reflexivity |];
  split;
  [ intros k tn' tw th m Hk;
    do 10 (try destruct k as [| k]); cbn in Hk; try discriminate;
    inversion Hk; subst; cbn in *; try discriminate; eexists; reflexivity
  | intros c e' Hin Hc; entry_cases Hin; inversion Hin; subst; cbn in *;
    try reflexivity; try congruence ].

(** The invocations made by the block of [auto_texture], whatever pymeshlab
    answers: the retries are counted, placed, and every exception that is
    not the caught one ends the block. *)
Lemma auto_texture_block_log pymeshlab with_suffix obj_path resolution (w0 : World) :
  exists new,
    calls (snd (auto_texture_block pymeshlab with_suffix obj_path resolution w0))
      = calls w0 ++ new /\
    List.length (filter is_retry new)
      = (if existsb caught_first_attempt new then 1 else 0) /\
    (forall k tn tw th m,
        nth_error new k
          = Some (compute_texmap_from_color tn tw th true, Some (PyMeshLabException m)) ->
        exists resp,
          nth_error new (S k) = Some (compute_texmap_from_color tn tw th false, resp)) /\
    (forall c e, In (c, Some e) new -> caught_first_attempt (c, Some e) = false ->
        fst (auto_texture_block pymeshlab with_suffix obj_path resolution w0) = Err e).
Proof.
  unfold auto_texture_block, try_except_PyMeshLab, invoke, bind, lift, texmap_attempt.
  destruct w0 as [o0 l0]. cbn [os calls].
  destruct (with_suffix _ ".png") as [tn|e0].
  2:{ exists []. cbn. rewrite app_nil_r. repeat split; try easy.
      intros [|?]; cbn; discriminate. }
  repeat next_call.
  all: close_log.
Qed.

(** The answer recorded in the log is the one pymeshlab gave. *)
Ltac answered :=
  match goal with
  | H : ?p ?h ?c ?o = (_, _) |- _ =>
      exists o; split; [exact (f_equal fst H) |]
  end.

(** A branch in which one of the five earlier invocations raised. *)
Ltac refute_earlier H :=
  exfalso;
  first [ eapply (H 0); [lia | reflexivity]
        | eapply (H 1); [lia | reflexivity]
        | eapply (H 2); [lia | reflexivity]
        | eapply (H 3); [lia | reflexivity]
        | eapply (H 4); [lia | reflexivity] ].

(** The attempts the block makes once the texture name is built and the
    five invocations before line 38 have returned: the attempt with
    [overwrite=True] is the sixth invocation, and what follows depends on
    what pymeshlab answered to it. *)
Lemma auto_texture_block_attempts pymeshlab with_suffix obj_path resolution (w0 : World) tn new :
  with_suffix (replace "_pc" "" (replace "_mesh" "" (name obj_path))) ".png" = Ok tn ->
  calls (snd (auto_texture_block pymeshlab with_suffix obj_path resolution w0))
    = calls w0 ++ new ->
  (forall k c e, k < 5 -> nth_error new k <> Some (c, Some e)) ->
  map fst (firstn 5 new)
    = [MeshSet_new; load_new_mesh (name obj_path);
       compute_texcoord_by_function_per_vertex;
       compute_texcoord_transfer_vertex_to_wedge;
       compute_texcoord_parametrization_triangle_trivial_per_wedge resolution 0 "Basic"] /\
  exists r1,
    nth_error new 5 = Some (texmap_attempt tn resolution true, r1) /\
    exists o5,
    fst (pymeshlab (calls w0 ++ firstn 5 new) (texmap_attempt tn resolution true) o5) = r1 /\
    match r1 with
    | None =>
        filter is_retry new = [] /\
        forall out, with_suffix (name obj_path) ".pt.obj" = Ok out ->
          exists r3, nth_error new 6 = Some (save_current_mesh out, r3)
    | Some e1 =>
        if is_PyMeshLabException e1
        then exists r2,
               nth_error new 6 = Some (texmap_attempt tn resolution false, r2) /\
               exists o6,
               fst (pymeshlab (calls w0 ++ firstn 6 new)
                      (texmap_attempt tn resolution false) o6) = r2 /\
               filter is_retry new = [(texmap_attempt tn resolution false, r2)] /\
               match r2 with
               | Some e2 =>
                   fst (auto_texture_block pymeshlab with_suffix obj_path resolution w0)
                     = Err e2 /\ List.length new = 7
               | None =>
                   forall out, with_suffix (name obj_path) ".pt.obj" = Ok out ->
                     exists r3, nth_error new 7 = Some (save_current_mesh out, r3)
               end
        else fst (auto_texture_block pymeshlab with_suffix obj_path resolution w0) = Err e1
             /\ List.length new = 6
    end.
Proof.
  intros Htn. revert new.
  unfold auto_texture_block, try_except_PyMeshLab, invoke, bind, lift, texmap_attempt.
  destruct w0 as [o0 l0]. cbn [os calls]. cbv zeta. rewrite Htn.
  repeat next_call.
  all: rewrite <- ?app_assoc in *; cbn [app] in *.
  all: intros new Hnew Hnone; apply app_inv_head in Hnew; subst new.
  all: try solve [refute_earlier Hnone].
  all: split; [reflexivity |].
  all: eexists; split; [reflexivity |]; cbn [firstn].
  all: answered.
  all: repeat match goal with H : is_PyMeshLabException _ = _ |- _ => rewrite H end.
  all: try (split; reflexivity).
  all: try (split; [reflexivity |]; intros out Hout; try congruence;
            eexists; cbn [nth_error]; repeat f_equal; congruence).
  all: eexists; split; [reflexivity |]; answered.
  all: split; [reflexivity |].
  all: try (split; reflexivity).
  all: intros out Hout; try congruence;
       eexists; cbn [nth_error]; repeat f_equal; congruence.
Qed.

(** C9. In a call of [auto_texture] that enters the directory of the mesh
    and can leave it again, let [new] be the invocations it makes.  The
    attempts with [overwrite=False] number one when the attempt with
    [overwrite=True] raised a [PyMeshLabException] and none otherwise; that
    retry comes right after the failed attempt, with the same texture name,
    width and height; and any other exception raised by an invocation, the
    retry included, is the outcome of [auto_texture].  The attempts are
    made: when the texture name is built and none of the five invocations
    before it raised, those five are in [new] in the order of the source,
    the sixth is the attempt with [overwrite=True], answered by pymeshlab
    on the history so far.  If it returns there is no retry and the mesh is
    saved next.  If it raises a [PyMeshLabException] the seventh invocation
    is the only retry, with [overwrite=False] and the same name, width and
    height, again answered by pymeshlab; an exception of the retry is the
    outcome of [auto_texture] and ends the invocations, a retry that returns
    is followed by the saving of the mesh.  If it raises anything else, that
    exception is the outcome and nothing is invoked after it. *)
Theorem auto_texture_retries_once pymeshlab with_suffix obj_path resolution
    (w w2 : World) (o1 : OS) (r : result unit) :
  os_chdir (parent obj_path) (os w) = Ok o1 ->
  auto_texture_block pymeshlab with_suffix obj_path resolution (mkWorld o1 (calls w))
    = (r, w2) ->
  dir_exists (cwd (os w)) (os w2) = true ->
  exists new,
    calls (snd (auto_texture pymeshlab with_suffix obj_path resolution w))
      = calls w ++ new /\
    List.length (filter is_retry new)
      = (if existsb caught_first_attempt new then 1 else 0) /\
    (forall k tn tw th m,
        nth_error new k
          = Some (compute_texmap_from_color tn tw th true, Some (PyMeshLabException m)) ->
        exists resp,
          nth_error new (S k) = Some (compute_texmap_from_color tn tw th false, resp)) /\
    (forall c e, In (c, Some e) new -> caught_first_attempt (c, Some e) = false ->
        fst (auto_texture pymeshlab with_suffix obj_path resolution w) = Err e) /\
    (forall tn,
        with_suffix (replace "_pc" "" (replace "_mesh" "" (name obj_path))) ".png" = Ok tn ->
        (forall k c e, k < 5 -> nth_error new k <> Some (c, Some e)) ->
        map fst (firstn 5 new)
          = [MeshSet_new; load_new_mesh (name obj_path);
             compute_texcoord_by_function_per_vertex;
             compute_texcoord_transfer_vertex_to_wedge;
             compute_texcoord_parametrization_triangle_trivial_per_wedge resolution 0 "Basic"] /\
        exists r1,
          nth_error new 5 = Some (texmap_attempt tn resolution true, r1) /\
          exists o5,
          fst (pymeshlab (calls w ++ firstn 5 new) (texmap_attempt tn resolution true) o5)
            = r1 /\
          match r1 with
          | None =>
              filter is_retry new = [] /\
              forall out, with_suffix (name obj_path) ".pt.obj" = Ok out ->
                exists r3, nth_error new 6 = Some (save_current_mesh out, r3)
          | Some e1 =>
              if is_PyMeshLabException e1
              then exists r2,
                     nth_error new 6 = Some (texmap_attempt tn resolution false, r2) /\
                     exists o6,
                     fst (pymeshlab (calls w ++ firstn 6 new)
                            (texmap_attempt tn resolution false) o6) = r2 /\
                     filter is_retry new = [(texmap_attempt tn resolution false, r2)] /\
                     match r2 with
                     | Some e2 =>
                         fst (auto_texture pymeshlab with_suffix obj_path resolution w)
                           = Err e2 /\ List.length new = 7
                     | None =>
                         forall out, with_suffix (name obj_path) ".pt.obj" = Ok out ->
                           exists r3, nth_error new 7 = Some (save_current_mesh out, r3)
                     end
              else fst (auto_texture pymeshlab with_suffix obj_path resolution w) = Err e1
                   /\ List.length new = 6
          end).
Proof.
  intros Hin Hrun Hback. unfold auto_texture.
  rewrite (chdir_entered _ _ w w2 o1 r Hin Hrun Hback). cbn [fst snd calls].
  destruct (auto_texture_block_log pymeshlab with_suffix obj_path resolution
              (mkWorld o1 (calls w))) as (new & Hlog & Hcount & Hnext & Hprop).
  pose proof (fun tn => auto_texture_block_attempts pymeshlab with_suffix obj_path
                          resolution (mkWorld o1 (calls w)) tn new) as Hmade.
  rewrite Hrun in Hlog, Hprop, Hmade. cbn [fst snd calls] in Hlog, Hprop, Hmade.
  exists new. do 4 (split; [assumption |]).
  intros tn Htn Hnone. exact (Hmade tn Htn Hlog Hnone).
Qed.

(** pymeshlab refusing to overwrite once: the second attempt is made. *)
Lemma auto_texture_retries_once_witness :
  let w := mkWorld (mkOS "/home" ["/home"; "/data"]) [] in
  let pymeshlab := fails_first_attempt (PyMeshLabException "file exists") in
  let with_suffix := append_suffix in
  let obj_path := mkPath "/data" "12_rice3_mesh.obj" in
  let resolution := 4096%Z in
  exists new,
    calls (snd (auto_texture pymeshlab with_suffix obj_path resolution w))
      = calls w ++ new /\
    List.length (filter is_retry new)
      = (if existsb caught_first_attempt new then 1 else 0) /\
    (forall k tn tw th m,
        nth_error new k
          = Some (compute_texmap_from_color tn tw th true, Some (PyMeshLabException m)) ->
        exists resp,
          nth_error new (S k) = Some (compute_texmap_from_color tn tw th false, resp)) /\
    (forall c e, In (c, Some e) new -> caught_first_attempt (c, Some e) = false ->
        fst (auto_texture pymeshlab with_suffix obj_path resolution w) = Err e) /\
    (forall tn,
        with_suffix (replace "_pc" "" (replace "_mesh" "" (name obj_path))) ".png" = Ok tn ->
        (forall k c e, k < 5 -> nth_error new k <> Some (c, Some e)) ->
        map fst (firstn 5 new)
          = [MeshSet_new; load_new_mesh (name obj_path);
             compute_texcoord_by_function_per_vertex;
             compute_texcoord_transfer_vertex_to_wedge;
             compute_texcoord_parametrization_triangle_trivial_per_wedge resolution 0 "Basic"] /\
        exists r1,
          nth_error new 5 = Some (texmap_attempt tn resolution true, r1) /\
          exists o5,
          fst (pymeshlab (calls w ++ firstn 5 new) (texmap_attempt tn resolution true) o5)
            = r1 /\
          match r1 with
          | None =>
              filter is_retry new = [] /\
              forall out, with_suffix (name obj_path) ".pt.obj" = Ok out ->
                exists r3, nth_error new 6 = Some (save_current_mesh out, r3)
          | Some e1 =>
              if is_PyMeshLabException e1
              then exists r2,
                     nth_error new 6 = Some (texmap_attempt tn resolution false, r2) /\
                     exists o6,
                     fst (pymeshlab (calls w ++ firstn 6 new)
                            (texmap_attempt tn resolution false) o6) = r2 /\
                     filter is_retry new = [(texmap_attempt tn resolution false, r2)] /\
                     match r2 with
                     | Some e2 =>
                         fst (auto_texture pymeshlab with_suffix obj_path resolution w)
                           = Err e2 /\ List.length new = 7
                     | None =>
                         forall out, with_suffix (name obj_path) ".pt.obj" = Ok out ->
                           exists r3, nth_error new 7 = Some (save_current_mesh out, r3)
                     end
              else fst (auto_texture pymeshlab with_suffix obj_path resolution w) = Err e1
                   /\ List.length new = 6
          end).
Proof.
  intros w pymeshlab with_suffix obj_path resolution.
  apply (auto_texture_retries_once pymeshlab with_suffix obj_path resolution w
           (snd (auto_texture_block pymeshlab with_suffix obj_path resolution
                   (mkWorld (mkOS "/data" ["/home"; "/data"]) [])))
           (mkOS "/data" ["/home"; "/data"]) (Ok tt)); reflexivity.
Defined.

(** The run of the witness, spelled out. *)
Example auto_texture_retry_run :
  auto_texture (fails_first_attempt (PyMeshLabException "file exists")) append_suffix
    (mkPath "/data" "12_rice3_mesh.obj") 4096
    (mkWorld (mkOS "/home" ["/home"; "/data"]) [])
  = (Ok tt,
     mkWorld (mkOS "/home" ["/home"; "/data"])
       [(MeshSet_new, None);
        (load_new_mesh "12_rice3_mesh.obj", None);
        (compute_texcoord_by_function_per_vertex, None);
        (compute_texcoord_transfer_vertex_to_wedge, None);
        (compute_texcoord_parametrization_triangle_trivial_per_wedge 4096 0 "Basic", None);
        (compute_texmap_from_color "12_rice3.obj.png" 4096 4096 true,
         Some (PyMeshLabException "file exists"));
        (compute_texmap_from_color "12_rice3.obj.png" 4096 4096 false, None);
        (save_current_mesh "12_rice3_mesh.obj.pt.obj", None);
        (print "Texture saved as 12_rice3.obj.png", None)]).
Proof. reflexivity. Qed.

(** An exception of another kind at the first attempt is not retried. *)
Example auto_texture_other_exception :
  fst (auto_texture (fails_first_attempt (RuntimeError "out of memory")) append_suffix
         (mkPath "/data" "12_rice3_mesh.obj") 4096
         (mkWorld (mkOS "/home" ["/home"; "/data"]) []))
  = Err (RuntimeError "out of memory").
Proof. reflexivity. Qed.

End MeshlabFacts.

(** ** [generate_texture.py] *)

Module Text2TexFacts.
Import Text2Tex Modelled Observe.

(** *** The log is only appended to *)

Lemma writer_ret {A} (a : A) : writer (ret a).
Proof. intros l. cbn. rewrite app_nil_r. reflexivity. Qed.

Lemma writer_lift {A} (r : result A) : writer (lift r).
Proof. intros l. cbn. rewrite app_nil_r. reflexivity. Qed.

Lemma writer_call {A} (ev : Event) (r : result A) : writer (call ev r).
Proof. intros l. reflexivity. Qed.

Lemma writer_emit (ev : Event) : writer (emit ev).
Proof. apply writer_call. Qed.

Lemma writer_bind {A B} (m : M Log A) (k : A -> M Log B) :
  writer m -> (forall a, writer (k a)) -> writer (bind m k).
Proof.
  intros Hm Hk l. unfold bind. rewrite (Hm l).
  destruct (m []) as [[a|e] evs]; cbn [fst snd].
  - rewrite (Hk a (l ++ evs)), (Hk a evs). cbn.
    rewrite app_assoc. reflexivity.
  - reflexivity.
Qed.

Lemma writer_if {A} (b : bool) (m1 m2 : M Log A) :
  writer m1 -> writer m2 -> writer (if b then m1 else m2).
Proof. destruct b; auto. Qed.

Lemma writer_for_each {St} (body : nat -> St -> M Log St) (idxs : list nat) :
  (forall i st, writer (body i st)) -> forall st, writer (for_each idxs body st).
Proof.
  intros Hb. induction idxs as [|i rest IH]; intros st; cbn [for_each].
  - apply writer_ret.
  - apply writer_bind; [apply Hb | exact IH].
Qed.

Ltac writer_tac :=
  repeat first
    [ apply writer_ret | apply writer_lift | apply writer_call | apply writer_emit
    | apply writer_if
    | apply writer_bind; [| intros]
    | apply writer_for_each; intros
    | match goal with |- writer (let '(_, _) := ?p in _) => destruct p end
    | match goal with |- writer (match ?p with (_, _) => _ end) => destruct p end ].

(** A computation that only appends, split at its first part. *)
Lemma bind_run {A B} (m : M Log A) (k : A -> M Log B) :
  (forall a, writer (k a)) ->
  bind m k [] = match m [] with
                | (Ok a, evs) => (fst (k a []), evs ++ snd (k a []))
                | (Err e, evs) => (Err e, evs)
                end.
Proof.
  intros Hk. unfold bind. destruct (m []) as [[a|e] evs]; [|reflexivity].
  apply Hk.
Qed.

(** *** Case analysis over the answers of the collaborators *)

Ltac script_red :=
  cbv beta iota delta [bind ret lift call emit fst snd]; cbn [app].

Ltac script_step :=
  script_red;
  match goal with
  | |- context [if should_update ?R ?C ?a ?r then _ else _] =>
      destruct (should_update R C a r) eqn:?
  | |- context [match ?r with Ok _ => _ | Err _ => _ end] =>
      lazymatch r with
      | context [match _ with Ok _ => _ | Err _ => _ end] => fail
      | _ => destruct r eqn:?
      end
  | |- context [let '(_, _) := ?p in _] => is_var p; destruct p
  end.

Ltac script_cases := repeat script_step; script_red.

Ltac unfold_view :=
  unfold generate_view, generate_view_update, refine_view, refine_view_update,
    nothing_to_update, render, inpaint, backproject.

(** *** Observers distribute over the log *)

Lemma visited_app (l1 l2 : Log) : visited (l1 ++ l2) = visited l1 ++ visited l2.
Proof. apply flat_map_app. Qed.

Lemma exist_history_app (l1 l2 : Log) :
  exist_history (l1 ++ l2) = exist_history l1 ++ exist_history l2.
Proof. apply flat_map_app. Qed.

Lemma count_app (p : Event -> bool) (l1 l2 : Log) :
  count p (l1 ++ l2) = count p l1 + count p l2.
Proof. unfold count. rewrite filter_app, length_app. reflexivity. Qed.

Lemma viewpoint_at_firstn (n : nat) (d e a : list Q) (i : nat) :
  i < n -> viewpoint_at (firstn n d) (firstn n e) (firstn n a) i = viewpoint_at d e a i.
Proof.
  intros Hi. unfold viewpoint_at. rewrite !nth_error_firstn.
  apply Nat.ltb_lt in Hi. rewrite Hi. reflexivity.
Qed.

Section Facts.

Context {Renderer Cameras Cache : Type}.
Variable E : Collaborators Renderer Cameras Cache.
Variable args : Args.

Lemma writer_generate_view pd pe pa ps vp cache i atlas :
  writer (generate_view _ _ _ E args pd pe pa ps vp cache i atlas).
Proof.
  unfold generate_view, generate_view_update, render, inpaint, backproject.
  writer_tac.
Qed.

Lemma writer_refine_view d e a s cache i st :
  writer (refine_view _ _ _ E args d e a s cache i st).
Proof.
  unfold refine_view, refine_view_update, render, inpaint, backproject,
    nothing_to_update.
  writer_tac.
Qed.

Lemma writer_post_processing atlas : writer (post_processing _ _ _ E args atlas).
Proof. unfold post_processing. writer_tac. Qed.

Lemma writer_refinement_stage atlas d e a s vp :
  writer (refinement_stage _ _ _ E args atlas d e a s vp).
Proof.
  unfold refinement_stage. writer_tac.
Qed.

(** The loop, one iteration at a time. *)
Lemma for_each_cons {St} (body : nat -> St -> M Log St) i rest st :
  (forall i st, writer (body i st)) ->
  for_each (i :: rest) body st []
  = match body i st [] with
    | (Ok st', evs) =>
        (fst (for_each rest body st' []), evs ++ snd (for_each rest body st' []))
    | (Err e, evs) => (Err e, evs)
    end.
Proof.
  intros Hb. cbn [for_each]. apply bind_run.
  intros st'. apply writer_for_each. exact Hb.
Qed.


(** *** The generation stage visits the principal views in order *)

(** One iteration renders the view at its own index, or stops before. *)
Lemma generate_view_visited pd pe pa ps vp cache i atlas :
  let run := generate_view _ _ _ E args pd pe pa ps vp cache i atlas [] in
  (exists v, viewpoint_at pd pe pa i = Some v /\ visited (snd run) = [v])
  \/ (visited (snd run) = [] /\ exists e, fst run = Err e).
Proof.
  unfold_view. unfold getitem, viewpoint_at.
  destruct (nth_error pd i) as [d|]; [| right; cbn; eauto].
  destruct (nth_error pe i) as [e|]; [| right; cbn; eauto].
  destruct (nth_error pa i) as [a|]; [| right; cbn; eauto].
  destruct (nth_error ps i) as [s|]; [| right; cbn; eauto].
  left. eexists; split; [reflexivity|].
  script_cases.
  all: reflexivity.
Qed.

(** No view is selected and nothing is post-processed while generating. *)
Lemma generate_view_counts pd pe pa ps vp cache i atlas :
  let run := generate_view _ _ _ E args pd pe pa ps vp cache i atlas [] in
  count is_select (snd run) = 0 /\ count is_postprocess (snd run) = 0.
Proof.
  unfold_view. unfold getitem.
  destruct (nth_error pd i) as [d|]; [| split; reflexivity].
  destruct (nth_error pe i) as [e|]; [| split; reflexivity].
  destruct (nth_error pa i) as [a|]; [| split; reflexivity].
  destruct (nth_error ps i) as [s|]; [| split; reflexivity].
  script_cases.
  all: split; reflexivity.
Qed.

Lemma generation_loop_visited pd pe pa ps vp cache m :
  forall k atlas,
    let run := for_each (seq k m) (generate_view _ _ _ E args pd pe pa ps vp cache)
                 atlas [] in
    exists j, j <= m
      /\ map Some (visited (snd run)) = map (viewpoint_at pd pe pa) (seq k j)
      /\ (forall a, fst run = Ok a -> j = m).
Proof.
  induction m as [|m IH]; intros k atlas; cbn [seq].
  - exists 0. cbn. repeat split; auto.
  - cbv zeta. rewrite for_each_cons by (intros; apply writer_generate_view).
    destruct (generate_view_visited pd pe pa ps vp cache k atlas)
      as [(v & Hv & Hvis) | (Hvis & e & He)].
    + destruct (generate_view _ _ _ E args pd pe pa ps vp cache k atlas [])
        as [[atlas'|e] evs]; cbn [fst snd] in *.
      * destruct (IH (S k) atlas') as (j & Hj & Hmap & Hok).
        exists (S j). split; [lia|]. split.
        -- rewrite visited_app, map_app, Hvis, Hmap. cbn. rewrite Hv. reflexivity.
        -- intros a Ha. rewrite (Hok a Ha). reflexivity.
      * exists 1. split; [lia|]. split.
        -- rewrite Hvis. cbn. rewrite Hv. reflexivity.
        -- intros a Ha. discriminate.
    + destruct (generate_view _ _ _ E args pd pe pa ps vp cache k atlas [])
        as [[atlas'|e'] evs]; cbn [fst snd] in *; [discriminate|].
      exists 0. split; [lia|]. split.
      * rewrite Hvis. reflexivity.
      * intros a Ha. discriminate.
Qed.

Lemma generation_loop_counts pd pe pa ps vp cache idxs :
  forall atlas,
    let run := for_each idxs (generate_view _ _ _ E args pd pe pa ps vp cache)
                 atlas [] in
    count is_select (snd run) = 0 /\ count is_postprocess (snd run) = 0.
Proof.
  induction idxs as [|i rest IH]; intros atlas.
  - split; reflexivity.
  - cbv zeta. rewrite for_each_cons by (intros; apply writer_generate_view).
    pose proof (generate_view_counts pd pe pa ps vp cache i atlas) as [Hs Hp].
    destruct (generate_view _ _ _ E args pd pe pa ps vp cache i atlas [])
      as [[atlas'|e] evs]; cbn [fst snd] in *.
    + destruct (IH atlas') as [Hs' Hp']. rewrite !count_app. lia.
    + split; assumption.
Qed.

(** The generation stage run from the empty log: the cache is built, then
    the loop runs. *)
Lemma generation_stage_run texture d e a s vp :
  let n := NUM_PRINCIPLE args in
  let ev := EvCache (firstn n d) (firstn n e) (firstn n a) in
  generation_stage _ _ _ E args texture d e a s vp []
  = match build_similarity_texture_cache_for_all_views _ _ _ E texture
            (firstn n d) (firstn n e) (firstn n a) with
    | Ok cache =>
        let loop := for_each (seq 0 n)
                      (generate_view _ _ _ E args (firstn n d) (firstn n e)
                         (firstn n a) (firstn n s) vp cache)
                      (mkAtlas texture (zeros (uv_size args))) [] in
        (fst loop, ev :: snd loop)
    | Err x => (Err x, [ev])
    end.
Proof.
  cbv zeta. unfold generation_stage.
  rewrite bind_run by (intros; apply writer_for_each; intros; apply writer_generate_view).
  unfold call. destruct (build_similarity_texture_cache_for_all_views _ _ _ _ _ _ _ _);
    reflexivity.
Qed.

(** C3. The generation stage works with 10 views for ShapeNet and Objaverse
    assets and 6 otherwise.  The views it hands to the renderer for
    classification are, in this order, those at positions 0, 1, ... of the
    constructed lists: a prefix at any moment, all [NUM_PRINCIPLE] of them
    when the stage completes; and [select_viewpoint] is never consulted. *)
Theorem generation_visits_principal_prefix texture d e a s vp :
  let run := generation_stage _ _ _ E args texture d e a s vp [] in
  NUM_PRINCIPLE args = (if use_shapenet args || use_objaverse args then 10 else 6)
  /\ count is_select (snd run) = 0
  /\ exists j, j <= NUM_PRINCIPLE args
       /\ map Some (visited (snd run)) = map (viewpoint_at d e a) (seq 0 j)
       /\ (forall atlas, fst run = Ok atlas -> j = NUM_PRINCIPLE args).
Proof.
  cbv zeta. split; [reflexivity|].
  rewrite generation_stage_run. cbv zeta.
  destruct (build_similarity_texture_cache_for_all_views _ _ _ _ _ _ _ _) as [cache|x].
  - cbn [fst snd].
    set (n := NUM_PRINCIPLE args).
    destruct (generation_loop_counts (firstn n d) (firstn n e) (firstn n a)
                (firstn n s) vp cache (seq 0 n)
                (mkAtlas texture (zeros (uv_size args)))) as [Hsel _].
    destruct (generation_loop_visited (firstn n d) (firstn n e) (firstn n a)
                (firstn n s) vp cache n 0
                (mkAtlas texture (zeros (uv_size args)))) as (j & Hj & Hmap & Hok).
    split.
    + change (EvCache (firstn n d) (firstn n e) (firstn n a) :: ?l)
        with ([EvCache (firstn n d) (firstn n e) (firstn n a)] ++ l).
      rewrite count_app, Hsel. reflexivity.
    + exists j. split; [exact Hj|]. split; [|exact Hok].
      cbn [visited flat_map app]. fold (visited (snd (for_each (seq 0 n)
        (generate_view _ _ _ E args (firstn n d) (firstn n e) (firstn n a)
           (firstn n s) vp cache) (mkAtlas texture (zeros (uv_size args))) []))).
      rewrite Hmap. apply map_ext_in. intros i Hi. apply in_seq in Hi.
      apply viewpoint_at_firstn. lia.
  - cbn [fst snd]. split; [reflexivity|].
    exists 0. split; [lia|]. split; [reflexivity|]. intros atlas H. discriminate.
Qed.

(** *** The refinement stage *)

(** One iteration consults [select_viewpoint] once, before anything else. *)
Lemma refine_view_counts d e a s cache i st :
  let run := refine_view _ _ _ E args d e a s cache i st [] in
  count is_select (snd run) = 1 /\ count is_postprocess (snd run) = 0.
Proof.
  unfold_view. unfold last_item.
  script_step. 2:{ split; reflexivity. }
  repeat script_step.
  destruct (rev l) as [|sel ?]; [split; reflexivity|].
  script_cases.
  all: split; reflexivity.
Qed.

Lemma refinement_loop_counts d e a s cache idxs :
  forall st,
    let run := for_each idxs (refine_view _ _ _ E args d e a s cache) st [] in
    count is_select (snd run) <= List.length idxs
    /\ (forall st', fst run = Ok st' -> count is_select (snd run) = List.length idxs)
    /\ count is_postprocess (snd run) = 0.
Proof.
  induction idxs as [|i rest IH]; intros st.
  - cbn. repeat split; auto.
  - cbv zeta. rewrite for_each_cons by (intros; apply writer_refine_view).
    pose proof (refine_view_counts d e a s cache i st) as [Hs Hp].
    destruct (refine_view _ _ _ E args d e a s cache i st [])
      as [[st1|x] evs]; cbn [fst snd] in *.
    + destruct (IH st1) as (Hle & Heq & Hp'). rewrite !count_app. cbn [List.length].
      repeat split; [lia | | lia].
      intros st' Hst'. rewrite (Heq st' Hst'). lia.
    + cbn [List.length]. repeat split; [lia | | assumption].
      intros st' Hst'. discriminate.
Qed.

(** The refinement stage run from the empty log. *)
Lemma refinement_stage_run atlas d e a s vp :
  let n := NUM_PRINCIPLE args in
  let ev := EvCache (skipn n d) (skipn n e) (skipn n a) in
  refinement_stage _ _ _ E args atlas d e a s vp []
  = match build_similarity_texture_cache_for_all_views _ _ _ E (init_texture atlas)
            (skipn n d) (skipn n e) (skipn n a) with
    | Ok cache =>
        let loop := for_each (seq 0 (Z.to_nat (update_steps args)))
                      (refine_view _ _ _ E args (skipn n d) (skipn n e) (skipn n a)
                         (skipn n s) cache)
                      (mkRefineState atlas [] (skipn n vp)) [] in
        match fst loop with
        | Ok st =>
            if post_process args then
              let post := post_processing _ _ _ E args (atlas_of st) [] in
              (match fst post with
               | Ok p => Ok (atlas_of st, Some p)
               | Err x => Err x
               end, ev :: snd loop ++ snd post)
            else (Ok (atlas_of st, None), ev :: snd loop)
        | Err x => (Err x, ev :: snd loop)
        end
    | Err x => (Err x, [ev])
    end.
Proof.
  cbv zeta. unfold refinement_stage.
  rewrite bind_run by (intros; writer_tac).
  unfold call at 1.
  destruct (build_similarity_texture_cache_for_all_views _ _ _ _ _ _ _ _) as [cache|x];
    [|reflexivity].
  rewrite bind_run by (intros; writer_tac).
  destruct (for_each _ _ _ []) as [[st|x] evs]; cbn [fst snd app]; [|reflexivity].
  destruct (post_process args).
  - rewrite bind_run by (intros; writer_tac).
    destruct (post_processing _ _ _ E args (atlas_of st) []) as [[p|x] evs'];
      cbn [fst snd ret]; rewrite ?app_nil_r; reflexivity.
  - cbn [fst snd ret]. rewrite app_nil_r. reflexivity.
Qed.

(** The post-processing run from the empty log. *)
Lemma post_processing_run atlas :
  let ev := EvPostprocess (init_texture atlas) (complement (exist_texture atlas)) in
  post_processing _ _ _ E args atlas []
  = match apply_inpainting_postprocess _ _ _ E (init_texture atlas)
            (complement (exist_texture atlas)) "" (uv_size args) (uv_size args) with
    | Ok p =>
        (Ok p,
         [ev; EvSaveObj UpdateStage
                (str_of_nat (Z.to_nat (update_steps args) - 1) ++ "_post.obj")%string p])
    | Err x => (Err x, [ev])
    end.
Proof.
  cbv zeta. unfold post_processing. script_red.
  destruct (apply_inpainting_postprocess _ _ _ _ _ _ _ _ _); reflexivity.
Qed.

(** The whole operation zone run from the empty log. *)
Lemma generate_texture_run texture d e a s vp :
  let gen := generation_stage _ _ _ E args texture d e a s vp [] in
  generate_texture _ _ _ E args texture d e a s vp []
  = match fst gen with
    | Ok atlas =>
        if (0 <? update_steps args)%Z then
          let ref := refinement_stage _ _ _ E args atlas d e a s vp [] in
          (fst ref, snd gen ++ snd ref)
        else (Ok (atlas, None), snd gen)
    | Err x => (Err x, snd gen)
    end.
Proof.
  cbv zeta. unfold generate_texture.
  rewrite bind_run by (intros; apply writer_if; [apply writer_refinement_stage | apply writer_ret]).
  destruct (generation_stage _ _ _ E args texture d e a s vp []) as [[atlas|x] evs];
    cbn [fst snd]; [|reflexivity].
  destruct (0 <? update_steps args)%Z; [reflexivity|].
  cbn. rewrite app_nil_r. reflexivity.
Qed.

Lemma generation_stage_counts texture d e a s vp :
  let run := generation_stage _ _ _ E args texture d e a s vp [] in
  count is_select (snd run) = 0 /\ count is_postprocess (snd run) = 0.
Proof.
  cbv zeta. rewrite generation_stage_run. cbv zeta.
  destruct (build_similarity_texture_cache_for_all_views _ _ _ _ _ _ _ _) as [cache|x];
    [|split; reflexivity].
  cbn [fst snd].
  match goal with
  | |- context [for_each ?idxs (generate_view _ _ _ E args ?pd ?pe ?pa ?ps vp cache) ?at0 []] =>
      destruct (generation_loop_counts pd pe pa ps vp cache idxs at0) as [Hs Hp]
  end.
  split; [exact Hs | exact Hp].
Qed.

(** C6 (amended). The refinement loop starts [update_steps] iterations,
    consulting [select_viewpoint] once in each, whatever number of
    viewpoints is left after the principal ones: in a run that completes,
    the selections number exactly [update_steps] (none for a count that is
    not positive); in a run that fails, at most that. *)
Theorem refinement_runs_update_steps texture d e a s vp :
  let run := generate_texture _ _ _ E args texture d e a s vp [] in
  count is_select (snd run) <= Z.to_nat (update_steps args)
  /\ (forall res, fst run = Ok res ->
        count is_select (snd run) = Z.to_nat (update_steps args)).
Proof.
  cbv zeta. rewrite generate_texture_run. cbv zeta.
  pose proof (generation_stage_counts texture d e a s vp) as [Hgs _].
  destruct (generation_stage _ _ _ E args texture d e a s vp []) as [[atlas|x] gen];
    cbn [fst snd] in *.
  2:{ rewrite Hgs. split; [lia | intros res H; discriminate]. }
  destruct (Z.ltb_spec 0 (update_steps args)) as [Hpos|Hneg].
  2:{ cbn [fst snd]. rewrite Hgs.
      replace (Z.to_nat (update_steps args)) with 0 by lia. split; auto. }
  rewrite refinement_stage_run. cbv zeta.
  destruct (build_similarity_texture_cache_for_all_views _ _ _ _ _ _ _ _) as [cache|x].
  2:{ cbn [fst snd]. rewrite count_app, Hgs. cbn.
      split; [lia | intros res H; discriminate]. }
  match goal with
  | |- context [for_each ?idxs (refine_view _ _ _ E args ?rd ?re ?ra ?rs cache) ?st0 []] =>
      destruct (refinement_loop_counts rd re ra rs cache idxs st0) as (Hle & Heq & _);
      destruct (for_each idxs (refine_view _ _ _ E args rd re ra rs cache) st0 [])
        as [[st|x] evs]
  end; cbn [fst snd] in *; rewrite length_seq in *.
  - specialize (Heq st eq_refl).
    destruct (post_process args).
    + rewrite post_processing_run. cbv zeta.
      destruct (apply_inpainting_postprocess _ _ _ _ _ _ _ _ _); cbn [fst snd];
        change (?x :: evs ++ ?t) with ([x] ++ evs ++ t);
        rewrite !count_app, Hgs, Heq; cbn; (split; [lia | intros; lia]).
    + cbn [fst snd]. change (?x :: evs) with ([x] ++ evs).
      rewrite !count_app, Hgs, Heq. cbn. split; [lia | intros; lia].
  - change (?x0 :: evs) with ([x0] ++ evs).
    rewrite !count_app, Hgs. cbn. split; [lia | intros res H; discriminate].
Qed.

(** C8 (amended). With the post-process option set and a positive number of
    refinement steps, the post-processing inpainter is invoked at most once;
    in a run that completes it is invoked exactly once, after everything
    else, on the final texture and the complement of the final existence
    mask, and what it returns is saved and is the post-processed texture of
    the run. *)
Theorem post_process_once_after_refinement texture d e a s vp :
  post_process args = true ->
  (0 < update_steps args)%Z ->
  let run := generate_texture _ _ _ E args texture d e a s vp [] in
  count is_postprocess (snd run) <= 1
  /\ (forall atlas post, fst run = Ok (atlas, post) ->
        exists log p,
          snd run
          = log ++ [EvPostprocess (init_texture atlas) (complement (exist_texture atlas));
                    EvSaveObj UpdateStage
                      (str_of_nat (Z.to_nat (update_steps args) - 1) ++ "_post.obj")%string
                      p]
          /\ count is_postprocess log = 0
          /\ post = Some p
          /\ apply_inpainting_postprocess _ _ _ E (init_texture atlas)
               (complement (exist_texture atlas)) "" (uv_size args) (uv_size args)
             = Ok p).
Proof.
  intros Hpp Hsteps. cbv zeta. rewrite generate_texture_run. cbv zeta.
  pose proof (generation_stage_counts texture d e a s vp) as [_ Hgp].
  destruct (generation_stage _ _ _ E args texture d e a s vp []) as [[atlas0|x] gen];
    cbn [fst snd] in *.
  2:{ rewrite Hgp. split; [lia | intros ? ? H; discriminate]. }
  apply Z.ltb_lt in Hsteps. rewrite Hsteps.
  rewrite refinement_stage_run. cbv zeta.
  destruct (build_similarity_texture_cache_for_all_views _ _ _ _ _ _ _ _) as [cache|x].
  2:{ cbn [fst snd]. rewrite count_app, Hgp. cbn.
      split; [lia | intros ? ? H; discriminate]. }
  match goal with
  | |- context [for_each ?idxs (refine_view _ _ _ E args ?rd ?re ?ra ?rs cache) ?st0 []] =>
      destruct (refinement_loop_counts rd re ra rs cache idxs st0) as (_ & _ & Hrp);
      destruct (for_each idxs (refine_view _ _ _ E args rd re ra rs cache) st0 [])
        as [[st|x] evs]
  end; cbn [fst snd] in *.
  2:{ change (?x0 :: evs) with ([x0] ++ evs). rewrite !count_app, Hgp, Hrp. cbn.
      split; [lia | intros ? ? H; discriminate]. }
  rewrite Hpp, post_processing_run. cbv zeta.
  destruct (apply_inpainting_postprocess _ _ _ E (init_texture (atlas_of st)) _ _ _ _)
    as [p|x] eqn:Hpost; cbn [fst snd].
  - split.
    + change (?x0 :: evs ++ ?t) with ([x0] ++ evs ++ t).
      rewrite !count_app, Hgp, Hrp. cbn. lia.
    + intros atlas post H. inversion H; subst atlas post.
      eexists (gen ++ _ :: evs), p. split.
      * rewrite <- app_assoc. cbn [app]. reflexivity.
      * repeat split; [| exact Hpost].
        change (?x0 :: evs) with ([x0] ++ evs).
        rewrite !count_app, Hgp, Hrp. reflexivity.
  - split.
    + change (?x0 :: evs ++ ?t) with ([x0] ++ evs ++ t).
      rewrite !count_app, Hgp, Hrp. cbn. lia.
    + intros ? ? H. discriminate.
Qed.

(** Without refinement steps, or without the option, nothing is
    post-processed. *)
Lemma post_process_gated texture d e a s vp :
  (update_steps args <= 0)%Z \/ post_process args = false ->
  count is_postprocess (snd (generate_texture _ _ _ E args texture d e a s vp [])) = 0.
Proof.
  intros Hgate. rewrite generate_texture_run. cbv zeta.
  pose proof (generation_stage_counts texture d e a s vp) as [_ Hgp].
  destruct (generation_stage _ _ _ E args texture d e a s vp []) as [[atlas0|x] gen];
    cbn [fst snd] in *; [|exact Hgp].
  destruct (Z.ltb_spec 0 (update_steps args)) as [Hpos|Hneg]; [|exact Hgp].
  destruct Hgate as [Hle|Hpp]; [lia|].
  rewrite refinement_stage_run. cbv zeta.
  destruct (build_similarity_texture_cache_for_all_views _ _ _ _ _ _ _ _) as [cache|x].
  2:{ cbn [fst snd]. rewrite count_app, Hgp. reflexivity. }
  match goal with
  | |- context [for_each ?idxs (refine_view _ _ _ E args ?rd ?re ?ra ?rs cache) ?st0 []] =>
      destruct (refinement_loop_counts rd re ra rs cache idxs st0) as (_ & _ & Hrp);
      destruct (for_each idxs (refine_view _ _ _ E args rd re ra rs cache) st0 [])
        as [[st|x] evs]
  end; cbn [fst snd] in *; rewrite ?Hpp; cbn [fst snd];
    change (?x0 :: evs) with ([x0] ++ evs); rewrite !count_app, Hgp, Hrp; reflexivity.
Qed.

(** *** The generate step of a principal view *)

Lemma ones_like_255_spec (img : Image) :
  image_size_of (ones_like_255 img) = image_size_of img
  /\ Forall (Forall (fun v => v = 255%Z)) (ones_like_255 img).
Proof.
  split.
  - unfold image_size_of, ones_like_255. rewrite length_map.
    destruct img as [|row rest]; cbn; [reflexivity|]. rewrite length_map. reflexivity.
  - unfold ones_like_255. apply Forall_map, Forall_forall. intros row _.
    apply Forall_map, Forall_forall. intros v _. reflexivity.
Qed.

(** Once a principal view is rendered, the inpainter is called on it, with
    the mask of lines 313-316 - whatever that mask contains. *)
Lemma generate_view_inpaints pd pe pa ps vp cache i atlas d_ e_ a_ s_ r :
  nth_error pd i = Some d_ -> nth_error pe i = Some e_ ->
  nth_error pa i = Some a_ -> nth_error ps i = Some s_ ->
  render_one_view_and_build_masks _ _ _ E d_ e_ a_ i i vp cache
    (exist_texture atlas) (init_texture atlas) true
    (smooth_mask args) (view_threshold args) = Ok r ->
  exists rest,
    snd (generate_view _ _ _ E args pd pe pa ps vp cache i atlas [])
    = EvRender d_ e_ a_ i i true (init_texture atlas) (exist_texture atlas)
      :: EvInpaint (init_image _ _ r) (prompt_for args s_) (new_strength args)
           (actual_generate_mask_image _ _ args i r) (keep_mask_image _ _ r)
      :: rest.
Proof.
  intros Hd He Ha Hs Hr. unfold_view. unfold getitem.
  rewrite Hd, He, Ha, Hs. script_red. rewrite Hr.
  script_cases.
  all: eexists; reflexivity.
Qed.

(** C4. With the no-repaint flag set, the inpainting call of a principal
    view (the one that follows its rendering) receives the computed generate
    mask for view 0, and for every other view an image of the same size
    whose pixels are all 255, in place of the computed mask. *)
Theorem no_repaint_forces_generate_mask pd pe pa ps vp cache i atlas d_ e_ a_ s_ r :
  no_repaint args = true ->
  nth_error pd i = Some d_ -> nth_error pe i = Some e_ ->
  nth_error pa i = Some a_ -> nth_error ps i = Some s_ ->
  render_one_view_and_build_masks _ _ _ E d_ e_ a_ i i vp cache
    (exist_texture atlas) (init_texture atlas) true
    (smooth_mask args) (view_threshold args) = Ok r ->
  exists mask rest,
    snd (generate_view _ _ _ E args pd pe pa ps vp cache i atlas [])
    = EvRender d_ e_ a_ i i true (init_texture atlas) (exist_texture atlas)
      :: EvInpaint (init_image _ _ r) (prompt_for args s_) (new_strength args)
           mask (keep_mask_image _ _ r)
      :: rest
    /\ (i = 0 -> mask = generate_mask_image _ _ r)
    /\ (i <> 0 ->
          mask = ones_like_255 (generate_mask_image _ _ r)
          /\ image_size_of mask = image_size_of (generate_mask_image _ _ r)
          /\ Forall (Forall (fun v => v = 255%Z)) mask).
Proof.
  intros Hnr Hd He Ha Hs Hr.
  destruct (generate_view_inpaints pd pe pa ps vp cache i atlas d_ e_ a_ s_ r
              Hd He Ha Hs Hr) as (rest & Hlog).
  exists (actual_generate_mask_image _ _ args i r), rest.
  split; [exact Hlog|].
  unfold actual_generate_mask_image. rewrite Hnr. split.
  - intros ->. reflexivity.
  - intros Hi. destruct i as [|i']; [contradiction|]. cbn.
    split; [reflexivity|]. apply ones_like_255_spec.
Qed.


(** *** Empty update masks *)

Lemma tensor_sum_empty (t : Tensor) : empty_mask t -> (tensor_sum t == 0)%Q.
Proof.
  unfold empty_mask, tensor_sum. intros Ht.
  induction Ht as [|row rest Hrow _ IH]; cbn [List.concat]; [reflexivity|].
  induction Hrow as [|v row' Hv _ IHrow]; cbn [app fold_right]; [exact IH|].
  rewrite Hv, IHrow. reflexivity.
Qed.

Lemma should_update_empty (a : Args) (r : RenderOut Renderer Cameras) :
  empty_mask (update_mask_tensor _ _ r) -> should_update _ _ a r = false.
Proof.
  intros Hempty. unfold should_update, Qlt_bool.
  assert (Hle : Qle_bool (tensor_sum (update_mask_tensor _ _ r)) 0 = true).
  { apply Qle_bool_iff. rewrite (tensor_sum_empty _ Hempty). apply Qle_refl. }
  rewrite Hle. cbn. rewrite Bool.andb_false_r. reflexivity.
Qed.

Lemma to_byte_zero (v : Q) : (v == 0)%Q -> to_byte v = 0%Z.
Proof.
  intros Hv. unfold to_byte.
  assert (Hn : Qnum v = 0%Z).
  { unfold Qeq in Hv. cbn in Hv. lia. }
  destruct v as [n dn]. cbn in Hn. subst n. reflexivity.
Qed.

(** The mask image of lines 564-567 for an empty update mask: all black. *)
Lemma blank_update_mask (t : Tensor) :
  empty_mask t -> Forall (Forall (fun v => v = 0%Z)) (ToPILImage (zero_where_one t)).
Proof.
  unfold empty_mask, ToPILImage, zero_where_one. intros Ht.
  rewrite map_map. apply Forall_map.
  eapply Forall_impl; [|exact Ht]. intros row Hrow.
  rewrite map_map. apply Forall_map.
  eapply Forall_impl; [|exact Hrow]. intros v Hv. cbn beta.
  destruct (Qeq_bool v 1); [reflexivity | apply to_byte_zero; exact Hv].
Qed.

(** C2 (amended). Let [r] be the rendering of a view whose update mask is
    empty.  The guard of the update step fails; in the generation stage the
    update step then makes no call at all, raises nothing and leaves the
    atlas as it is; in the refinement stage no inpainter call is made, the
    rendered image and an all-black update mask are what goes to the merge,
    and [backproject_from_image] is called with them.  The generate step of
    a principal view has no such guard: once the view is rendered, the
    inpainter is called. *)
Theorem empty_update_mask_skips_update (r : RenderOut Renderer Cameras) :
  empty_mask (update_mask_tensor _ _ r) ->
  let blank := ToPILImage (zero_where_one (update_mask_tensor _ _ r)) in
  should_update _ _ args r = false
  /\ (forall prompt r2 atlas l,
        generate_view_update _ _ _ E args prompt r r2 atlas l = (Ok atlas, l))
  /\ (forall prompt l,
        refine_view_update _ _ _ E args prompt r l = (Ok (init_image _ _ r, blank), l))
  /\ Forall (Forall (fun v => v = 0%Z)) blank
  /\ (forall dl el al sl cache i st d_ e_ a_ s_ selected punishments sel,
        select_viewpoint _ _ _ E (selected_view_ids st) (view_punishments_of st)
          (update_mode args) dl el al sl i cache
          (exist_texture (atlas_of st)) (init_texture (atlas_of st))
          = Ok (d_, e_, a_, s_, selected, punishments) ->
        last_item selected = Ok sel ->
        render_one_view_and_build_masks _ _ _ E d_ e_ a_ sel i punishments cache
          (exist_texture (atlas_of st)) (init_texture (atlas_of st)) true
          (smooth_mask args) (view_threshold args) = Ok r ->
        let run := refine_view _ _ _ E args dl el al sl cache i st [] in
        count is_inpaint (snd run) = 0
        /\ exists rest,
             snd run
             = EvSelect i (selected_view_ids st) (exist_texture (atlas_of st))
               :: EvRender d_ e_ a_ sel i true (init_texture (atlas_of st))
                    (exist_texture (atlas_of st))
               :: EvBackproject (init_image _ _ r) blank
                    (init_texture (atlas_of st)) (exist_texture (atlas_of st))
               :: rest)
  /\ (forall pd pe pa ps vp cache i atlas d_ e_ a_ s_,
        nth_error pd i = Some d_ -> nth_error pe i = Some e_ ->
        nth_error pa i = Some a_ -> nth_error ps i = Some s_ ->
        render_one_view_and_build_masks _ _ _ E d_ e_ a_ i i vp cache
          (exist_texture atlas) (init_texture atlas) true
          (smooth_mask args) (view_threshold args) = Ok r ->
        exists rest,
          snd (generate_view _ _ _ E args pd pe pa ps vp cache i atlas [])
          = EvRender d_ e_ a_ i i true (init_texture atlas) (exist_texture atlas)
            :: EvInpaint (init_image _ _ r) (prompt_for args s_) (new_strength args)
                 (actual_generate_mask_image _ _ args i r) (keep_mask_image _ _ r)
            :: rest).
Proof.
  intros Hempty blank.
  pose proof (should_update_empty args r Hempty) as Hguard.
  split; [exact Hguard|].
  split; [intros; unfold generate_view_update; rewrite Hguard; reflexivity|].
  split; [intros; unfold refine_view_update; rewrite Hguard; reflexivity|].
  split; [apply blank_update_mask; exact Hempty|].
  split.
  - intros dl el al sl cache i st d_ e_ a_ s_ selected punishments sel Hsel Hlast Hr.
    cbv zeta. unfold_view. script_red. rewrite Hsel. script_red.
    rewrite Hlast. script_red. rewrite Hr. script_red. rewrite Hguard.
    script_cases.
    all: split; [reflexivity | eexists; reflexivity].
  - intros. eapply generate_view_inpaints; eassumption.
Qed.

End Facts.

(** *** Coverage only grows *)

Lemma coverage_le_refl (a : Tensor) : coverage_le a a.
Proof. intros i j H. exact H. Qed.

Lemma coverage_le_trans (a b c : Tensor) :
  coverage_le a b -> coverage_le b c -> coverage_le a c.
Proof. intros Hab Hbc i j H. apply Hbc, Hab, H. Qed.

Lemma StronglySorted_app {A} (R : A -> A -> Prop) (l1 l2 : list A) :
  StronglySorted R l1 -> StronglySorted R l2 ->
  (forall x y, In x l1 -> In y l2 -> R x y) ->
  StronglySorted R (l1 ++ l2).
Proof.
  intros H1 H2 H12. induction H1 as [|x l1 Hl1 IH Hx]; cbn [app]; [exact H2|].
  constructor.
  - apply IH. intros u v Hu Hv. apply H12; [right; exact Hu | exact Hv].
  - apply Forall_app. split; [exact Hx|].
    apply Forall_forall. intros y Hy. apply H12; [left; reflexivity | exact Hy].
Qed.

(** Two consecutive pieces of a history: the first ends below [a'], the
    second starts from [a']. *)
Lemma chain_app (a a' : Tensor) (h1 h2 : list Tensor) :
  StronglySorted coverage_le (a :: h1) ->
  Forall (fun x => coverage_le x a') (a :: h1) ->
  StronglySorted coverage_le (a' :: h2) ->
  StronglySorted coverage_le (a :: h1 ++ h2).
Proof.
  intros H1 Hle H2. change (a :: h1 ++ h2) with ((a :: h1) ++ h2).
  inversion H2 as [|? ? Hs2 Hf2]; subst.
  apply StronglySorted_app; [exact H1 | exact Hs2 |].
  intros x y Hx Hy. rewrite Forall_forall in Hle, Hf2.
  eapply coverage_le_trans; [apply Hle, Hx | apply Hf2, Hy].
Qed.

Lemma below_app (a a' a'' : Tensor) (h1 h2 : list Tensor) :
  Forall (fun x => coverage_le x a') (a :: h1) ->
  Forall (fun x => coverage_le x a'') (a' :: h2) ->
  Forall (fun x => coverage_le x a'') (a :: h1 ++ h2).
Proof.
  intros H1 H2. change (a :: h1 ++ h2) with ((a :: h1) ++ h2).
  inversion H2 as [|? ? Ha' Hh2]; subst.
  apply Forall_app. split; [|exact Hh2].
  eapply Forall_impl; [|exact H1]. intros x Hx.
  eapply coverage_le_trans; [exact Hx | exact Ha'].
Qed.

(** What the merger guarantees, made available in every branch. *)
Ltac use_merger Hmono :=
  repeat match goal with
         | H : backproject_from_image _ _ _ _ _ _ _ _ _ _ = Ok _ |- _ =>
             apply Hmono in H; cbn [exist_texture init_texture] in H
         end;
  repeat match goal with
         | H1 : coverage_le ?a ?b, H2 : coverage_le ?b ?c |- _ =>
             lazymatch goal with
             | _ : coverage_le a c |- _ => fail
             | _ => pose proof (coverage_le_trans a b c H1 H2)
             end
         end.

Ltac close_chain Hmono :=
  cbn [exist_history flat_map app exist_texture init_texture atlas_of fst snd];
  use_merger Hmono;
  split;
  [ repeat constructor; auto using coverage_le_refl
  | let H := fresh in
    intros ? H; inversion H; subst;
    cbn [exist_texture init_texture atlas_of];
    repeat constructor; auto using coverage_le_refl ].

Section Coverage.

Context {Renderer Cameras Cache : Type}.
Variable E : Collaborators Renderer Cameras Cache.
Variable args : Args.
Hypothesis Hmono : merger_monotone E.

Lemma generate_view_chain pd pe pa ps vp cache i atlas :
  let run := generate_view _ _ _ E args pd pe pa ps vp cache i atlas [] in
  StronglySorted coverage_le (exist_texture atlas :: exist_history (snd run))
  /\ (forall atlas', fst run = Ok atlas' ->
        Forall (fun x => coverage_le x (exist_texture atlas'))
          (exist_texture atlas :: exist_history (snd run))).
Proof.
  unfold_view. unfold getitem.
  destruct (nth_error pd i) as [d|]; [| close_chain Hmono].
  destruct (nth_error pe i) as [e|]; [| close_chain Hmono].
  destruct (nth_error pa i) as [a|]; [| close_chain Hmono].
  destruct (nth_error ps i) as [s|]; [| close_chain Hmono].
  script_cases.
  all: close_chain Hmono.
Qed.

Lemma refine_view_chain d e a s cache i st :
  let run := refine_view _ _ _ E args d e a s cache i st [] in
  StronglySorted coverage_le (exist_texture (atlas_of st) :: exist_history (snd run))
  /\ (forall st', fst run = Ok st' ->
        Forall (fun x => coverage_le x (exist_texture (atlas_of st')))
          (exist_texture (atlas_of st) :: exist_history (snd run))).
Proof.
  unfold_view. unfold last_item.
  script_step. 2:{ close_chain Hmono. }
  repeat script_step.
  destruct (rev l) as [|sel ?]; [close_chain Hmono|].
  script_cases.
  all: close_chain Hmono.
Qed.

(** A loop whose iterations each extend the history as a chain. *)
Lemma for_each_chain {St} (ex : St -> Tensor) (body : nat -> St -> M Log St) :
  (forall i st, writer (body i st)) ->
  (forall i st,
      StronglySorted coverage_le (ex st :: exist_history (snd (body i st [])))
      /\ (forall st', fst (body i st []) = Ok st' ->
            Forall (fun x => coverage_le x (ex st'))
              (ex st :: exist_history (snd (body i st []))))) ->
  forall idxs st,
    let run := for_each idxs body st [] in
    StronglySorted coverage_le (ex st :: exist_history (snd run))
    /\ (forall st', fst run = Ok st' ->
          Forall (fun x => coverage_le x (ex st')) (ex st :: exist_history (snd run))).
Proof.
  intros Hw Hbody. induction idxs as [|i rest IH]; intros st; cbv zeta.
  - cbn. split.
    + repeat constructor.
    + intros st' H. inversion H; subst. repeat constructor. apply coverage_le_refl.
  - rewrite for_each_cons by exact Hw.
    destruct (Hbody i st) as [Hs Hf].
    destruct (body i st []) as [[st1|x] evs]; cbn [fst snd] in *.
    + destruct (IH st1) as [Hs' Hf']. specialize (Hf st1 eq_refl).
      rewrite exist_history_app. split.
      * eapply chain_app; eassumption.
      * intros st' Hst'. eapply below_app; [exact Hf | apply Hf'; exact Hst'].
    + split; [exact Hs | intros st' H; discriminate].
Qed.

(** The whole run, for a merger that never clears a flag. *)
Lemma coverage_chain texture d e a s vp :
  let run := generate_texture _ _ _ E args texture d e a s vp [] in
  StronglySorted coverage_le (zeros (uv_size args) :: exist_history (snd run))
  /\ (forall atlas post, fst run = Ok (atlas, post) ->
        Forall (fun x => coverage_le x (exist_texture atlas))
          (zeros (uv_size args) :: exist_history (snd run))).
Proof.
  cbv zeta. rewrite generate_texture_run. cbv zeta.
  rewrite generation_stage_run. cbv zeta.
  destruct (build_similarity_texture_cache_for_all_views _ _ _ E texture _ _ _)
    as [cache|x].
  2:{ cbn. split; [repeat constructor | intros ? ? H; discriminate]. }
  cbn [fst snd].
  match goal with
  | |- context [for_each ?idxs (generate_view _ _ _ E args ?pd ?pe ?pa ?ps vp cache) ?at0 []] =>
      destruct (for_each_chain exist_texture
                  (generate_view _ _ _ E args pd pe pa ps vp cache)
                  (fun i st => writer_generate_view E args pd pe pa ps vp cache i st)
                  (fun i st => generate_view_chain pd pe pa ps vp cache i st)
                  idxs at0) as [Hgs Hgf];
      destruct (for_each idxs (generate_view _ _ _ E args pd pe pa ps vp cache) at0 [])
        as [[atlas1|x] gen]
  end; cbn [fst snd exist_texture] in *.
  2:{ split; [exact Hgs | intros ? ? H; discriminate]. }
  specialize (Hgf atlas1 eq_refl).
  destruct (0 <? update_steps args)%Z.
  2:{ cbn [fst snd]. split; [exact Hgs|].
      intros atlas post H. inversion H; subst. exact Hgf. }
  rewrite refinement_stage_run. cbv zeta.
  destruct (build_similarity_texture_cache_for_all_views _ _ _ E _ _ _ _) as [cache'|x].
  2:{ cbn [fst snd]. change (?x0 :: gen ++ [?c]) with ((x0 :: gen) ++ [c]).
      rewrite exist_history_app. cbn [exist_history flat_map]. rewrite app_nil_r.
      split; [exact Hgs | intros ? ? H; discriminate]. }
  match goal with
  | |- context [for_each ?idxs (refine_view _ _ _ E args ?rd ?re ?ra ?rs cache') ?st0 []] =>
      destruct (for_each_chain (fun st => exist_texture (atlas_of st))
                  (refine_view _ _ _ E args rd re ra rs cache')
                  (fun i st => writer_refine_view E args rd re ra rs cache' i st)
                  (fun i st => refine_view_chain rd re ra rs cache' i st)
                  idxs st0) as [Hrs Hrf];
      destruct (for_each idxs (refine_view _ _ _ E args rd re ra rs cache') st0 [])
        as [[st|x] evs]
  end; cbn [fst snd atlas_of exist_texture] in *.
  - specialize (Hrf st eq_refl).
    assert (Hhist : forall tail, exist_history tail = [] ->
              exist_history (EvCache (firstn (NUM_PRINCIPLE args) d)
                               (firstn (NUM_PRINCIPLE args) e)
                               (firstn (NUM_PRINCIPLE args) a)
                             :: gen ++ EvCache (skipn (NUM_PRINCIPLE args) d)
                                         (skipn (NUM_PRINCIPLE args) e)
                                         (skipn (NUM_PRINCIPLE args) a)
                                       :: evs ++ tail)
              = exist_history (EvCache (firstn (NUM_PRINCIPLE args) d)
                                 (firstn (NUM_PRINCIPLE args) e)
                                 (firstn (NUM_PRINCIPLE args) a) :: gen)
                ++ exist_history evs).
    { intros tail Htail.
      change (?x0 :: gen ++ ?c :: evs ++ tail) with ((x0 :: gen) ++ [c] ++ evs ++ tail).
      rewrite !exist_history_app, Htail, app_nil_r. reflexivity. }
    destruct (post_process args).
    + rewrite post_processing_run. cbv zeta.
      destruct (apply_inpainting_postprocess _ _ _ E _ _ _ _ _); cbn [fst snd app];
        rewrite Hhist by reflexivity.
      * split; [eapply chain_app; eassumption|].
        intros atlas post H. inversion H; subst.
        eapply below_app; eassumption.
      * split; [eapply chain_app; eassumption | intros ? ? H; discriminate].
    + cbn [fst snd app]. rewrite <- (app_nil_r evs), Hhist by reflexivity.
      split; [eapply chain_app; eassumption|].
      intros atlas post H. inversion H; subst.
      eapply below_app; eassumption.
  - change (?x0 :: gen ++ ?c :: evs) with ((x0 :: gen) ++ [c] ++ evs).
    rewrite !exist_history_app. cbn [exist_history flat_map app].
    split; [eapply chain_app; eassumption | intros ? ? H; discriminate].
Qed.

End Coverage.

(** *** The merger of the specification *)

Lemma nth_error_imap_from {A B} (f : nat -> A -> B) (l : list A) :
  forall k i, nth_error (imap_from f k l) i = option_map (f (k + i)) (nth_error l i).
Proof.
  induction l as [|x l IH]; intros k i; cbn [imap_from].
  - destruct i; reflexivity.
  - destruct i as [|i]; cbn [nth_error option_map].
    + rewrite Nat.add_0_r. reflexivity.
    + rewrite IH. rewrite Nat.add_succ_comm. reflexivity.
Qed.

Lemma pixel_at_imap2 {A B} (f : nat -> nat -> A -> B) (a : list (list A)) (i j : nat) :
  pixel_at (imap2 f a) i j = option_map (f i j) (pixel_at a i j).
Proof.
  unfold pixel_at, imap2, imap. rewrite nth_error_imap_from. cbn [Nat.add].
  destruct (nth_error a i) as [row|]; cbn [option_map]; [|reflexivity].
  apply nth_error_imap_from.
Qed.

Lemma imap_from_id {A} (f : nat -> A -> A) (l : list A) :
  forall k, (forall i x, f i x = x) -> imap_from f k l = l.
Proof.
  induction l as [|x l IH]; intros k Hf; cbn [imap_from]; [reflexivity|].
  rewrite Hf, IH by exact Hf. reflexivity.
Qed.

Lemma imap2_id {A} (f : nat -> nat -> A -> A) (a : list (list A)) :
  (forall i j x, f i j x = x) -> imap2 f a = a.
Proof.
  intros Hf. unfold imap2, imap. apply imap_from_id.
  intros i row. apply imap_from_id. intros j x. apply Hf.
Qed.

Lemma pixel_at_Forall {A} (P : A -> Prop) (a : list (list A)) (r c : nat) (v : A) :
  Forall (Forall P) a -> pixel_at a r c = Some v -> P v.
Proof.
  unfold pixel_at. intros Ha Hv.
  destruct (nth_error a r) as [row|] eqn:Hrow; [|discriminate].
  apply nth_error_In in Hrow, Hv.
  rewrite Forall_forall in Ha. specialize (Ha row Hrow).
  rewrite Forall_forall in Ha. apply Ha, Hv.
Qed.

Section SpecMerger.

Context {Renderer Cameras Cache : Type}.
Variable project : Cameras -> nat -> nat -> option (nat * nat).
Variable E0 : Collaborators Renderer Cameras Cache.

(** The merger of the specification sets flags and clears none. *)
Lemma spec_merger_monotone :
  merger_monotone (with_merger E0 (spec_backproject_from_image Cameras project)).
Proof.
  intros cams image mask weight texture exist texture' pm exist' Hm.
  cbn in Hm. unfold spec_backproject_from_image in Hm. inversion Hm; subst; clear Hm.
  intros i j (v & Hv & Hnz). unfold painted. rewrite pixel_at_imap2, Hv.
  cbn [option_map].
  destruct (source_pixel Cameras project cams image mask i j).
  - exists 1%Q. split; [reflexivity|]. intros H. discriminate H.
  - exists v. split; [reflexivity | exact Hnz].
Qed.

(** Under an all-black write mask the merger of the specification changes
    neither the texture nor the existence mask. *)
Lemma spec_merger_blank_mask cams image mask weight texture exist :
  Forall (Forall (fun v => v = 0%Z)) mask ->
  exists pm,
    spec_backproject_from_image Cameras project cams image mask weight texture exist
    = Ok (texture, pm, exist).
Proof.
  intros Hblank.
  assert (Hsrc : forall i j, source_pixel Cameras project cams image mask i j = None).
  { intros i j. unfold source_pixel.
    destruct (project cams i j) as [[r c]|]; [|reflexivity].
    destruct (pixel_at mask r c) as [m|] eqn:Hm; [|reflexivity].
    destruct (pixel_at image r c); [|reflexivity].
    rewrite (pixel_at_Forall _ mask r c m Hblank Hm). reflexivity. }
  eexists. unfold spec_backproject_from_image.
  apply f_equal. apply f_equal2; [apply f_equal2; [|reflexivity] |];
    apply imap2_id; intros i j x; rewrite Hsrc; reflexivity.
Qed.

(** C7. With the merger of the specification, the values of
    [exist_texture] that the collaborators are handed in the course of a
    run, starting from the all-zero mask the script creates, form a chain:
    a texel painted in one of them is painted in every later one, and in the
    existence mask of the final atlas when the run completes. *)
Theorem coverage_never_reverts (args : Args) texture d e a s vp :
  let E := with_merger E0 (spec_backproject_from_image Cameras project) in
  let run := generate_texture _ _ _ E args texture d e a s vp [] in
  StronglySorted coverage_le (zeros (uv_size args) :: exist_history (snd run))
  /\ (forall atlas post, fst run = Ok (atlas, post) ->
        Forall (fun x => coverage_le x (exist_texture atlas))
          (zeros (uv_size args) :: exist_history (snd run))).
Proof.
  cbv zeta. apply coverage_chain. apply spec_merger_monotone.
Qed.

End SpecMerger.

End Text2TexFacts.

(** ** The three-way classification *)

Module MaskFacts.
Import Modelled.

Lemma Qlt_bool_iff (x y : Q) : Text2Tex.Qlt_bool x y = true <-> (x < y)%Q.
Proof.
  unfold Text2Tex.Qlt_bool. rewrite Bool.negb_true_iff.
  split.
  - intros H. apply Qnot_le_lt. intros Hle.
    apply Qle_bool_iff in Hle. congruence.
  - intros H. destruct (Qle_bool y x) eqn:Hb; [|reflexivity].
    apply Qle_bool_iff in Hb. exfalso. exact (Qlt_not_le _ _ H Hb).
Qed.

(** The rule, texel by texel. *)
Lemma classify_spec (th : Q) (t : Texel) :
  (classify th t = Generate <-> existence t = false)
  /\ (classify th t = Update
      <-> existence t = true /\ (best_similarity t + th < view_similarity t)%Q)
  /\ (classify th t = Keep
      <-> existence t = true /\ ~ (best_similarity t + th < view_similarity t)%Q).
Proof.
  unfold classify.
  destruct (existence t); cbn [negb].
  - destruct (Text2Tex.Qlt_bool (best_similarity t + th) (view_similarity t)) eqn:Hlt.
    + apply Qlt_bool_iff in Hlt.
      repeat split; try discriminate; try tauto; intros [_ H]; tauto.
    + assert (Hn : ~ (best_similarity t + th < view_similarity t)%Q).
      { intros H. apply Qlt_bool_iff in H. congruence. }
      repeat split; try discriminate; try tauto; intros [_ H]; tauto.
  - repeat split; try discriminate; intros [H _]; discriminate.
Qed.

Lemma MaskClass_eqb_eq (a b : MaskClass) : MaskClass_eqb a b = true <-> a = b.
Proof. destruct a, b; cbn; split; intros H; try reflexivity; discriminate. Qed.

Lemma pixel_at_map2 {A B} (f : A -> B) (a : list (list A)) (r c : nat) :
  pixel_at (map (map f) a) r c = option_map f (pixel_at a r c).
Proof.
  unfold pixel_at. rewrite nth_error_map.
  destruct (nth_error a r) as [row|]; cbn [option_map]; [|reflexivity].
  apply nth_error_map.
Qed.

Lemma zip_with_map {A B C D} (f : B -> C -> D) (g : A -> B) (h : A -> C) (l : list A) :
  zip_with f (map g l) (map h l) = map (fun x => f (g x) (h x)) l.
Proof. induction l as [|x l IH]; cbn; [reflexivity | rewrite IH; reflexivity]. Qed.

Lemma zip_with_map2 {A B C D} (f : B -> C -> D) (g : A -> B) (h : A -> C)
    (a : list (list A)) :
  zip_with (zip_with f) (map (map g) a) (map (map h) a)
  = map (map (fun x => f (g x) (h x))) a.
Proof.
  induction a as [|row a IH]; cbn; [reflexivity|].
  rewrite zip_with_map, IH. reflexivity.
Qed.

Lemma map2_ext {A B} (f g : A -> B) (a : list (list A)) :
  (forall x, f x = g x) -> map (map f) a = map (map g) a.
Proof. intros H. apply map_ext. intros row. apply map_ext. exact H. Qed.

Lemma mask_empty_map2 {A} (f : A -> bool) (a : list (list A)) :
  (forall x, f x = false) -> mask_empty (map (map f) a) = true.
Proof.
  intros H. unfold mask_empty. apply forallb_forall. intros row Hrow.
  apply in_map_iff in Hrow. destruct Hrow as (row0 & <- & _).
  apply forallb_forall. intros b Hb.
  apply in_map_iff in Hb. destruct Hb as (x & <- & _). rewrite H. reflexivity.
Qed.

Ltac by_class th :=
  let p := fresh "p" in
  intros p; destruct p as [t|]; [destruct (classify th t) | ]; reflexivity.

(** C1. In the masks of a classified view, a covered pixel is in the
    generate mask exactly when its texel was never painted, in the update
    mask exactly when the texel is painted and the similarity of the view
    exceeds the recorded best by more than the threshold, and in the keep
    mask otherwise; an uncovered pixel is in none.  The three masks are
    pairwise disjoint and their union is the mask of all covered pixels. *)
Theorem three_way_partition (th : Q) (f : Fragment) :
  let m := classify_view th f in
  (forall r c t, pixel_at f r c = Some (Some t) ->
      (pixel_at (generate m) r c = Some true <-> existence t = false)
      /\ (pixel_at (update m) r c = Some true
          <-> existence t = true /\ (best_similarity t + th < view_similarity t)%Q)
      /\ (pixel_at (keep m) r c = Some true
          <-> existence t = true /\ ~ (best_similarity t + th < view_similarity t)%Q)
      /\ pixel_at (all m) r c = Some true)
  /\ (forall r c, pixel_at f r c = Some None ->
        pixel_at (generate m) r c = Some false
        /\ pixel_at (update m) r c = Some false
        /\ pixel_at (keep m) r c = Some false
        /\ pixel_at (all m) r c = Some false)
  /\ mask_empty (mask_inter (generate m) (keep m)) = true
  /\ mask_empty (mask_inter (generate m) (update m)) = true
  /\ mask_empty (mask_inter (update m) (keep m)) = true
  /\ mask_union (mask_union (generate m) (update m)) (keep m) = all m.
Proof.
  cbv zeta. unfold classify_view. cbn [generate update keep all].
  split; [| split].
  - intros r c t Hp. unfold class_mask, covered_mask.
    rewrite !pixel_at_map2, Hp. cbn [option_map].
    destruct (classify_spec th t) as (Hg & Hu & Hk).
    assert (Hs : forall a b, Some (MaskClass_eqb a b) = Some true <-> a = b).
    { intros a b. rewrite <- MaskClass_eqb_eq.
      split; [intros H; injection H; auto | intros ->; reflexivity]. }
    rewrite !Hs.
    split; [exact Hg | split; [exact Hu | split; [exact Hk | reflexivity]]].
  - intros r c Hp. unfold class_mask, covered_mask.
    rewrite !pixel_at_map2, Hp. repeat split; reflexivity.
  - unfold mask_inter, mask_union, class_mask, covered_mask.
    rewrite !zip_with_map2.
    repeat split; try (apply mask_empty_map2; by_class th).
    apply map2_ext. by_class th.
Qed.

End MaskFacts.

(** ** Runs on concrete collaborators *)

Module Runs.
Import Text2Tex Modelled Observe Fixture Text2TexFacts MaskFacts.

(** The classification of [fragment0] with threshold 0.1. *)
Example classify_view_run :
  classify_view (1 # 10) fragment0
  = mkMaskSet [[false; false]; [true; false]]
              [[false; true]; [false; false]]
              [[true; false]; [false; false]]
              [[true; true]; [true; false]].
Proof. reflexivity. Qed.

(** The six principal views of the fixture are visited in list order. *)
Example generation_stage_run_visited :
  visited (snd (generation_stage unit unit unit (collaborators all_generate [[7]]%Z)
                  args0 texture0 dist_list0 elev_list0 azim_list0 sector_list0
                  view_punishments0 []))
  = [(1%Q, 0%Q, 0%Q, 0); (1%Q, 0%Q, 90%Q, 1); (1%Q, 0%Q, 180%Q, 2);
     (1%Q, 0%Q, 270%Q, 3); (1%Q, 90%Q, 0%Q, 4); (1%Q, (-90)%Q, 0%Q, 5)].
Proof. vm_compute. reflexivity. Qed.

(** C2, counterexample. A principal view whose generate mask is empty: the
    inpainter is called with the empty mask all the same, and so is the
    merger. *)
Lemma empty_generate_mask_still_inpaints :
  empty_mask (generate_mask_tensor _ _ all_keep)
  /\ generate_mask_image _ _ all_keep = black
  /\ snd (principal_view all_keep [[7]]%Z args0 0)
     = [EvRender 1 0 0 0 0 true texture0 none;
        EvInpaint [[10; 20]; [30; 40]]%Z " the front view of a bowl of rice" 1
          black white;
        EvBackproject [[7]]%Z black texture0 none;
        EvRender 1 0 0 0 0 false texture0 none;
        EvSaveObj GenerateStage "0.obj" texture0]
  /\ count is_inpaint (snd (principal_view all_keep [[7]]%Z args0 0)) = 1
  /\ count is_backproject (snd (principal_view all_keep [[7]]%Z args0 0)) = 1.
Proof.
  split; [repeat constructor|]. split; [reflexivity|].
  split; [vm_compute; reflexivity|]. split; vm_compute; reflexivity.
Qed.

Lemma empty_update_mask_skips_update_witness :
  should_update _ _ args0 all_keep = false
  /\ (forall prompt r2 atlas l,
        generate_view_update _ _ _ (collaborators all_keep [[7]]%Z) args0
          prompt all_keep r2 atlas l = (Ok atlas, l)).
Proof.
  assert (Hempty : empty_mask (update_mask_tensor _ _ all_keep))
    by (repeat constructor).
  destruct (empty_update_mask_skips_update (collaborators all_keep [[7]]%Z) args0
              all_keep Hempty) as (Hguard & Hgen & _).
  split; [exact Hguard | exact Hgen].
Defined.

Lemma no_repaint_forces_generate_mask_witness :
  exists mask rest,
    snd (principal_view all_keep [[7]]%Z (with_no_repaint true args0) 1)
    = EvRender 1 0 90 1 1 true texture0 none
      :: EvInpaint [[10; 20]; [30; 40]]%Z " the left view of a bowl of rice" 1
           mask white
      :: rest
    /\ mask = white.
Proof.
  destruct (no_repaint_forces_generate_mask (collaborators all_keep [[7]]%Z)
              (with_no_repaint true args0)
              (firstn 6 dist_list0) (firstn 6 elev_list0) (firstn 6 azim_list0)
              (firstn 6 sector_list0) view_punishments0 tt 1 atlas0
              1%Q 0%Q 90%Q "left" all_keep
              eq_refl eq_refl eq_refl eq_refl eq_refl eq_refl)
    as (mask & rest & Hlog & _ & Hforced).
  exists mask, rest. split; [exact Hlog|].
  destruct (Hforced (Nat.neq_succ_0 0)) as (Hmask & _). exact Hmask.
Defined.

(** With the flag set, view 0 keeps the computed (here empty) mask. *)
Example no_repaint_first_view :
  nth_error (snd (principal_view all_keep [[7]]%Z (with_no_repaint true args0) 0)) 1
  = Some (EvInpaint [[10; 20]; [30; 40]]%Z " the front view of a bowl of rice" 1
            black white).
Proof. vm_compute. reflexivity. Qed.



(** C6, counterexample. One viewpoint is left for refinement and three
    steps are requested: the run completes and three selections are made. *)
Lemma more_steps_than_viewpoints_not_clamped :
  let a := with_update_steps 3 args0 in
  List.length (skipn (NUM_PRINCIPLE a) dist_list0) = 1
  /\ update_steps a = 3%Z
  /\ (exists res, fst (whole_run all_keep [[7]]%Z a) = Ok res)
  /\ count is_select (snd (whole_run all_keep [[7]]%Z a)) = 3
  /\ count is_select (snd (whole_run all_keep [[7]]%Z a))
     <> Nat.min 3 (List.length (skipn (NUM_PRINCIPLE a) dist_list0)).
Proof.
  cbv zeta. split; [reflexivity|]. split; [reflexivity|].
  split; [eexists; vm_compute; reflexivity|].
  split; [vm_compute; reflexivity | vm_compute; discriminate].
Qed.

(** C8, counterexample. The post-process option is set and no refinement
    step is requested: the run completes without post-processing. *)
Lemma post_process_skipped_without_refinement :
  let a := with_update_steps 0 args0 in
  post_process a = true
  /\ fst (whole_run all_generate [[7]]%Z a)
     = Ok (mkAtlas [[7; 5]; [5; 5]]%Z [[1; 0]; [0; 0]]%Q, None)
  /\ count is_postprocess (snd (whole_run all_generate [[7]]%Z a)) = 0.
Proof.
  cbv zeta. split; [reflexivity|]. split; vm_compute; reflexivity.
Qed.

Lemma post_process_once_after_refinement_witness :
  count is_postprocess (snd (whole_run all_generate [[7]]%Z args0)) <= 1.
Proof.
  exact (proj1 (post_process_once_after_refinement
                  (collaborators all_generate [[7]]%Z) args0 texture0
                  dist_list0 elev_list0 azim_list0 sector_list0 view_punishments0
                  eq_refl eq_refl)).
Defined.

(** The end of that run: the inpainter of the post-processing receives the
    complement of the final existence mask. *)
Example post_process_run :
  fst (whole_run all_generate [[7]]%Z args0)
  = Ok (mkAtlas [[7; 5]; [5; 5]]%Z [[1; 0]; [0; 0]]%Q, Some [[7; 5]; [5; 5]]%Z)
  /\ skipn 40 (snd (whole_run all_generate [[7]]%Z args0))
     = [EvPostprocess [[7; 5]; [5; 5]]%Z (complement [[1; 0]; [0; 0]]%Q);
        EvSaveObj UpdateStage "1_post.obj" [[7; 5]; [5; 5]]%Z].
Proof. split; vm_compute; reflexivity. Qed.

End Runs.

(** ** [texturing_with_meshlab.py]: the batch *)

Module MeshlabBatchFacts.
Import Meshlab MeshlabBatch MeshlabFacts.

(** *** What a computation appends to the log *)

Lemma logs_ret P {A} (a : A) : logs P (ret a : M World A).
Proof. intros w. exists []. cbn. rewrite app_nil_r. split; [reflexivity | constructor]. Qed.

Lemma logs_raise P {A} (e : PyExc) : logs P (raise e : M World A).
Proof. intros w. exists []. cbn. rewrite app_nil_r. split; [reflexivity | constructor]. Qed.

Lemma logs_lift P {A} (r : result A) : logs P (lift r : M World A).
Proof. intros w. exists []. cbn. rewrite app_nil_r. split; [reflexivity | constructor]. Qed.

Lemma logs_bind P {A B} (m : M World A) (k : A -> M World B) :
  logs P m -> (forall a, logs P (k a)) -> logs P (bind m k).
Proof.
  intros Hm Hk w. unfold bind. destruct (Hm w) as (n1 & H1 & HP1).
  destruct (m w) as [[a|e] w1]; cbn [snd] in *.
  - destruct (Hk a w1) as (n2 & H2 & HP2). exists (n1 ++ n2).
    rewrite H2, H1, app_assoc. split; [reflexivity | apply Forall_app; split; assumption].
  - exists n1. split; assumption.
Qed.

Lemma logs_invoke (P : Entry -> Prop) pymeshlab (c : Call) :
  (forall r, P (c, r)) -> logs P (invoke pymeshlab c).
Proof.
  intros HP w. unfold invoke. destruct (pymeshlab (calls w) c (os w)) as [r o'].
  exists [(c, r)]. cbn. split; [reflexivity | repeat constructor; apply HP].
Qed.

Lemma logs_try_except P {A} (m : M World A) (h : PyExc -> M World A) :
  logs P m -> (forall e, logs P (h e)) -> logs P (try_except_PyMeshLab m h).
Proof.
  intros Hm Hh w. unfold try_except_PyMeshLab. destruct (Hm w) as (n1 & H1 & HP1).
  destruct (m w) as [[a|e] w1]; cbn [snd] in *.
  - exists n1. split; assumption.
  - destruct (is_PyMeshLabException e).
    + destruct (Hh e w1) as (n2 & H2 & HP2). exists (n1 ++ n2).
      rewrite H2, H1, app_assoc. split; [reflexivity | apply Forall_app; split; assumption].
    + exists n1. split; assumption.
Qed.

Lemma logs_chdir P {A} (x : string) (body : M World A) :
  logs P body -> logs P (chdir x body).
Proof.
  intros Hb w. unfold chdir.
  destruct (os_chdir x (os w)) as [o1|e].
  - destruct (Hb (mkWorld o1 (calls w))) as (n & Hn & HP).
    destruct (body (mkWorld o1 (calls w))) as [r w2]. cbn [snd calls] in *.
    destruct (os_chdir (os_getcwd (os w)) (os w2)); cbn [snd calls];
      exists n; split; assumption.
  - exists []. cbn. rewrite app_nil_r. split; [reflexivity | constructor].
Qed.

Lemma logs_for_paths P (files : list Path) (body : Path -> M World unit) :
  (forall f, In f files -> logs P (body f)) -> logs P (for_paths files body).
Proof.
  induction files as [|f rest IH]; intros Hb; cbn [for_paths].
  - apply logs_ret.
  - apply logs_bind; [apply Hb; left; reflexivity|].
    intros _. apply IH. intros g Hg. apply Hb. right. exact Hg.
Qed.

(** *** [str.replace] *)






Section Batch.

Variable pymeshlab : list Entry -> Call -> OS -> option PyExc * OS.
Variable with_suffix : string -> string -> result string.
Variable re_match : string -> string -> bool.

(** [auto_texture] loads one mesh only: the file it is given. *)
Lemma auto_texture_loads_only (obj_path : Path) (resolution : Z) :
  logs (loads_only [name obj_path]) (auto_texture pymeshlab with_suffix obj_path resolution).
Proof.
  unfold auto_texture, auto_texture_block. apply logs_chdir.
  repeat first
    [ apply logs_lift
    | apply logs_bind; [| intros]
    | apply logs_try_except; [| intros]
    | apply logs_invoke; intros r f Hf; cbn in Hf;
      first [discriminate | inversion Hf; left; reflexivity] ].
Qed.

Lemma loads_only_incl (n1 n2 : list string) {A} (m : M World A) :
  incl n1 n2 -> logs (loads_only n1) m -> logs (loads_only n2) m.
Proof.
  intros Hincl Hm w. destruct (Hm w) as (new & Hlog & HP). exists new.
  split; [exact Hlog|]. eapply Forall_impl; [|exact HP].
  intros en Hen f Hf. apply Hincl, Hen, Hf.
Qed.

(** X2. Whatever pymeshlab does and whether the batch completes or not,
    every mesh loaded during a batch is one of the globbed files whose name
    the pattern matches. *)
Theorem batch_loads_only_matching (files : list Path) (pattern : string)
    (resolution : Z) (dry_run : bool) (w : World) :
  exists new,
    calls (snd (auto_texture_batch pymeshlab with_suffix re_match files pattern
                  resolution dry_run w)) = calls w ++ new
    /\ forall f r, In (load_new_mesh f, r) new ->
         In f (matching re_match pattern files).
Proof.
  assert (Hlogs : logs (loads_only (matching re_match pattern files))
                    (auto_texture_batch pymeshlab with_suffix re_match files pattern
                       resolution dry_run)).
  { unfold auto_texture_batch. apply logs_bind; [| intros _; apply logs_bind; [| intros _]].
    - apply logs_for_paths. intros f Hf. unfold batch_step.
      destruct (re_match pattern (name f)) eqn:Hmatch; [| apply logs_ret].
      apply logs_bind; [apply logs_invoke; intros r g Hg; discriminate | intros _].
      destruct dry_run; cbn [negb]; [apply logs_ret|].
      eapply loads_only_incl; [| apply auto_texture_loads_only].
      intros n [<- | []]. unfold matching. apply in_map, filter_In. split; assumption.
    - apply logs_invoke. intros r g Hg. discriminate.
    - apply logs_invoke. intros r g Hg. discriminate. }
  destruct (Hlogs w) as (new & Hlog & HP). exists new. split; [exact Hlog|].
  intros f r Hin. rewrite Forall_forall in HP. exact (HP _ Hin f eq_refl).
Qed.

Lemma bind_assoc {A B C} (m : M World A) (k : A -> M World B) (k' : B -> M World C) :
  forall w, bind (bind m k) k' w = bind m (fun a => bind (k a) k') w.
Proof. intros w. unfold bind. destruct (m w) as [[a|e] w1]; reflexivity. Qed.

(** The invocations a dry run is expected to make. *)
Lemma dry_run_loop (files : list Path) (pattern : string) (resolution : Z)
    (fin : M World unit) (expected_fin : list Call) :
  (forall w, exists new k,
      calls (snd (fin w)) = calls w ++ new
      /\ map fst new = firstn k expected_fin
      /\ (fst (fin w) = Ok tt -> map fst new = expected_fin)) ->
  forall w,
    let run := bind (for_paths files (batch_step pymeshlab with_suffix re_match
                                        pattern resolution true))
                 (fun _ => fin) w in
    let expected := map print (matching re_match pattern files) ++ expected_fin in
    exists new k,
      calls (snd run) = calls w ++ new
      /\ map fst new = firstn k expected
      /\ (fst run = Ok tt -> map fst new = expected).
Proof.
  intros Hfin. induction files as [|f rest IH]; intros w; cbv zeta.
  - cbn [for_paths]. unfold matching. cbn [filter map app]. apply Hfin.
  - remember (bind (for_paths (f :: rest) _) _ w) as run eqn:Hrun.
    cbn [for_paths] in Hrun. rewrite bind_assoc in Hrun.
    unfold batch_step at 1 in Hrun. unfold matching. cbn [filter].
    destruct (re_match pattern (name f)) eqn:Hm.
    + cbn [negb map app] in *. unfold bind at 1 in Hrun. unfold bind at 1 in Hrun.
      unfold invoke at 1 in Hrun.
      destruct (pymeshlab (calls w) (print (name f)) (os w)) as [[e|] o'].
      * subst run. exists [(print (name f), Some e)], 1. cbn.
        split; [reflexivity|]. split; [reflexivity | discriminate].
      * cbn [ret] in Hrun.
        destruct (IH (mkWorld o' (calls w ++ [(print (name f), None)])))
          as (new & k & Hlog & Hpre & Hall).
        cbv zeta in Hlog, Hpre, Hall. cbn [calls] in Hlog. rewrite <- Hrun in *.
        exists ((print (name f), None) :: new), (S k).
        split; [rewrite Hlog, <- app_assoc; reflexivity|].
        split; [cbn; rewrite Hpre; reflexivity|].
        intros Hok. cbn. rewrite (Hall Hok). reflexivity.
    + unfold bind at 1 in Hrun. cbn [ret] in Hrun. subst run. apply IH.
Qed.

(** X1. A dry run invokes nothing but [print]: the names of the globbed
    files that match the pattern, in glob order, then the two closing
    lines - all of them when no [print] raises, the first ones otherwise.
    No mesh is loaded, computed on or saved. *)
Theorem dry_run_only_prints (files : list Path) (pattern : string)
    (resolution : Z) (w : World) :
  let run := auto_texture_batch pymeshlab with_suffix re_match files pattern
               resolution true w in
  let expected := map print (matching re_match pattern files)
                  ++ [print bugfest_line; print lunch_line] in
  exists new k,
    calls (snd run) = calls w ++ new
    /\ map fst new = firstn k expected
    /\ (fst run = Ok tt -> map fst new = expected).
Proof.
  unfold auto_texture_batch. apply dry_run_loop. clear w. intros w.
  unfold bind, invoke.
  destruct (pymeshlab (calls w) (print bugfest_line) (os w)) as [[e|] o1].
  - exists [(print bugfest_line, Some e)], 1. cbn.
    split; [reflexivity|]. split; [reflexivity | discriminate].
  - cbn [os calls].
    destruct (pymeshlab (calls w ++ [(print bugfest_line, None)]) (print lunch_line) o1)
      as [[e|] o2].
    + exists [(print bugfest_line, None); (print lunch_line, Some e)], 2. cbn.
      rewrite <- app_assoc. split; [reflexivity|]. split; [reflexivity | discriminate].
    + exists [(print bugfest_line, None); (print lunch_line, None)], 2. cbn.
      rewrite <- app_assoc. split; [reflexivity|]. split; reflexivity.
Qed.

Lemma for_paths_app (pre post : list Path) (body : Path -> M World unit) (w : World) :
  for_paths (pre ++ post) body w
  = match for_paths pre body w with
    | (Ok _, w1) => for_paths post body w1
    | (Err e, w1) => (Err e, w1)
    end.
Proof.
  revert w. induction pre as [|f pre IH]; intros w; cbn [app for_paths].
  - reflexivity.
  - unfold bind. destruct (body f w) as [[[]|e] w1]; [apply IH | reflexivity].
Qed.

(** X3. The loop of the batch has no handler: when the processing of a file
    raises, the exception is the outcome of the batch, the state is the one
    the failing file left, the files after it are not touched and the
    closing lines are not printed. *)
Theorem batch_stops_at_first_failure (pre rest : list Path) (f : Path)
    (pattern : string) (resolution : Z) (dry_run : bool) (w w1 w2 : World) (e : PyExc) :
  for_paths pre (batch_step pymeshlab with_suffix re_match pattern resolution dry_run) w
    = (Ok tt, w1) ->
  batch_step pymeshlab with_suffix re_match pattern resolution dry_run f w1 = (Err e, w2) ->
  auto_texture_batch pymeshlab with_suffix re_match (pre ++ f :: rest) pattern
    resolution dry_run w = (Err e, w2).
Proof.
  intros Hpre Hf. unfold auto_texture_batch. unfold bind at 1.
  rewrite for_paths_app, Hpre. cbn [for_paths]. unfold bind at 1. rewrite Hf.
  reflexivity.
Qed.

(** *** The working directory *)

Lemma keeps_ret p {A} (a : A) : keeps_dir p (ret a : M World A).
Proof. intros w H. exact H. Qed.

Lemma keeps_lift p {A} (r : result A) : keeps_dir p (lift r : M World A).
Proof. intros w H. exact H. Qed.

Lemma keeps_bind p {A B} (m : M World A) (k : A -> M World B) :
  keeps_dir p m -> (forall a, keeps_dir p (k a)) -> keeps_dir p (bind m k).
Proof.
  intros Hm Hk w H. unfold bind. specialize (Hm w H).
  destruct (m w) as [[a|e] w1]; cbn [snd] in *; [apply Hk; exact Hm | exact Hm].
Qed.

Lemma keeps_try_except p {A} (m : M World A) (h : PyExc -> M World A) :
  keeps_dir p m -> (forall e, keeps_dir p (h e)) -> keeps_dir p (try_except_PyMeshLab m h).
Proof.
  intros Hm Hh w H. unfold try_except_PyMeshLab. specialize (Hm w H).
  destruct (m w) as [[a|e] w1]; cbn [snd] in *; [exact Hm|].
  destruct (is_PyMeshLabException e); [apply Hh; exact Hm | exact Hm].
Qed.

Section Frame.

(** pymeshlab may create directories and move the process, but removes no
    directory; printing leaves the process state alone. *)
Hypothesis pymeshlab_keeps_dirs :
  forall h c o p, dir_exists p o = true -> dir_exists p (snd (pymeshlab h c o)) = true.
Hypothesis print_is_neutral :
  forall h line o, snd (pymeshlab h (print line) o) = o.

Lemma keeps_invoke p (c : Call) : keeps_dir p (invoke pymeshlab c).
Proof.
  intros w H. unfold invoke.
  pose proof (pymeshlab_keeps_dirs (calls w) c (os w) p H) as Hk.
  destruct (pymeshlab (calls w) c (os w)) as [r o']. exact Hk.
Qed.

Lemma keeps_auto_texture_block p obj_path resolution :
  keeps_dir p (auto_texture_block pymeshlab with_suffix obj_path resolution).
Proof.
  unfold auto_texture_block.
  repeat first
    [ apply keeps_lift | apply keeps_invoke
    | apply keeps_bind; [| intros]
    | apply keeps_try_except; [| intros] ].
Qed.

Lemma stays_chdir d {A} (x : string) (body : M World A) :
  keeps_dir d body -> stays_in d (chdir x body).
Proof.
  intros Hb w Hcwd Hd. unfold chdir, os_getcwd. rewrite Hcwd.
  destruct (os_chdir x (os w)) as [o1|e] eqn:Hin.
  - apply os_chdir_keeps_dirs in Hin. destruct Hin as [Hdirs _].
    assert (Hd1 : dir_exists d (os (mkWorld o1 (calls w))) = true).
    { unfold dir_exists in *. cbn [os]. rewrite Hdirs. exact Hd. }
    specialize (Hb _ Hd1).
    destruct (body (mkWorld o1 (calls w))) as [r w2]. cbn [snd] in *.
    rewrite (os_chdir_ok _ _ Hb). cbn. split; [reflexivity | exact Hb].
  - cbn. split; assumption.
Qed.

Lemma stays_ret d {A} (a : A) : stays_in d (ret a : M World A).
Proof. intros w H1 H2. split; assumption. Qed.

Lemma stays_bind d {A B} (m : M World A) (k : A -> M World B) :
  stays_in d m -> (forall a, stays_in d (k a)) -> stays_in d (bind m k).
Proof.
  intros Hm Hk w H1 H2. unfold bind. destruct (Hm w H1 H2) as [H1' H2'].
  destruct (m w) as [[a|e] w1]; cbn [snd] in *; [apply Hk; assumption | split; assumption].
Qed.

Lemma stays_print d (line : string) : stays_in d (invoke pymeshlab (print line)).
Proof.
  intros w H1 H2. unfold invoke.
  pose proof (print_is_neutral (calls w) line (os w)) as Hn.
  destruct (pymeshlab (calls w) (print line) (os w)) as [r o'].
  cbn in *. subst o'. split; assumption.
Qed.

Lemma stays_for_paths d (files : list Path) (body : Path -> M World unit) :
  (forall f, stays_in d (body f)) -> stays_in d (for_paths files body).
Proof.
  intros Hb. induction files as [|f rest IH]; cbn [for_paths].
  - apply stays_ret.
  - apply stays_bind; [apply Hb | intros _; exact IH].
Qed.

Lemma stays_auto_texture d obj_path resolution :
  stays_in d (auto_texture pymeshlab with_suffix obj_path resolution).
Proof. unfold auto_texture. apply stays_chdir, keeps_auto_texture_block. Qed.

(** X4. Provided pymeshlab removes no directory and printing does not move
    the process, a batch started in an existing directory ends in that
    directory - whether it completes or raises, and wherever pymeshlab moved
    the process while a mesh was processed. *)
Theorem batch_keeps_working_directory (files : list Path) (pattern : string)
    (resolution : Z) (dry_run : bool) (w : World) :
  dir_exists (cwd (os w)) (os w) = true ->
  os_getcwd (os (snd (auto_texture_batch pymeshlab with_suffix re_match files pattern
                        resolution dry_run w)))
  = os_getcwd (os w).
Proof.
  intros Hd. unfold os_getcwd.
  assert (Hstay : stays_in (cwd (os w))
                    (auto_texture_batch pymeshlab with_suffix re_match files pattern
                       resolution dry_run)).
  { unfold auto_texture_batch.
    apply stays_bind; [| intros _; apply stays_bind; [| intros _]]; try apply stays_print.
    apply stays_for_paths. intros f. unfold batch_step.
    destruct (re_match pattern (name f)); [| apply stays_ret].
    apply stays_bind; [apply stays_print | intros _].
    destruct dry_run; cbn [negb]; [apply stays_ret | apply stays_auto_texture]. }
  apply (Hstay w eq_refl Hd).
Qed.

End Frame.

(** *** The order of the invocations of [auto_texture] *)

Ltac close_order :=
  rewrite <- ?app_assoc; cbn [app];
  eexists; split; [reflexivity |];
  split;
  [ intros k f r Hk;
    do 10 (try destruct k as [| k]); cbn in Hk; try discriminate;
    inversion Hk; subst;
    first
      [ exists 5; eexists _, _, _, _; split; [lia | reflexivity]
      | exists 6; eexists _, _, _, _; split; [lia | reflexivity] ]
  | cbn; lia ].

Lemma auto_texture_block_order obj_path resolution (w0 : World) :
  exists new,
    calls (snd (auto_texture_block pymeshlab with_suffix obj_path resolution w0))
      = calls w0 ++ new
    /\ (forall k f r,
          nth_error new k = Some (save_current_mesh f, r) ->
          exists j tn tw th ow,
            j < k /\ nth_error new j = Some (compute_texmap_from_color tn tw th ow, None))
    /\ List.length (filter (fun en => match fst en with
                                      | save_current_mesh _ => true
                                      | _ => false
                                      end) new) <= 1.
Proof.
  unfold auto_texture_block, try_except_PyMeshLab, invoke, bind, lift, texmap_attempt.
  destruct w0 as [o0 l0]. cbn [os calls].
  destruct (with_suffix _ ".png") as [tn|e0].
  2:{ exists []. cbn. rewrite app_nil_r. repeat split; try lia.
      intros [|?]; cbn; discriminate. }
  repeat next_call.
  all: close_order.
Qed.

(** X5. In any call of [auto_texture] the mesh is saved at most once, and
    only after an attempt to compute the texture map - the first or the
    retry - has returned without raising. *)
Theorem mesh_saved_after_texture (obj_path : Path) (resolution : Z) (w : World) :
  exists new,
    calls (snd (auto_texture pymeshlab with_suffix obj_path resolution w))
      = calls w ++ new
    /\ (forall k f r,
          nth_error new k = Some (save_current_mesh f, r) ->
          exists j tn tw th ow,
            j < k /\ nth_error new j = Some (compute_texmap_from_color tn tw th ow, None))
    /\ List.length (filter (fun en => match fst en with
                                      | save_current_mesh _ => true
                                      | _ => false
                                      end) new) <= 1.
Proof.
  unfold auto_texture, chdir.
  destruct (os_chdir (parent obj_path) (os w)) as [o1|e].
  - destruct (auto_texture_block_order obj_path resolution (mkWorld o1 (calls w)))
      as (new & Hlog & Horder & Hcount).
    destruct (auto_texture_block pymeshlab with_suffix obj_path resolution
                (mkWorld o1 (calls w))) as [r w2].
    cbn [snd calls] in Hlog.
    exists new. split; [| split; assumption].
    destruct (os_chdir (os_getcwd (os w)) (os w2)); exact Hlog.
  - exists []. cbn. rewrite app_nil_r. repeat split; try lia.
    intros [|?]; cbn; discriminate.
Qed.

End Batch.

(** *** Runs of the batch *)

(** pymeshlab fails on the first mesh that matches: the second is not
    touched. *)
Lemma batch_stops_at_first_failure_witness :
  auto_texture_batch (fails_first_attempt (RuntimeError "out of memory")) append_suffix
    ends_with_mesh_obj files "" 4096 false data
  = (Err (RuntimeError "out of memory"),
     mkWorld (mkOS "/home" ["/home"; "/data"])
       [(print "1_rice_mesh.obj", None);
        (MeshSet_new, None);
        (load_new_mesh "1_rice_mesh.obj", None);
        (compute_texcoord_by_function_per_vertex, None);
        (compute_texcoord_transfer_vertex_to_wedge, None);
        (compute_texcoord_parametrization_triangle_trivial_per_wedge 4096 0 "Basic", None);
        (compute_texmap_from_color "1_rice.obj.png" 4096 4096 true,
         Some (RuntimeError "out of memory"))]).
Proof.
  apply (batch_stops_at_first_failure
           (fails_first_attempt (RuntimeError "out of memory")) append_suffix
           ends_with_mesh_obj
           [mkPath "/data" "notes.obj"] [mkPath "/data" "2_soup_mesh.obj"]
           (mkPath "/data" "1_rice_mesh.obj") "" 4096 false data data);
    vm_compute; reflexivity.
Defined.

(** pymeshlab leaves the process in [/elsewhere] after every mesh it loads:
    the batch still ends where it started. *)
Lemma batch_keeps_working_directory_witness :
  os_getcwd (os (snd (auto_texture_batch wandering append_suffix ends_with_mesh_obj
                        files "" 4096 false data)))
  = "/home"%string.
Proof.
  apply (batch_keeps_working_directory wandering append_suffix ends_with_mesh_obj).
  - intros h c o p Hp. destruct c; cbn; try exact Hp.
    unfold dir_exists in *. cbn. rewrite Hp. apply Bool.orb_true_r.
  - intros h line o. reflexivity.
  - reflexivity.
Defined.

End MeshlabBatchFacts.

(** ** [generate_texture.py]: further properties *)

Module Text2TexMoreFacts.
Import Text2Tex Modelled Observe Tally Text2TexFacts MaskFacts.

(** *** The guard of the update step *)

Lemma should_update_no_update {Renderer Cameras : Type} (args : Args)
    (r : RenderOut Renderer Cameras) :
  no_update args = true -> should_update _ _ args r = false.
Proof. intros H. unfold should_update. rewrite H. reflexivity. Qed.

(** X7. For a view with covered pixels (a positive sum of the mask of all
    pixels), the update step is taken exactly when updating is not switched
    off, some pixel is to update, and the pixels to update are more than
    a twentieth of the covered ones. *)
Theorem update_threshold {Renderer Cameras : Type} (args : Args)
    (r : RenderOut Renderer Cameras) :
  let u := tensor_sum (update_mask_tensor _ _ r) in
  let a := tensor_sum (all_mask_tensor _ _ r) in
  (0 < a)%Q ->
  (should_update _ _ args r = true
   <-> no_update args = false /\ (0 < u)%Q /\ (a < 20 * u)%Q).
Proof.
  cbv zeta. intros Ha. unfold should_update, ratio_exceeds.
  set (u := tensor_sum (update_mask_tensor _ _ r)) in *.
  set (a := tensor_sum (all_mask_tensor _ _ r)) in *.
  assert (Hnz : Qeq_bool a 0 = false).
  { destruct (Qeq_bool a 0) eqn:Hb; [|reflexivity].
    apply Qeq_bool_iff in Hb. rewrite Hb in Ha. discriminate Ha. }
  rewrite Hnz, !Bool.andb_true_iff, Bool.negb_true_iff, !Qlt_bool_iff.
  assert (Hdiv : (5 # 100 < u / a)%Q <-> (a < 20 * u)%Q).
  { split; intros H.
    - assert (H' : ((5 # 100) * a < u / a * a)%Q)
        by (apply Qmult_lt_compat_r; assumption).
      rewrite (Qmult_comm (u / a) a), Qmult_div_r in H'
        by (intros Ea; rewrite Ea in Ha; discriminate Ha).
      lra.
    - apply Qlt_shift_div_l; [exact Ha | lra]. }
  rewrite Hdiv. tauto.
Qed.

(** One pixel to update among twenty covered ones is not enough. *)
Lemma update_threshold_witness :
  should_update _ _ Fixture.args0 sparse_update = true
  <-> no_update Fixture.args0 = false
      /\ (0 < tensor_sum (update_mask_tensor _ _ sparse_update))%Q
      /\ (tensor_sum (all_mask_tensor _ _ sparse_update)
          < 20 * tensor_sum (update_mask_tensor _ _ sparse_update))%Q.
Proof.
  apply (update_threshold Fixture.args0 sparse_update). reflexivity.
Defined.

Example twentieth_is_not_enough :
  should_update _ _ Fixture.args0 sparse_update = false.
Proof. reflexivity. Qed.

(** *** A view that is not updated *)

Lemma zero_where_one_binary (t : Tensor) :
  binary_mask t -> empty_mask (zero_where_one t).
Proof.
  unfold binary_mask, empty_mask, zero_where_one. intros Ht.
  apply Forall_map. eapply Forall_impl; [|exact Ht]. intros row Hrow.
  apply Forall_map. eapply Forall_impl; [|exact Hrow]. intros v [Hv|Hv]; cbn beta.
  - destruct (Qeq_bool v 1); [reflexivity | exact Hv].
  - apply Qeq_bool_iff in Hv. rewrite Hv. reflexivity.
Qed.

Lemma ToPILImage_empty (t : Tensor) :
  empty_mask t -> Forall (Forall (fun v => v = 0%Z)) (ToPILImage t).
Proof.
  unfold empty_mask, ToPILImage. intros Ht.
  apply Forall_map. eapply Forall_impl; [|exact Ht]. intros row Hrow.
  apply Forall_map. eapply Forall_impl; [|exact Hrow]. intros v Hv.
  unfold to_byte.
  assert (Hn : Qnum v = 0%Z) by (unfold Qeq in Hv; cbn in Hv; lia).
  destruct v as [n dn]. cbn in Hn. subst n. reflexivity.
Qed.

(** *** The names of the meshes written *)

Lemma read_nat_digits_of (fuel : nat) :
  forall n acc, n < fuel -> read_nat 0 (digits_of fuel n acc) = read_nat n acc.
Proof.
  induction fuel as [|fuel IH]; intros n acc Hn; [lia|].
  cbn [digits_of].
  assert (Hd : digit_value (ascii_of_nat (48 + n mod 10)) = n mod 10).
  { unfold digit_value. rewrite nat_ascii_embedding.
    - lia.
    - pose proof (Nat.mod_upper_bound n 10). lia. }
  pose proof (Nat.div_mod_eq n 10) as Hdm.
  destruct (Nat.eqb_spec (n / 10) 0) as [Hz|Hnz].
  - cbn [read_nat]. rewrite Hd. f_equal. lia.
  - rewrite IH.
    + cbn [read_nat]. rewrite Hd. f_equal. lia.
    + assert (n / 10 < n) by (apply Nat.div_lt; lia). lia.
Qed.

(** [int(str(n)) == n] *)
Lemma read_nat_str_of_nat (n : nat) : read_nat 0 (str_of_nat n) = n.
Proof. unfold str_of_nat. rewrite read_nat_digits_of by lia. reflexivity. Qed.

Lemma all_digits_digits_of (fuel : nat) :
  forall n acc, all_digits acc = true -> all_digits (digits_of fuel n acc) = true.
Proof.
  induction fuel as [|fuel IH]; intros n acc Hacc; [exact Hacc|].
  cbn [digits_of].
  assert (Hc : all_digits (String (ascii_of_nat (48 + n mod 10)) acc) = true).
  { cbn [all_digits]. rewrite Hacc, Bool.andb_true_r. unfold is_digit.
    rewrite nat_ascii_embedding by (pose proof (Nat.mod_upper_bound n 10); lia).
    pose proof (Nat.mod_upper_bound n 10).
    apply Bool.andb_true_iff. split; apply Nat.leb_le; lia. }
  destruct (Nat.eqb (n / 10) 0); [exact Hc | apply IH; exact Hc].
Qed.

Lemma all_digits_str_of_nat (n : nat) : all_digits (str_of_nat n) = true.
Proof. apply all_digits_digits_of. reflexivity. Qed.

(** Digits followed by something that does not start with a digit: the
    digits can be read off. *)
Lemma digits_then_tail (d1 d2 : string) (c1 c2 : ascii) (t1 t2 : string) :
  all_digits d1 = true -> all_digits d2 = true ->
  is_digit c1 = false -> is_digit c2 = false ->
  (d1 ++ String c1 t1)%string = (d2 ++ String c2 t2)%string ->
  d1 = d2 /\ String c1 t1 = String c2 t2.
Proof.
  revert d2. induction d1 as [|a d1 IH]; intros d2 H1 H2 Hc1 Hc2 Heq.
  - destruct d2 as [|b d2]; cbn in Heq; [split; [reflexivity | exact Heq]|].
    inversion Heq; subst. cbn in H2. rewrite Hc1 in H2. discriminate.
  - destruct d2 as [|b d2]; cbn in Heq.
    + inversion Heq; subst. cbn in H1. rewrite Hc2 in H1. discriminate.
    + inversion Heq; subst. cbn in H1, H2.
      apply Bool.andb_true_iff in H1, H2.
      destruct (IH d2 (proj2 H1) (proj2 H2) Hc1 Hc2 H3) as [-> Ht].
      split; [reflexivity | exact Ht].
Qed.

Lemma mesh_name_injective (i j : nat) : mesh_name i = mesh_name j -> i = j.
Proof.
  unfold mesh_name. intros H.
  apply (digits_then_tail _ _ "."%char "."%char "obj" "obj") in H;
    try apply all_digits_str_of_nat; try reflexivity.
  destruct H as [H _].
  rewrite <- (read_nat_str_of_nat i), <- (read_nat_str_of_nat j), H. reflexivity.
Qed.

Lemma mesh_name_not_post (i j : nat) :
  mesh_name i <> (str_of_nat j ++ "_post.obj")%string.
Proof.
  unfold mesh_name. intros H.
  apply (digits_then_tail _ _ "."%char "_"%char "obj" "post.obj") in H;
    try apply all_digits_str_of_nat; try reflexivity.
  destruct H as [_ H]. discriminate H.
Qed.

Lemma saved_app (l1 l2 : Log) : saved (l1 ++ l2) = saved l1 ++ saved l2.
Proof. apply flat_map_app. Qed.

Lemma NoDup_named (st : Stage) (j : nat) :
  NoDup (map (fun i => (st, mesh_name i)) (seq 0 j)).
Proof.
  apply NoDup_map_NoDup_ForallPairs; [|apply seq_NoDup].
  intros x y _ _ H. inversion H. apply mesh_name_injective. assumption.
Qed.

Section Facts.

Context {Renderer Cameras Cache : Type}.
Variable E : Collaborators Renderer Cameras Cache.
Variable args : Args.

(** X8. When the guard of the update step fails for a refinement view whose
    update mask holds zeros and ones - too few pixels to update, or updating
    switched off - no inpainter call is made, and what goes to the merge is
    the rendered image with an all-black mask: the pixels that were to
    update are blanked. *)
Theorem skipped_update_merges_black (r : RenderOut Renderer Cameras)
    (prompt : string) (l : Log) :
  binary_mask (update_mask_tensor _ _ r) ->
  should_update _ _ args r = false ->
  exists blank,
    refine_view_update _ _ _ E args prompt r l = (Ok (init_image _ _ r, blank), l)
    /\ image_size_of blank = image_size_of (ToPILImage (update_mask_tensor _ _ r))
    /\ Forall (Forall (fun v => v = 0%Z)) blank.
Proof.
  intros Hbin Hguard. exists (ToPILImage (zero_where_one (update_mask_tensor _ _ r))).
  split; [unfold refine_view_update; rewrite Hguard; reflexivity|]. split.
  - unfold image_size_of, ToPILImage, zero_where_one. rewrite !length_map.
    destruct (update_mask_tensor _ _ r) as [|row rest]; cbn; [reflexivity|].
    rewrite !length_map. reflexivity.
  - apply ToPILImage_empty, zero_where_one_binary, Hbin.
Qed.

(** *** Too few viewpoints *)

Lemma generate_view_needs_viewpoint pd pe pa ps vp cache i atlas atlas' :
  fst (generate_view _ _ _ E args pd pe pa ps vp cache i atlas []) = Ok atlas' ->
  i < List.length pd /\ i < List.length pe /\ i < List.length pa /\ i < List.length ps.
Proof.
  unfold generate_view, getitem.
  destruct (nth_error pd i) eqn:Hd; [| cbn; discriminate].
  destruct (nth_error pe i) eqn:He; [| cbn; discriminate].
  destruct (nth_error pa i) eqn:Ha; [| cbn; discriminate].
  destruct (nth_error ps i) eqn:Hs; [| cbn; discriminate].
  intros _. repeat split; apply nth_error_Some; congruence.
Qed.

Lemma generation_loop_needs_viewpoints pd pe pa ps vp cache idxs :
  forall atlas atlas',
    fst (for_each idxs (generate_view _ _ _ E args pd pe pa ps vp cache) atlas [])
      = Ok atlas' ->
    forall i, In i idxs ->
      i < List.length pd /\ i < List.length pe /\ i < List.length pa
      /\ i < List.length ps.
Proof.
  induction idxs as [|k rest IH]; intros atlas atlas' Hok i Hi; [contradiction|].
  rewrite for_each_cons in Hok by (intros; apply writer_generate_view).
  destruct (generate_view _ _ _ E args pd pe pa ps vp cache k atlas [])
    as [[atlas1|x] evs] eqn:Hstep; cbn [fst] in Hok; [|discriminate].
  destruct Hi as [<- | Hi].
  - eapply generate_view_needs_viewpoint. rewrite Hstep. reflexivity.
  - eapply IH; eassumption.
Qed.

(** X9. A run on viewpoint lists of which one is shorter than
    [NUM_PRINCIPLE] never completes: it raises during the generation
    stage, before any view is selected for refinement and before any
    post-processing. *)
Theorem too_few_viewpoints texture d e a s vp :
  List.length d < NUM_PRINCIPLE args \/ List.length e < NUM_PRINCIPLE args
  \/ List.length a < NUM_PRINCIPLE args \/ List.length s < NUM_PRINCIPLE args ->
  let run := generate_texture _ _ _ E args texture d e a s vp [] in
  (exists x, fst run = Err x)
  /\ count is_select (snd run) = 0
  /\ count is_postprocess (snd run) = 0.
Proof.
  intros Hshort. cbv zeta. rewrite generate_texture_run. cbv zeta.
  pose proof (generation_stage_counts E args texture d e a s vp) as Hcounts.
  cbv zeta in Hcounts.
  assert (Hfail : forall atlas,
            fst (generation_stage _ _ _ E args texture d e a s vp []) <> Ok atlas).
  { intros atlas. rewrite generation_stage_run. cbv zeta.
    destruct (build_similarity_texture_cache_for_all_views _ _ _ _ _ _ _ _) as [cache|x];
      cbn [fst]; [|discriminate].
    intros Hok.
    assert (Hpos : 0 < NUM_PRINCIPLE args)
      by (unfold NUM_PRINCIPLE; destruct (_ || _); lia).
    destruct (generation_loop_needs_viewpoints _ _ _ _ _ _ _ _ _ Hok
                (NUM_PRINCIPLE args - 1)) as (Hd & He & Ha & Hs).
    { apply in_seq. lia. }
    rewrite !length_firstn in *. lia. }
  destruct (generation_stage _ _ _ E args texture d e a s vp []) as [[atlas|x] gen];
    cbn [fst snd] in *.
  - exfalso. exact (Hfail atlas eq_refl).
  - split; [eexists; reflexivity | exact Hcounts].
Qed.

(** *** How often the inpainter and the merger are called *)

(** A loop whose iterations each make between [lo] (when they complete) and
    [hi] calls of a kind. *)
Lemma for_each_count {St} (p : Event -> bool) (lo hi : nat)
    (body : nat -> St -> M Log St) :
  (forall i st, writer (body i st)) ->
  (forall i st,
      count p (snd (body i st [])) <= hi
      /\ (forall st', fst (body i st []) = Ok st' -> lo <= count p (snd (body i st [])))) ->
  forall idxs st,
    count p (snd (for_each idxs body st [])) <= hi * List.length idxs
    /\ (forall st', fst (for_each idxs body st []) = Ok st' ->
          lo * List.length idxs <= count p (snd (for_each idxs body st []))).
Proof.
  intros Hw Hb. induction idxs as [|i rest IH]; intros st.
  - cbn. split; [lia | intros; lia].
  - rewrite for_each_cons by exact Hw. destruct (Hb i st) as [Hhi Hlo].
    destruct (body i st []) as [[st1|x] evs]; cbn [fst snd List.length] in *.
    + destruct (IH st1) as [Hhi' Hlo']. rewrite count_app. split; [lia|].
      intros st' Hok. specialize (Hlo st1 eq_refl). specialize (Hlo' st' Hok). lia.
    + split; [lia | intros st' H; discriminate].
Qed.

Ltac close_counts :=
  cbv zeta; script_red;
  cbn [count filter is_inpaint is_backproject List.length fst snd];
  repeat split; intros;
  first [lia | discriminate | congruence].

Lemma generate_view_calls pd pe pa ps vp cache i atlas :
  let run := generate_view _ _ _ E args pd pe pa ps vp cache i atlas [] in
  (count is_inpaint (snd run) <= 2
   /\ (forall a', fst run = Ok a' -> 1 <= count is_inpaint (snd run)))
  /\ (count is_backproject (snd run) <= 2
      /\ (forall a', fst run = Ok a' -> 1 <= count is_backproject (snd run)))
  /\ (no_update args = true ->
        count is_inpaint (snd run) <= 1 /\ count is_backproject (snd run) <= 1).
Proof.
  unfold_view. unfold getitem.
  destruct (nth_error pd i) as [d|]; [| close_counts].
  destruct (nth_error pe i) as [e|]; [| close_counts].
  destruct (nth_error pa i) as [a|]; [| close_counts].
  destruct (nth_error ps i) as [s|]; [| close_counts].
  script_cases.
  all: try match goal with
           | H : should_update _ _ args ?r = true |- _ =>
               assert (no_update args = false)
                 by (destruct (no_update args) eqn:Hnu; [|reflexivity];
                     rewrite (should_update_no_update args r Hnu) in H; discriminate)
           end.
  all: close_counts.
Qed.

Lemma refine_view_calls d e a s cache i st :
  let run := refine_view _ _ _ E args d e a s cache i st [] in
  (count is_inpaint (snd run) <= 1
   /\ (forall st', fst run = Ok st' -> 0 <= count is_inpaint (snd run)))
  /\ (count is_backproject (snd run) <= 1
      /\ (forall st', fst run = Ok st' -> 1 <= count is_backproject (snd run)))
  /\ (no_update args = true -> count is_inpaint (snd run) <= 0).
Proof.
  unfold_view. unfold last_item.
  script_cases.
  all: try match goal with
           | H : should_update _ _ args ?r = true |- _ =>
               assert (no_update args = false)
                 by (destruct (no_update args) eqn:Hnu; [|reflexivity];
                     rewrite (should_update_no_update args r Hnu) in H; discriminate)
           end.
  all: close_counts.
Qed.

(** The calls of a kind in a whole run, from the calls in one iteration of
    each loop; [p] counts neither cache building, nor post-processing, nor
    the writing of meshes. *)
Lemma run_count (p : Event -> bool) (lo_g hi_g lo_r hi_r : nat) :
  (forall d e a, p (EvCache d e a) = false) ->
  (forall t m, p (EvPostprocess t m) = false) ->
  (forall st f t, p (EvSaveObj st f t) = false) ->
  (forall pd pe pa ps vp cache i atlas,
      let run := generate_view _ _ _ E args pd pe pa ps vp cache i atlas [] in
      count p (snd run) <= hi_g
      /\ (forall a', fst run = Ok a' -> lo_g <= count p (snd run))) ->
  (forall d e a s cache i st,
      let run := refine_view _ _ _ E args d e a s cache i st [] in
      count p (snd run) <= hi_r
      /\ (forall st', fst run = Ok st' -> lo_r <= count p (snd run))) ->
  forall texture d e a s vp,
    let run := generate_texture _ _ _ E args texture d e a s vp [] in
    let n := NUM_PRINCIPLE args in
    let k := Z.to_nat (update_steps args) in
    count p (snd run) <= hi_g * n + hi_r * k
    /\ (forall res, fst run = Ok res -> lo_g * n + lo_r * k <= count p (snd run)).
Proof.
  intros Hc Hpp Hsv Hg Hr texture d e a s vp. cbv zeta.
  rewrite generate_texture_run. cbv zeta. rewrite generation_stage_run. cbv zeta.
  destruct (build_similarity_texture_cache_for_all_views _ _ _ E texture _ _ _)
    as [cache|x].
  2:{ cbn [fst snd]. unfold count. cbn [filter]. rewrite Hc. cbn.
      split; [lia | intros res H; discriminate]. }
  cbn [fst snd].
  match goal with
  | |- context [for_each ?idxs (generate_view _ _ _ E args ?pd ?pe ?pa ?ps vp cache) ?at0 []] =>
      destruct (for_each_count p lo_g hi_g
                  (generate_view _ _ _ E args pd pe pa ps vp cache)
                  (fun i st => writer_generate_view E args pd pe pa ps vp cache i st)
                  (fun i st => Hg pd pe pa ps vp cache i st)
                  idxs at0) as [Hghi Hglo];
      destruct (for_each idxs (generate_view _ _ _ E args pd pe pa ps vp cache) at0 [])
        as [[atlas1|x] gen]
  end; cbn [fst snd] in *; rewrite length_seq in *.
  2:{ change (?c :: gen) with ([c] ++ gen). rewrite count_app.
      unfold count at 1. cbn [filter]. rewrite Hc. cbn [List.length].
      split; [lia | intros res H; discriminate]. }
  specialize (Hglo atlas1 eq_refl).
  assert (Hhead : forall dl el al tail,
            count p (EvCache dl el al :: tail) = count p tail).
  { intros dl el al tail. unfold count. cbn [filter]. rewrite Hc. reflexivity. }
  destruct (Z.ltb_spec 0 (update_steps args)) as [Hpos|Hneg].
  2:{ cbn [fst snd]. replace (Z.to_nat (update_steps args)) with 0 by lia.
      rewrite Hhead. split; [lia | intros; lia]. }
  rewrite refinement_stage_run. cbv zeta.
  destruct (build_similarity_texture_cache_for_all_views _ _ _ E _ _ _ _) as [cache'|x].
  2:{ cbn [fst snd app]. rewrite Hhead, count_app.
      unfold count at 2. cbn [filter]. rewrite Hc. cbn [List.length].
      split; [lia | intros res H; discriminate]. }
  match goal with
  | |- context [for_each ?idxs (refine_view _ _ _ E args ?rd ?re ?ra ?rs cache') ?st0 []] =>
      destruct (for_each_count p lo_r hi_r
                  (refine_view _ _ _ E args rd re ra rs cache')
                  (fun i st => writer_refine_view E args rd re ra rs cache' i st)
                  (fun i st => Hr rd re ra rs cache' i st)
                  idxs st0) as [Hrhi Hrlo];
      destruct (for_each idxs (refine_view _ _ _ E args rd re ra rs cache') st0 [])
        as [[st|x] evs]
  end; cbn [fst snd] in *; rewrite length_seq in *.
  2:{ cbn [app]. rewrite Hhead, count_app.
      change (?c :: evs) with ([c] ++ evs). rewrite count_app.
      unfold count at 2. cbn [filter]. rewrite Hc. cbn [List.length].
      split; [lia | intros res H; discriminate]. }
  specialize (Hrlo st eq_refl).
  assert (Htail : forall tail, count p tail = 0 ->
            count p (EvCache (firstn (NUM_PRINCIPLE args) d)
                       (firstn (NUM_PRINCIPLE args) e) (firstn (NUM_PRINCIPLE args) a)
                     :: gen ++ EvCache (skipn (NUM_PRINCIPLE args) d)
                                 (skipn (NUM_PRINCIPLE args) e)
                                 (skipn (NUM_PRINCIPLE args) a) :: evs ++ tail)
            = count p gen + count p evs).
  { intros tail Ht. rewrite Hhead, count_app.
    change (?c :: evs ++ tail) with ([c] ++ evs ++ tail). rewrite !count_app, Ht.
    unfold count at 2. cbn [filter]. rewrite Hc. cbn [List.length]. lia. }
  destruct (post_process args).
  - rewrite post_processing_run. cbv zeta.
    destruct (apply_inpainting_postprocess _ _ _ E _ _ _ _ _); cbn [fst snd app];
      rewrite Htail by (unfold count; cbn [filter]; rewrite ?Hpp, ?Hsv; reflexivity);
      (split; [lia | intros; first [lia | discriminate]]).
  - cbn [fst snd app]. pose proof (Htail [] eq_refl) as Hnil.
    rewrite app_nil_r in Hnil. rewrite Hnil.
    split; [lia | intros; lia].
Qed.

(** X10. With [n] principal views and [k] refinement steps, a run calls the
    merger at most [2 * n + k] times and the inpainter at most [2 * n + k]
    times; a run that completes has called the merger at least [n + k]
    times, once for every view, and the inpainter at least [n] times, once
    for every principal view. *)
Theorem calls_per_run texture d e a s vp :
  let run := generate_texture _ _ _ E args texture d e a s vp [] in
  let n := NUM_PRINCIPLE args in
  let k := Z.to_nat (update_steps args) in
  count is_backproject (snd run) <= 2 * n + k
  /\ count is_inpaint (snd run) <= 2 * n + k
  /\ (forall res, fst run = Ok res ->
        n + k <= count is_backproject (snd run)
        /\ n <= count is_inpaint (snd run)).
Proof.
  cbv zeta.
  destruct (run_count is_backproject 1 2 1 1
              (fun _ _ _ => eq_refl) (fun _ _ => eq_refl) (fun _ _ _ => eq_refl)
              (fun pd pe pa ps vp cache i atlas =>
                 proj1 (proj2 (generate_view_calls pd pe pa ps vp cache i atlas)))
              (fun d e a s cache i st =>
                 proj1 (proj2 (refine_view_calls d e a s cache i st)))
              texture d e a s vp) as [Hbhi Hblo].
  destruct (run_count is_inpaint 1 2 0 1
              (fun _ _ _ => eq_refl) (fun _ _ => eq_refl) (fun _ _ _ => eq_refl)
              (fun pd pe pa ps vp cache i atlas =>
                 proj1 (generate_view_calls pd pe pa ps vp cache i atlas))
              (fun d e a s cache i st =>
                 proj1 (refine_view_calls d e a s cache i st))
              texture d e a s vp) as [Hihi Hilo].
  cbv zeta in *. repeat split; try lia.
  - specialize (Hblo res H). lia.
  - specialize (Hilo res H). lia.
Qed.

(** X11. With updating switched off ([--no_update]) the inpainter is never
    called for a view of the refinement and once at most for a principal
    view; a run that completes has called the inpainter exactly
    [NUM_PRINCIPLE] times and the merger once more for every refinement
    step. *)
Theorem no_update_calls texture d e a s vp :
  no_update args = true ->
  let run := generate_texture _ _ _ E args texture d e a s vp [] in
  let n := NUM_PRINCIPLE args in
  let k := Z.to_nat (update_steps args) in
  count is_inpaint (snd run) <= n
  /\ count is_backproject (snd run) <= n + k
  /\ (forall res, fst run = Ok res ->
        count is_inpaint (snd run) = n /\ count is_backproject (snd run) = n + k).
Proof.
  intros Hnu. cbv zeta.
  destruct (run_count is_backproject 1 1 1 1
              (fun _ _ _ => eq_refl) (fun _ _ => eq_refl) (fun _ _ _ => eq_refl)
              (fun pd pe pa ps vp cache i atlas =>
                 conj (proj2 (proj2 (proj2 (generate_view_calls pd pe pa ps vp cache i atlas)) Hnu))
                      (proj2 (proj1 (proj2 (generate_view_calls pd pe pa ps vp cache i atlas)))))
              (fun d e a s cache i st =>
                 proj1 (proj2 (refine_view_calls d e a s cache i st)))
              texture d e a s vp) as [Hbhi Hblo].
  destruct (run_count is_inpaint 1 1 0 0
              (fun _ _ _ => eq_refl) (fun _ _ => eq_refl) (fun _ _ _ => eq_refl)
              (fun pd pe pa ps vp cache i atlas =>
                 conj (proj1 (proj2 (proj2 (generate_view_calls pd pe pa ps vp cache i atlas)) Hnu))
                      (proj2 (proj1 (generate_view_calls pd pe pa ps vp cache i atlas))))
              (fun d e a s cache i st =>
                 conj (proj2 (proj2 (refine_view_calls d e a s cache i st)) Hnu)
                      (fun st' _ => Nat.le_0_l _))
              texture d e a s vp) as [Hihi Hilo].
  cbv zeta in *. repeat split; try lia.
  - specialize (Hilo res H). lia.
  - specialize (Hblo res H). lia.
Qed.

(** *** Meshes are written once *)

Lemma generate_view_saved pd pe pa ps vp cache i atlas :
  let run := generate_view _ _ _ E args pd pe pa ps vp cache i atlas [] in
  (saved (snd run) = [(GenerateStage, mesh_name i)]
   /\ exists a', fst run = Ok a')
  \/ (saved (snd run) = [] /\ exists x, fst run = Err x).
Proof.
  unfold_view. unfold getitem.
  destruct (nth_error pd i) as [d|]; [| right; cbn; eauto].
  destruct (nth_error pe i) as [e|]; [| right; cbn; eauto].
  destruct (nth_error pa i) as [a|]; [| right; cbn; eauto].
  destruct (nth_error ps i) as [s|]; [| right; cbn; eauto].
  cbv zeta. script_cases.
  all: first [ left; split; [reflexivity | eexists; reflexivity]
             | right; split; [reflexivity | eexists; reflexivity] ].
Qed.

Lemma refine_view_saved d e a s cache i st :
  let run := refine_view _ _ _ E args d e a s cache i st [] in
  (saved (snd run) = [(UpdateStage, mesh_name i)]
   /\ exists st', fst run = Ok st')
  \/ (saved (snd run) = [] /\ exists x, fst run = Err x).
Proof.
  unfold_view. unfold last_item. cbv zeta. script_cases.
  all: first [ left; split; [reflexivity | eexists; reflexivity]
             | right; split; [reflexivity | eexists; reflexivity] ].
Qed.

(** A loop that writes the mesh of its view at the end of each iteration. *)
Lemma for_each_saved {St} (stage : Stage) (body : nat -> St -> M Log St) :
  (forall i st, writer (body i st)) ->
  (forall i st,
      (saved (snd (body i st [])) = [(stage, mesh_name i)]
       /\ exists st', fst (body i st []) = Ok st')
      \/ (saved (snd (body i st [])) = [] /\ exists x, fst (body i st []) = Err x)) ->
  forall m k st,
    exists j, j <= m
      /\ saved (snd (for_each (seq k m) body st []))
         = map (fun i => (stage, mesh_name i)) (seq k j)
      /\ (forall st', fst (for_each (seq k m) body st []) = Ok st' -> j = m).
Proof.
  intros Hw Hb. induction m as [|m IH]; intros k st; cbn [seq].
  - exists 0. cbn. repeat split; auto.
  - rewrite for_each_cons by exact Hw.
    destruct (Hb k st) as [(Hs & st1 & Hok) | (Hs & x & Herr)].
    + destruct (body k st []) as [[st1'|?] evs]; cbn [fst snd] in *; [|discriminate].
      destruct (IH (S k) st1') as (j & Hj & Hmap & Hdone).
      exists (S j). split; [lia|]. split.
      * rewrite saved_app, Hs, Hmap. reflexivity.
      * intros st' H. rewrite (Hdone st' H). reflexivity.
    + destruct (body k st []) as [[?|x'] evs]; cbn [fst snd] in *; [discriminate|].
      exists 0. split; [lia|]. split; [exact Hs | intros st' H; discriminate].
Qed.

Ltac close_shape :=
  split; [lia |]; split; [lia |]; split; [auto |]; split; [reflexivity |];
  let H := fresh in
  intros ? H; first [discriminate H | split; lia].

(** X12. The meshes a run writes are, in this order: [0.obj], [1.obj], ...
    in the directory of the generation stage, one after each principal view;
    then [0.obj], [1.obj], ... in the directory of the refinement stage, one
    after each refinement view; then the post-processed mesh.  No file is
    written twice: no checkpoint of a run overwrites an earlier one. *)
Theorem meshes_written_once texture d e a s vp :
  let run := generate_texture _ _ _ E args texture d e a s vp [] in
  (exists j1 j2 post,
      j1 <= NUM_PRINCIPLE args /\ j2 <= Z.to_nat (update_steps args)
      /\ (post = []
          \/ post = [(UpdateStage,
                      (str_of_nat (Z.to_nat (update_steps args) - 1) ++ "_post.obj")%string)])
      /\ saved (snd run)
         = map (fun i => (GenerateStage, mesh_name i)) (seq 0 j1)
           ++ map (fun i => (UpdateStage, mesh_name i)) (seq 0 j2)
           ++ post
      /\ (forall res, fst run = Ok res ->
            j1 = NUM_PRINCIPLE args /\ j2 = Z.to_nat (update_steps args)))
  /\ NoDup (saved (snd run)).
Proof.
  cbv zeta.
  assert (Hshape :
    exists j1 j2 post,
      j1 <= NUM_PRINCIPLE args /\ j2 <= Z.to_nat (update_steps args)
      /\ (post = []
          \/ post = [(UpdateStage,
                      (str_of_nat (Z.to_nat (update_steps args) - 1) ++ "_post.obj")%string)])
      /\ saved (snd (generate_texture _ _ _ E args texture d e a s vp []))
         = map (fun i => (GenerateStage, mesh_name i)) (seq 0 j1)
           ++ map (fun i => (UpdateStage, mesh_name i)) (seq 0 j2)
           ++ post
      /\ (forall res, fst (generate_texture _ _ _ E args texture d e a s vp []) = Ok res ->
            j1 = NUM_PRINCIPLE args /\ j2 = Z.to_nat (update_steps args))).
  { rewrite generate_texture_run. cbv zeta. rewrite generation_stage_run. cbv zeta.
    destruct (build_similarity_texture_cache_for_all_views _ _ _ E texture _ _ _)
      as [cache|x].
    2:{ exists 0, 0, []. cbn. close_shape. }
    cbn [fst snd].
    match goal with
    | |- context [for_each (seq 0 ?n) (generate_view _ _ _ E args ?pd ?pe ?pa ?ps vp cache) ?at0 []] =>
        destruct (for_each_saved GenerateStage
                    (generate_view _ _ _ E args pd pe pa ps vp cache)
                    (fun i st => writer_generate_view E args pd pe pa ps vp cache i st)
                    (fun i st => generate_view_saved pd pe pa ps vp cache i st)
                    n 0 at0) as (j1 & Hj1 & Hg & Hgdone);
        destruct (for_each (seq 0 n) (generate_view _ _ _ E args pd pe pa ps vp cache) at0 [])
          as [[atlas1|x] gen]
    end; cbn [fst snd] in *.
    2:{ exists j1, 0, []. cbn [saved flat_map app seq map]. fold (saved gen).
        rewrite Hg, app_nil_r. close_shape. }
    specialize (Hgdone atlas1 eq_refl).
    destruct (Z.ltb_spec 0 (update_steps args)) as [Hpos|Hneg].
    2:{ exists j1, 0, []. cbn [fst snd saved flat_map app seq map]. fold (saved gen).
        rewrite Hg, app_nil_r. close_shape. }
    rewrite refinement_stage_run. cbv zeta.
    destruct (build_similarity_texture_cache_for_all_views _ _ _ E _ _ _ _) as [cache'|x].
    2:{ exists j1, 0, []. cbn [fst snd]. change (?c :: gen) with ([c] ++ gen).
        rewrite !saved_app, Hg. cbn. rewrite app_nil_r.
        close_shape. }
    match goal with
    | |- context [for_each (seq 0 ?n) (refine_view _ _ _ E args ?rd ?re ?ra ?rs cache') ?st0 []] =>
        destruct (for_each_saved UpdateStage
                    (refine_view _ _ _ E args rd re ra rs cache')
                    (fun i st => writer_refine_view E args rd re ra rs cache' i st)
                    (fun i st => refine_view_saved rd re ra rs cache' i st)
                    n 0 st0) as (j2 & Hj2 & Hr & Hrdone);
        destruct (for_each (seq 0 n) (refine_view _ _ _ E args rd re ra rs cache') st0 [])
          as [[st|x] evs]
    end; cbn [fst snd] in *.
    2:{ exists j1, j2, []. change (?c :: gen) with ([c] ++ gen).
        change (?c :: evs) with ([c] ++ evs).
        rewrite !saved_app, Hg, Hr. cbn [saved flat_map app]. rewrite app_nil_r.
        close_shape. }
    specialize (Hrdone st eq_refl).
    destruct (post_process args).
    - rewrite post_processing_run. cbv zeta.
      destruct (apply_inpainting_postprocess _ _ _ E _ _ _ _ _); cbn [fst snd].
      + exists j1, j2, [(UpdateStage,
                         (str_of_nat (Z.to_nat (update_steps args) - 1) ++ "_post.obj")%string)].
        change (?c :: gen) with ([c] ++ gen).
        change (?c :: evs ++ ?t) with ([c] ++ evs ++ t).
        rewrite !saved_app, Hg, Hr. cbn [saved flat_map app].
        close_shape.
      + exists j1, j2, []. change (?c :: gen) with ([c] ++ gen).
        change (?c :: evs ++ ?t) with ([c] ++ evs ++ t).
        rewrite !saved_app, Hg, Hr. cbn [saved flat_map app]. rewrite app_nil_r.
        close_shape.
    - exists j1, j2, []. cbn [fst snd]. change (?c :: gen) with ([c] ++ gen).
      change (?c :: evs) with ([c] ++ evs).
      rewrite !saved_app, Hg, Hr. cbn [saved flat_map app]. rewrite app_nil_r.
      close_shape. }
  split; [exact Hshape|].
  destruct Hshape as (j1 & j2 & post & _ & _ & Hpost & -> & _).
  apply NoDup_app; [apply NoDup_named | |].
  - apply NoDup_app; [apply NoDup_named | |].
    + destruct Hpost as [-> | ->]; repeat constructor; intros [].
    + intros x Hx Hp. apply in_map_iff in Hx. destruct Hx as (i & <- & _).
      destruct Hpost as [-> | ->]; [destruct Hp|].
      destruct Hp as [Hp | []].
      pose proof (f_equal snd Hp) as Hname. cbn [snd] in Hname.
      symmetry in Hname. exact (mesh_name_not_post _ _ Hname).
  - intros x Hx Hin. apply in_map_iff in Hx. destruct Hx as (i & <- & _).
    apply in_app_or in Hin. destruct Hin as [Hin | Hin].
    + apply in_map_iff in Hin. destruct Hin as (i' & Hi' & _).
      pose proof (f_equal fst Hi') as Hst. discriminate Hst.
    + destruct Hpost as [-> | ->]; [destruct Hin|].
      destruct Hin as [Hin | []].
      pose proof (f_equal fst Hin) as Hst. discriminate Hst.
Qed.

End Facts.

(** *** Runs *)

Lemma skipped_update_merges_black_witness :
  exists blank,
    refine_view_update _ _ _ (Fixture.collaborators sparse_update [[7]]%Z) Fixture.args0
      "a bowl of rice" sparse_update []
    = (Ok (init_image _ _ sparse_update, blank), [])
    /\ image_size_of blank = (1, 20)
    /\ Forall (Forall (fun v => v = 0%Z)) blank.
Proof.
  apply (skipped_update_merges_black (Fixture.collaborators sparse_update [[7]]%Z)
           Fixture.args0 sparse_update "a bowl of rice" []).
  - apply Forall_cons; [| apply Forall_nil]. cbn.
    repeat (apply Forall_cons; [first [left; reflexivity | right; reflexivity] |]).
    apply Forall_nil.
  - reflexivity.
Defined.

Lemma too_few_viewpoints_witness :
  let run := generate_texture _ _ _ (Fixture.collaborators Fixture.all_generate [[7]]%Z)
               Fixture.args0 Fixture.texture0 few_list few_list few_list few_sectors
               few_list [] in
  (exists x, fst run = Err x)
  /\ count is_select (snd run) = 0
  /\ count is_postprocess (snd run) = 0.
Proof.
  apply (too_few_viewpoints (Fixture.collaborators Fixture.all_generate [[7]]%Z)
           Fixture.args0 Fixture.texture0 few_list few_list few_list few_sectors few_list).
  left. cbn. lia.
Defined.

(** The run on three viewpoints stops with [IndexError] at the fourth. *)
Example three_viewpoints_run :
  fst (generate_texture _ _ _ (Fixture.collaborators Fixture.all_generate [[7]]%Z)
         Fixture.args0 Fixture.texture0 few_list few_list few_list few_sectors
         few_list [])
  = Err (IndexError "list index out of range").
Proof. vm_compute. reflexivity. Qed.

Lemma no_update_calls_witness :
  count is_inpaint (snd (Fixture.whole_run Fixture.all_update [[7]]%Z args_no_update)) <= 6.
Proof.
  exact (proj1 (no_update_calls (Fixture.collaborators Fixture.all_update [[7]]%Z)
                  args_no_update Fixture.texture0 Fixture.dist_list0 Fixture.elev_list0
                  Fixture.azim_list0 Fixture.sector_list0 Fixture.view_punishments0
                  eq_refl)).
Defined.

(** With everything to update, the same run without [--no_update] calls the
    inpainter twice for every principal view and once for every refinement
    view. *)
Example update_calls_run :
  count is_inpaint (snd (Fixture.whole_run Fixture.all_update [[7]]%Z Fixture.args0)) = 14
  /\ count is_inpaint (snd (Fixture.whole_run Fixture.all_update [[7]]%Z args_no_update)) = 6.
Proof. split; vm_compute; reflexivity. Qed.

End Text2TexMoreFacts.

(** ** [generate_nutritionverse_textures.py] *)

Module DriverFacts.
Import Driver.

Lemma announced_app (l1 l2 : list Event) :
  announced l1 -> announced l2 -> announced (l1 ++ l2).
Proof.
  intros H1 H2 k c Hk.
  destruct (Nat.lt_ge_cases k (List.length l1)) as [Hlt|Hge].
  - rewrite nth_error_app1 in Hk by exact Hlt.
    destruct (H1 k c Hk) as (k' & -> & Hp). exists k'. split; [reflexivity|].
    rewrite nth_error_app1 by lia. exact Hp.
  - rewrite nth_error_app2 in Hk by exact Hge.
    destruct (H2 _ c Hk) as (k' & Hk' & Hp).
    exists (List.length l1 + k'). split; [lia|].
    rewrite nth_error_app2 by lia.
    replace (List.length l1 + k' - List.length l1) with k' by lia. exact Hp.
Qed.

Section WithCollaborators.

Variable Toml : Type.
Variable load_toml : string -> result Toml.
Variable item : Toml -> string -> result string.
Variable subprocess_run : list Event -> string -> option PyExc.
Variable path_div : string -> string -> string.
Variable os_path_join : string -> string -> string.
Variables input_dir output_dir metadata_dir device device_id : string.
Variable dry_run : bool.

Local Notation process :=
  (process_file Toml load_toml item subprocess_run path_div os_path_join
     input_dir output_dir metadata_dir device device_id dry_run).
Local Notation run_all :=
  (main Toml load_toml item subprocess_run path_div os_path_join
     input_dir output_dir metadata_dir device device_id dry_run).

Ltac small_log :=
  intros k c Hk; do 4 (try destruct k as [|k]); cbn in Hk; try discriminate;
  inversion Hk; subst; eexists; split; reflexivity.

(** What one file adds to the log. *)
Lemma process_file_log (file : ObjFile) (l : list Event) :
  exists new,
    snd (process file l) = l ++ new
    /\ announced new
    /\ (dry_run = true -> Forall (fun ev => is_ran ev = false) new).
Proof.
  unfold process_file, bind, load, lift, log_event, run_command.
  destruct (load_toml _) as [metadata|e].
  2:{ eexists. split; [reflexivity|]. split; [small_log | repeat constructor]. }
  destruct (item metadata "food_type") as [food|e].
  2:{ eexists. split; [reflexivity|]. split; [small_log | repeat constructor]. }
  destruct (item metadata "description") as [desc|e].
  2:{ eexists. split; [reflexivity|]. split; [small_log | repeat constructor]. }
  destruct dry_run.
  - eexists. cbn [snd]. rewrite <- !app_assoc. cbn [app].
    split; [reflexivity|]. split; [small_log | repeat constructor].
  - eexists. cbn [snd]. rewrite <- !app_assoc. cbn [app].
    split; [reflexivity|]. split; [small_log | discriminate].
Qed.

(** X13. Whatever the metadata and the commands do, every command the
    driver runs was printed by the line just before it, and a dry run runs
    no command at all. *)
Theorem commands_are_announced (files : list ObjFile) (l : list Event) :
  exists new,
    snd (run_all files l) = l ++ new
    /\ announced new
    /\ (dry_run = true -> Forall (fun ev => is_ran ev = false) new).
Proof.
  revert l. induction files as [|file rest IH]; intros l; cbn [main].
  - exists []. cbn. rewrite app_nil_r. split; [reflexivity|].
    split; [intros [|k] c Hk; discriminate | constructor].
  - unfold bind. destruct (process_file_log file l) as (n1 & H1 & Ha1 & Hd1).
    destruct (process file l) as [[[]|e] l1]; cbn [snd] in H1; subst l1.
    + destruct (IH (l ++ n1)) as (n2 & H2 & Ha2 & Hd2).
      exists (n1 ++ n2). rewrite H2, app_assoc. split; [reflexivity|].
      split; [apply announced_app; assumption|].
      intros Hdry. apply Forall_app. split; [apply Hd1 | apply Hd2]; exact Hdry.
    + exists n1. cbn [snd]. repeat split; assumption.
Qed.

Lemma main_app (pre post : list ObjFile) (l : list Event) :
  run_all (pre ++ post) l
  = match run_all pre l with
    | (Ok _, l1) => run_all post l1
    | (Err e, l1) => (Err e, l1)
    end.
Proof.
  revert l. induction pre as [|f pre IH]; intros l; cbn [app main].
  - reflexivity.
  - unfold bind. destruct (process f l) as [[[]|e] l1]; [apply IH | reflexivity].
Qed.

(** X14. A file whose metadata cannot be read stops the driver: the
    exception is its outcome, the only thing done for that file is the
    attempt to read, and nothing is printed or run for the files after
    it. *)
Theorem missing_metadata_stops_the_driver (pre rest : list ObjFile) (file : ObjFile)
    (l l1 : list Event) (e : PyExc) :
  run_all pre l = (Ok tt, l1) ->
  load_toml (metadata_file_path path_div metadata_dir file) = Err e ->
  run_all (pre ++ file :: rest) l
  = (Err e, l1 ++ [Loaded (metadata_file_path path_div metadata_dir file)]).
Proof.
  intros Hpre Hload. rewrite main_app, Hpre. cbn [main].
  unfold bind at 1. unfold process_file, bind, load. rewrite Hload. reflexivity.
Qed.

(** X15. The driver has no handler around [subprocess.run]: when the
    command of a file fails, the exception is the outcome of the driver, the
    log ends with that command, and the files after it are not looked at. *)
Theorem failing_command_stops_the_driver (pre rest : list ObjFile) (file : ObjFile)
    (l l1 : list Event) (metadata : Toml) (food_type description : string) (e : PyExc) :
  dry_run = false ->
  run_all pre l = (Ok tt, l1) ->
  load_toml (metadata_file_path path_div metadata_dir file) = Ok metadata ->
  item metadata "food_type" = Ok food_type ->
  item metadata "description" = Ok description ->
  let command := command_of os_path_join input_dir output_dir device device_id file
                   (food_type ++ ", " ++ description)%string in
  let before := l1 ++ [Loaded (metadata_file_path path_div metadata_dir file);
                       Printed command] in
  subprocess_run before command = Some e ->
  run_all (pre ++ file :: rest) l = (Err e, before ++ [Ran command]).
Proof.
  intros Hdry Hpre Hload Hfood Hdesc command before Hrun.
  rewrite main_app, Hpre. cbn [main]. unfold bind at 1.
  unfold process_file, bind, load, lift, log_event, run_command.
  rewrite Hload, Hfood, Hdesc, Hdry. fold command.
  rewrite <- app_assoc. cbn [app]. fold before. rewrite Hrun. reflexivity.
Qed.

End WithCollaborators.

(** The metadata of the second file is missing: the first command is run,
    the second file stops the driver. *)
Lemma missing_metadata_stops_the_driver_witness :
  let command := command_of join_slash "data" "outputs" "a6000" "cuda:0" rice
                   "rice, a bowl of steamed rice" in
  main _ load_rice item_of (fun _ _ => None) join_slash join_slash
    "data" "outputs" "metadata" "a6000" "cuda:0" false [rice; soup; rice] []
  = (Err (FileNotFoundError "metadata/2_soup.toml"),
     [Loaded "metadata/1_rice.toml"; Printed command; Ran command;
      Loaded "metadata/2_soup.toml"]).
Proof.
  intros command.
  exact (missing_metadata_stops_the_driver _ load_rice item_of (fun _ _ => None)
           join_slash join_slash "data" "outputs" "metadata" "a6000" "cuda:0" false
           [rice] [rice] soup []
           [Loaded "metadata/1_rice.toml"; Printed command; Ran command]
           (FileNotFoundError "metadata/2_soup.toml") eq_refl eq_refl).
Defined.

(** The command of the first file fails: the second file is not read. *)
Lemma failing_command_stops_the_driver_witness :
  let command := command_of join_slash "data" "outputs" "a6000" "cuda:0" rice
                   "rice, a bowl of steamed rice" in
  main _ load_rice item_of (fun _ _ => Some (RuntimeError "exit status 1"))
    join_slash join_slash
    "data" "outputs" "metadata" "a6000" "cuda:0" false [rice; soup] []
  = (Err (RuntimeError "exit status 1"),
     [Loaded "metadata/1_rice.toml"; Printed command; Ran command]).
Proof.
  intros command.
  exact (failing_command_stops_the_driver _ load_rice item_of
           (fun _ _ => Some (RuntimeError "exit status 1"))
           join_slash join_slash "data" "outputs" "metadata" "a6000" "cuda:0" false
           [] [soup] rice [] []
           [("food_type", "rice"); ("description", "a bowl of steamed rice")]
           "rice" "a bowl of steamed rice" (RuntimeError "exit status 1")
           eq_refl eq_refl eq_refl eq_refl eq_refl eq_refl).
Defined.

(** A dry run prints every command twice. *)
Example dry_run_prints_twice :
  let command := command_of join_slash "data" "outputs" "a6000" "cuda:0" rice
                   "rice, a bowl of steamed rice" in
  main _ load_rice item_of (fun _ _ => Some (RuntimeError "never asked"))
    join_slash join_slash
    "data" "outputs" "metadata" "a6000" "cuda:0" true [rice] []
  = (Ok tt, [Loaded "metadata/1_rice.toml"; Printed command; Printed command]).
Proof. reflexivity. Qed.

End DriverFacts.
